(** * The agent execution engine of the AI chat panel

    A shallow embedding of [AgentRunner] (the bounded LLM / tool loop and its
    handoff protocol), of [createAgentGraphFromConfig] (the configurable
    graph builder), of the pure parts of [LiteLLMClient] and of
    [AgentService], with the properties of the engine proved over it.

    Asynchronous calls are sequential in the source (every promise is awaited
    before the next statement), so they are modelled by explicit state passing
    over an abstract [World].  Console output is not modelled, except for
    what the graph builder prints while it builds a graph, which is a log.
    The hooks and the collaborators that the specification gives no failure
    are functions; where a call can fail, the fault is part of its result. *)

From Stdlib Require Import ZArith QArith.
From stdpp Require Import base option list strings gmap pretty.

Set Warnings "-register-all".

Local Open Scope string_scope.
Local Open Scope list_scope.
Local Open Scope nat_scope.

(** ** JavaScript values

    Tool arguments and tool results are typed [any] in the source. *)

Module Js.

(** Plain data.  Numbers are restricted to integers (no NaN, no fractions);
    an object is an ordinary object (its prototype is [Object.prototype])
    given by the list of its own data properties, looked up by first match.
    There are no functions among the values, so no property of an object can
    be called. *)
Inductive JsValue : Type :=
| JsUndefined
| JsNull
| JsBool (b : bool)
| JsNumber (n : Z)
| JsString (s : string)
| JsArray (items : list JsValue)
| JsObject (props : list (string * JsValue)).

(** [!!v] *)
Definition truthy (v : JsValue) : bool :=
  match v with
  | JsUndefined | JsNull => false
  | JsBool b => b
  | JsNumber n => negb (n =? 0)%Z
  | JsString s => negb (String.eqb s "")
  | JsArray _ | JsObject _ => true
  end.

(** [typeof v === 'string'] *)
Definition isString (v : JsValue) : bool :=
  match v with JsString _ => true | _ => false end.

(** [typeof v === 'object' && v !== null] *)
Definition isNonNullObject (v : JsValue) : bool :=
  match v with JsArray _ | JsObject _ => true | _ => false end.

Fixpoint assoc (k : string) (props : list (string * JsValue)) : option JsValue :=
  match props with
  | [] => None
  | (k', v) :: rest => if String.eqb k k' then Some v else assoc k rest
  end.

(** The own property [k] of [v], if it has one. *)
Definition ownProperty (v : JsValue) (k : string) : option JsValue :=
  match v with
  | JsObject props => assoc k props
  | _ => None
  end.

(** [v.hasOwnProperty(k)] *)
Definition hasOwnProperty (v : JsValue) (k : string) : bool :=
  bool_decide (is_Some (ownProperty v k)).

(** [v.k]: [undefined] when the property is absent. *)
Definition get (v : JsValue) (k : string) : JsValue :=
  default JsUndefined (ownProperty v k).

(** [a || b] *)
Definition or (a b : JsValue) : JsValue := if truthy a then a else b.

(** [a || b] on strings: the empty string is falsy. *)
Definition strOr (a b : string) : string := if String.eqb a "" then b else a.

(** A thrown value [e] other than [undefined] and [null], seen through the
    two ways the runner reads it: [e.message] (empty when absent or falsy) and
    [String(e)].  Thrown values are [Error] objects or plain data, of which
    both can be read.  Of [undefined] and [null] no property can be read;
    where the source can meet them they are kept apart from the faults. *)
Record Fault : Type := { message : string; asString : string }.

(** [new Error(msg)] *)
Definition newError (msg : string) : Fault :=
  {| message := msg;
     asString := if String.eqb msg "" then "Error" else "Error: " +:+ msg |}.

(** [e.message || String(e)] *)
Definition faultText (e : Fault) : string := strOr (message e) (asString e).

(** [new TypeError(msg)] *)
Definition newTypeError (msg : string) : Fault :=
  {| message := msg;
     asString := if String.eqb msg "" then "TypeError" else "TypeError: " +:+ msg |}.

(** What the runner does to values typed [any] that makes the engine throw
    a [TypeError]: it reads [err.message] of an [err] that is [undefined]
    ([isNull = false]) or [null], and it calls [v.hasOwnProperty(...)] on an
    object [v] with an own property of that name, which is no function. *)
Inductive TypeErrorCause : Type :=
| ReadMessageOf (isNull : bool)
| CallOwnHasOwnProperty.

End Js.
Export Js.

(** The line feed and the double quote, as strings. *)
Definition newline : string := String (Ascii.ascii_of_nat 10) "".
Definition quote : string := String (Ascii.ascii_of_nat 34) "".

(** ** Messages, results and configuration *)

Inductive ChatMessageEntity : Type := USER | MODEL | TOOL_RESULT.

(** Modelled from the spec: the user message type is declared in
    [ui/ChatView], which is not among the sources; the spec gives it free
    text and an optional image. *)
Record UserChatMessage : Type := { text : string; imageInput : option string }.

Inductive ModelAction : Type := ActionTool | ActionFinal.

Record ModelChatMessage : Type := {
  action : ModelAction;
  modelToolName : option string;
  modelToolArgs : option JsValue;
  answer : option string;
  isFinalAnswer : bool;
  reasoning : option (list string)
}.

(** [resultText] is declared a string but is assigned from values typed
    [any], so it is kept as a JavaScript value. *)
Record ToolResultMessage : Type := {
  toolName : string;
  resultText : JsValue;
  isError : bool;
  error : option JsValue;
  resultData : option JsValue
}.

Inductive ChatMessage : Type :=
| UserMsg (m : UserChatMessage)
| ModelMsg (m : ModelChatMessage)
| ToolResultMsg (m : ToolResultMessage).

Definition entity (m : ChatMessage) : ChatMessageEntity :=
  match m with
  | UserMsg _ => USER
  | ModelMsg _ => MODEL
  | ToolResultMsg _ => TOOL_RESULT
  end.

Inductive AgentRunTerminationReason : Type :=
| final_answer | max_iterations | error_reason | handed_off.

Record ConfigurableAgentResult : Type := {
  success : bool;
  output : option string;
  resultError : option string;
  intermediateSteps : option (list ChatMessage);
  terminationReason : option AgentRunTerminationReason
}.

(** [createSuccessResult] and [createErrorResult]. *)
Definition ResultHook : Type :=
  string -> list ChatMessage -> AgentRunTerminationReason -> ConfigurableAgentResult.

Record AgentRunnerHooks : Type := {
  prepareInitialMessages : option (list ChatMessage -> list ChatMessage);
  createSuccessResult : ResultHook;
  createErrorResult : ResultHook
}.

Inductive HandoffTrigger : Type := llm_tool_call | trigger_max_iterations.

Record HandoffConfig : Type := {
  targetAgentName : string;
  trigger : option HandoffTrigger;
  includeToolResults : option (list string)
}.

(** The fields of an agent's configuration that the runner reads.  The
    result hooks of a configuration take the configuration itself as a fourth
    argument in the source; here they are already applied to it. *)
Record AgentToolConfig : Type := {
  agentSystemPrompt : string;
  agentModelName : option string;
  agentTools : list string;
  agentMaxIterations : option nat;
  agentTemperature : option Q;
  handoffs : option (list HandoffConfig);
  agentCreateSuccessResult : option ResultHook;
  agentCreateErrorResult : option ResultHook;
  includeIntermediateStepsOnReturn : option bool
}.

(** How the promise of [tool.execute(args)] settles: it resolves with a
    value, it rejects with a value other than [undefined] and [null], or it
    rejects with [undefined] ([isNull = false]) or with [null]. *)
Inductive ExecOutcome : Type :=
| Resolved (toolResultData : JsValue)
| Rejected (err : Fault)
| RejectedNullish (isNull : bool).

Record Tool (World : Type) : Type := {
  name : string;
  description : string;
  schema : JsValue;
  execute : JsValue -> World -> ExecOutcome * World
}.
Arguments name {World} _.
Arguments description {World} _.
Arguments schema {World} _.
Arguments execute {World} _ _ _.

(** A tool as found in the registry or in a tool map: [AgentTool] is an
    instance of [ConfigurableAgentTool], [PlainTool] is any other tool. *)
Inductive RegisteredTool (World : Type) : Type :=
| PlainTool (t : Tool World)
| AgentTool (t : Tool World) (config : AgentToolConfig).
Arguments PlainTool {World} _.
Arguments AgentTool {World} _ _.

Definition asTool {World} (r : RegisteredTool World) : Tool World :=
  match r with PlainTool t | AgentTool t _ => t end.

Record ConfigurableAgentTool (World : Type) : Type := {
  agentTool : Tool World;
  config : AgentToolConfig
}.
Arguments agentTool {World} _.
Arguments config {World} _.

(** [tool instanceof ConfigurableAgentTool] *)
Definition asAgent {World} (r : RegisteredTool World)
  : option (ConfigurableAgentTool World) :=
  match r with
  | PlainTool _ => None
  | AgentTool t c => Some {| agentTool := t; config := c |}
  end.

(** [maxIterations] is a natural number: the loop counts up to it by one. *)
Record AgentRunnerConfig (World : Type) : Type := {
  apiKey : string;
  modelName : string;
  systemPrompt : string;
  tools : list (RegisteredTool World);
  maxIterations : nat;
  temperature : option Q
}.
Arguments apiKey {World} _.
Arguments modelName {World} _.
Arguments systemPrompt {World} _.
Arguments tools {World} _.
Arguments maxIterations {World} _.
Arguments temperature {World} _.

(** ** The LLM client *)

Record ToolSchema : Type := {
  schemaType : string;
  schemaName : string;
  schemaDescription : string;
  parameters : JsValue
}.

Record CallOptions : Type := {
  optTools : list ToolSchema;
  optSystemPrompt : string;
  optTemperature : Q
}.

(** Modelled from the spec: [OpenAIResponse] is declared in
    [core/OpenAIClient], which is not among the sources; the response exposes
    a structured tool call or free text, and optional reasoning metadata. *)
Record OpenAIResponse : Type := {
  responseText : option string;
  functionCall : option (string * JsValue);
  reasoningSummary : option (list string)
}.

Inductive ParsedLLMAction : Type :=
| tool_call (name : string) (args : JsValue)
| final_answer_action (answer : string)
| error_action (error : string).

(** ** External collaborators

    The functions the runner imports from modules that are not among the
    sources, and what it uses of the JavaScript engine: [JSON.stringify],
    which returns a string or [undefined] or throws, and the messages of the
    [TypeError]s of the engine.  [ToolRegistry] is the process-wide registry;
    it does not change during a run.

    Modelled from the spec: [OpenAIClient.callOpenAI] is not among the
    sources; the spec reports its failure as a thrown fault with a message,
    so it does not reject with [undefined] or [null]. *)
Class Collaborators (World : Type) : Type := {
  enhancePromptWithPageContext : string -> World -> string * World;
  format : list ChatMessage -> string;
  callOpenAI : string -> string -> string -> CallOptions -> World ->
               (Fault + OpenAIResponse) * World;
  parseOpenAIResponse : OpenAIResponse -> ParsedLLMAction;
  JSON_stringify : JsValue -> Fault + JsValue;
  typeErrorMessage : TypeErrorCause -> string;
  ToolRegistry : gmap string (RegisteredTool World)
}.

(** The interactions of a run with the outside, in order. *)
Inductive Event : Type :=
| EvRunStart (agentName : string)
| EvLlmCall (modelName : string) (promptText : string)
| EvToolExecute (toolName : string) (args : JsValue).

Record RunState (World : Type) : Type := {
  world : World;
  trace : list Event
}.
Arguments world {World} _.
Arguments trace {World} _.

Definition isLlmCall (e : Event) : bool :=
  match e with EvLlmCall _ _ => true | _ => false end.

Definition llmCalls (tr : list Event) : nat := length (filter isLlmCall tr).

(** ** AgentRunner *)

Section AgentRunner.
Context {World : Type} {collaborators : Collaborators World}.

(** [ToolRegistry.getRegisteredTool(name)] ([None] is [null]).

    Modelled from the spec: the registry class is not among the sources;
    [get(name)] returns the tool stored under the name or not-found. *)
Definition getRegisteredTool (toolName : string) : option (RegisteredTool World) :=
  ToolRegistry !! toolName.

(** The three awaited calls, each recording what it does to the world. *)
Definition enhance (prompt : string) (s : RunState World) : string * RunState World :=
  let '(p, w) := enhancePromptWithPageContext prompt (world s) in
  (p, {| world := w; trace := trace s |}).

Definition callLlm (key model promptText : string) (opts : CallOptions)
    (s : RunState World) : (Fault + OpenAIResponse) * RunState World :=
  let '(r, w) := callOpenAI key model promptText opts (world s) in
  (r, {| world := w; trace := trace s ++ [EvLlmCall model promptText] |}).

Definition executeTool (t : Tool World) (toolArgs : JsValue)
    (s : RunState World) : ExecOutcome * RunState World :=
  let '(r, w) := execute t toolArgs (world s) in
  (r, {| world := w; trace := trace s ++ [EvToolExecute (name t) toolArgs] |}).

(** *** The handoff protocol *)

(** [handoffConfig.includeToolResults && handoffConfig.includeToolResults.length > 0] *)
Definition hasIncludeFilter (handoffConfig : HandoffConfig) : bool :=
  match includeToolResults handoffConfig with
  | Some allow => bool_decide (0 < length allow)
  | None => false
  end.

(** The test of the collecting loop on one message. *)
Definition isCollected (allow : list string) (message : ChatMessage) : bool :=
  match message with
  | ToolResultMsg toolResult =>
      negb (isError toolResult)
      && negb (String.eqb (toolName toolResult) "")
      && bool_decide (toolName toolResult ∈ allow)
  | _ => false
  end.

Definition collectedToolResultMessages (handoffConfig : HandoffConfig)
    (currentMessages : list ChatMessage) : list ChatMessage :=
  if hasIncludeFilter handoffConfig
  then List.filter (isCollected (default [] (includeToolResults handoffConfig)))
                   currentMessages
  else [].

Definition isUser (m : ChatMessage) : bool :=
  match entity m with USER => true | _ => false end.

(** The message list handed to the target agent. *)
Definition handoffMessages (handoffConfig : HandoffConfig)
    (currentMessages : list ChatMessage) : list ChatMessage :=
  if hasIncludeFilter handoffConfig then
    match List.find isUser currentMessages with
    | Some firstUserMessage => [firstUserMessage]
    | None => []
    end ++ collectedToolResultMessages handoffConfig currentMessages
  else currentMessages.

(** The type of [AgentRunner.run]; [None] as result means that the chain of
    handoffs is longer than the fuel of the model allows. *)
Definition RunFn : Type :=
  list ChatMessage -> JsValue -> AgentRunnerConfig World -> AgentRunnerHooks ->
  option (ConfigurableAgentTool World) -> RunState World ->
  option ConfigurableAgentResult * RunState World.

Definition handoffTargetError (targetAgentName : string) : string :=
  "Handoff target '" +:+ targetAgentName
  +:+ "' not found or is not a ConfigurableAgentTool.".

(** [{...handoffResult, terminationReason: handoffResult.terminationReason || 'handed_off'}],
    with [intermediateSteps] replaced or deleted. *)
Definition handoffReturn (steps : option (list ChatMessage))
    (handoffResult : ConfigurableAgentResult) : ConfigurableAgentResult :=
  {| success := success handoffResult;
     output := output handoffResult;
     resultError := resultError handoffResult;
     intermediateSteps := steps;
     terminationReason :=
       Some (default handed_off (terminationReason handoffResult)) |}.

(** [x || d] on an optional number: zero is falsy. *)
Definition numOr (x : option nat) (d : nat) : nat :=
  match x with
  | Some (S n) => S n
  | _ => d
  end.

(** [x || d] on an optional string: the empty string is falsy. *)
Definition optStrOr (x : option string) (d : string) : string :=
  match x with
  | Some s => strOr s d
  | None => d
  end.

(** The end of [executeHandoff]: what it returns for the result of the
    target agent's run. *)
Definition finishHandoff (targetConfig : AgentToolConfig)
    (currentMessages : list ChatMessage) (handoffResult : ConfigurableAgentResult)
  : ConfigurableAgentResult :=
  match includeIntermediateStepsOnReturn targetConfig with
  | Some true =>
      handoffReturn
        (Some (currentMessages ++ default [] (intermediateSteps handoffResult)))
        handoffResult
  | _ => handoffReturn None handoffResult
  end.

Definition executeHandoff (run : RunFn)
    (currentMessages : list ChatMessage) (originalArgs : JsValue)
    (handoffConfig : HandoffConfig) (executingAgent : ConfigurableAgentTool World)
    (key defaultModelName : string) (defaultMaxIterations : nat)
    (defaultTemperature : Q)
    (defaultCreateSuccessResult defaultCreateErrorResult : ResultHook)
    (llmToolArgs : option JsValue) (s : RunState World)
  : option ConfigurableAgentResult * RunState World :=
  let targetName := targetAgentName handoffConfig in
  match getRegisteredTool targetName ≫= asAgent with
  | None =>
      (Some (defaultCreateErrorResult (handoffTargetError targetName)
                                      currentMessages error_reason), s)
  | Some targetAgentTool =>
      let targetConfig := config targetAgentTool in
      let messages := handoffMessages handoffConfig currentMessages in
      let '(enhancedSystemPrompt, s) := enhance (agentSystemPrompt targetConfig) s in
      let targetRunnerConfig :=
        {| apiKey := key;
           modelName := optStrOr (agentModelName targetConfig) defaultModelName;
           systemPrompt := enhancedSystemPrompt;
           tools := omap getRegisteredTool (agentTools targetConfig);
           maxIterations := numOr (agentMaxIterations targetConfig) defaultMaxIterations;
           temperature :=
             Some (default defaultTemperature (agentTemperature targetConfig)) |} in
      let targetRunnerHooks :=
        {| prepareInitialMessages := None;
           createSuccessResult :=
             default defaultCreateSuccessResult (agentCreateSuccessResult targetConfig);
           createErrorResult :=
             default defaultCreateErrorResult (agentCreateErrorResult targetConfig) |} in
      let targetAgentArgs := default originalArgs llmToolArgs in
      let '(handoffResult, s) :=
        run messages targetAgentArgs targetRunnerConfig targetRunnerHooks
            (Some targetAgentTool) s in
      (finishHandoff targetConfig currentMessages <$> handoffResult, s)
  end.

(** *** Tool map and tool schemas *)

Definition schemaOf (tool : RegisteredTool World) : ToolSchema :=
  {| schemaType := "function";
     schemaName := name (asTool tool);
     schemaDescription := description (asTool tool);
     parameters := schema (asTool tool) |}.

(** [new Map(tools.map(tool => [tool.name, tool]))]: a later tool of the
    same name replaces an earlier one. *)
Definition baseToolMap (tools : list (RegisteredTool World))
  : gmap string (RegisteredTool World) :=
  foldl (fun m tool => <[name (asTool tool) := tool]> m) ∅ tools.

(** [!handoffConfig.trigger || handoffConfig.trigger === 'llm_tool_call'] *)
Definition isLlmTriggered (handoffConfig : HandoffConfig) : bool :=
  match trigger handoffConfig with
  | None | Some llm_tool_call => true
  | Some trigger_max_iterations => false
  end.

Definition isMaxIterationsTriggered (handoffConfig : HandoffConfig) : bool :=
  match trigger handoffConfig with
  | Some trigger_max_iterations => true
  | _ => false
  end.

Definition handoffToolName (targetAgentName : string) : string :=
  "handoff_to_" +:+ targetAgentName.

Definition handoffSchema (targetAgentName : string) (targetTool : Tool World)
  : ToolSchema :=
  {| schemaType := "function";
     schemaName := handoffToolName targetAgentName;
     schemaDescription :=
       "Handoff the current task to the specialized agent: " +:+ targetAgentName
       +:+ ". Use this agent when the task requires " +:+ targetAgentName
       +:+ "'s capabilities. Agent Description: " +:+ description targetTool;
     parameters := schema targetTool |}.

(** One round of the loop that adds the handoff pseudo-tools. *)
Definition addHandoffTool
    (acc : gmap string (RegisteredTool World) * list ToolSchema)
    (handoffConfig : HandoffConfig)
  : gmap string (RegisteredTool World) * list ToolSchema :=
  if isLlmTriggered handoffConfig then
    match getRegisteredTool (targetAgentName handoffConfig) with
    | Some (AgentTool t c) =>
        (<[handoffToolName (targetAgentName handoffConfig) := AgentTool t c]> (fst acc),
         snd acc ++ [handoffSchema (targetAgentName handoffConfig) t])
    | _ => acc
    end
  else acc.

(** [executingAgent.config.handoffs], when there is an executing agent that
    has them. *)
Definition agentHandoffs (executingAgent : option (ConfigurableAgentTool World))
  : option (list HandoffConfig) :=
  executingAgent ≫= fun a => handoffs (config a).

Definition buildTools (tools : list (RegisteredTool World))
    (executingAgent : option (ConfigurableAgentTool World))
  : gmap string (RegisteredTool World) * list ToolSchema :=
  foldl addHandoffTool (baseToolMap tools, map schemaOf tools)
        (default [] (agentHandoffs executingAgent)).

(** *** One iteration *)

Definition systemErrorMessage (errorMsg : string) : ChatMessage :=
  ToolResultMsg {| toolName := "system_error";
                   resultText := JsString errorMsg;
                   isError := true;
                   error := Some (JsString errorMsg);
                   resultData := None |}.

Definition toolCallMessage (toolName : string) (toolArgs : JsValue)
    (openAIResponse : OpenAIResponse) : ChatMessage :=
  ModelMsg {| action := ActionTool;
              modelToolName := Some toolName;
              modelToolArgs := Some toolArgs;
              answer := None;
              isFinalAnswer := false;
              reasoning := reasoningSummary openAIResponse |}.

Definition finalAnswerMessage (answer : string) (openAIResponse : OpenAIResponse)
  : ChatMessage :=
  ModelMsg {| action := ActionFinal;
              modelToolName := None;
              modelToolArgs := None;
              answer := Some answer;
              isFinalAnswer := true;
              reasoning := reasoningSummary openAIResponse |}.

(** [toolResultData.success === false] *)
Definition successIsFalse (toolResultData : JsValue) : bool :=
  match Js.get toolResultData "success" with
  | JsBool false => true
  | _ => false
  end.

(** [toolResultData.hasOwnProperty(k)] on an object or an array: the method
    is the one of [Object.prototype] unless the value has an own property
    named [hasOwnProperty], and calling that one throws. *)
Definition callHasOwnProperty (toolResultData : JsValue) (k : string) : Fault + bool :=
  match ownProperty toolResultData "hasOwnProperty" with
  | Some _ => inl (newTypeError (typeErrorMessage CallOwnHasOwnProperty))
  | None => inr (hasOwnProperty toolResultData k)
  end.

(** What the runner makes of the value a tool resolved with, in the [try]
    block of the tool execution: [(toolResultText, toolIsError)], or the
    fault thrown by [JSON.stringify] or by the call of [hasOwnProperty]. *)
Definition interpretToolResult (toolResultData : JsValue) : Fault + JsValue * bool :=
  match (if isString toolResultData then inr toolResultData
         else JSON_stringify toolResultData) with
  | inl err => inl err
  | inr toolResultText =>
      if isNonNullObject toolResultData then
        match callHasOwnProperty toolResultData "error" with
        | inl err => inl err
        | inr hasError =>
            if hasError && truthy (Js.get toolResultData "error")
            then inr (Js.or (Js.get toolResultData "error") toolResultText, true)
            else
              match callHasOwnProperty toolResultData "success" with
              | inl err => inl err
              | inr hasSuccess =>
                  if hasSuccess && successIsFalse toolResultData
                  then inr (Js.or (Js.or (Js.get toolResultData "error")
                                         (Js.get toolResultData "message"))
                                  toolResultText, true)
                  else inr (toolResultText, false)
              end
        end
      else inr (toolResultText, false)
  end.

Definition toolErrorText (err : Fault) : string :=
  "Error during tool execution: " +:+ faultText err.

(** The tool-result message built after a regular tool execution. *)
Definition toolResultMessage (toolName : string) (toolResultText : JsValue)
    (toolIsError : bool) (toolResultData : JsValue) : ChatMessage :=
  ToolResultMsg {| toolName := toolName;
                   resultText := toolResultText;
                   isError := toolIsError;
                   error := if toolIsError then Some toolResultText else None;
                   resultData := if truthy toolResultData then Some toolResultData
                                 else None |}.

(** The [catch] of the tool execution on a caught value of which
    [err.message] can be read. *)
Definition caughtToolFault (toolName : string) (err : Fault) : ChatMessage :=
  let toolResultText := JsString (toolErrorText err) in
  toolResultMessage toolName toolResultText true (JsObject [("error", toolResultText)]).

(** The [try]/[catch] around the tool execution, on the way [execute] has
    settled: the tool-result message that is built after it, or the fault
    that leaves the [catch].  Of a caught [undefined] or [null] the [catch]
    cannot read [err.message]: the [TypeError] of that leaves it. *)
Definition settleTool (toolName : string) (outcome : ExecOutcome) : Fault + ChatMessage :=
  match outcome with
  | Resolved toolResultData =>
      match interpretToolResult toolResultData with
      | inr (toolResultText, toolIsError) =>
          inr (toolResultMessage toolName toolResultText toolIsError toolResultData)
      | inl err => inr (caughtToolFault toolName err)
      end
  | Rejected err => inr (caughtToolFault toolName err)
  | RejectedNullish isNull => inl (newTypeError (typeErrorMessage (ReadMessageOf isNull)))
  end.

(** The regular tool execution with its own [try]/[catch]. *)
Definition runTool (toolName : string) (toolToExecute : Tool World)
    (toolArgs : JsValue) (s : RunState World)
  : (Fault + ChatMessage) * RunState World :=
  let '(outcome, s) := executeTool toolToExecute toolArgs s in
  (settleTool toolName outcome, s).

(** How the [try] block that processes the parsed action ends: it throws,
    it returns from [run], or it falls through to the next iteration.
    [messages] is the history at that point. *)
Inductive TryOutcome : Type :=
| Throws (messages : list ChatMessage) (e : Fault)
| Returns (result : option ConfigurableAgentResult)
| FallsThrough (messages : list ChatMessage).

(** The handoff configuration of an LLM-triggered handoff tool call. *)
Definition findLlmHandoff (executingAgent : option (ConfigurableAgentTool World))
    (targetAgentTool : ConfigurableAgentTool World) : option HandoffConfig :=
  agentHandoffs executingAgent ≫=
    List.find (fun h => String.eqb (targetAgentName h) (name (agentTool targetAgentTool))
                        && isLlmTriggered h).

(** [toolName.startsWith('handoff_to_') && toolToExecute instanceof ConfigurableAgentTool] *)
Definition asHandoffTarget (toolName : string) (toolToExecute : RegisteredTool World)
  : option (ConfigurableAgentTool World) :=
  if String.prefix "handoff_to_" toolName then asAgent toolToExecute else None.

Section Run.
Variable run : RunFn.
Variable args : JsValue.
Variable runnerConfig : AgentRunnerConfig World.
Variable hooks : AgentRunnerHooks.
Variable executingAgent : option (ConfigurableAgentTool World).
Variable toolMap : gmap string (RegisteredTool World).
Variable toolSchemas : list ToolSchema.

(** The shared handoff call of [run], with the runner's own defaults. *)
Definition handoffFrom (messages : list ChatMessage) (originalArgs : JsValue)
    (handoffConfig : HandoffConfig) (agent : ConfigurableAgentTool World)
    (llmToolArgs : option JsValue) (s : RunState World)
  : option ConfigurableAgentResult * RunState World :=
  executeHandoff run messages originalArgs handoffConfig agent
    (apiKey runnerConfig) (modelName runnerConfig) (maxIterations runnerConfig)
    (default 0%Q (temperature runnerConfig))
    (createSuccessResult hooks) (createErrorResult hooks) llmToolArgs s.

(** The [try] block that processes the parsed action. *)
Definition processAction (messages : list ChatMessage)
    (openAIResponse : OpenAIResponse) (parsedAction : ParsedLLMAction)
    (s : RunState World) : TryOutcome * RunState World :=
  match parsedAction with
  | tool_call toolName toolArgs =>
      let messages := messages ++ [toolCallMessage toolName toolArgs openAIResponse] in
      match toolMap !! toolName with
      | None =>
          (Throws messages (newError ("Agent requested unknown tool: " +:+ toolName)), s)
      | Some toolToExecute =>
          match asHandoffTarget toolName toolToExecute with
          | Some targetAgentTool =>
              match findLlmHandoff executingAgent targetAgentTool, executingAgent with
              | Some handoffConfig, Some agent =>
                  let '(handoffResult, s) :=
                    handoffFrom messages toolArgs handoffConfig agent (Some toolArgs) s in
                  (Returns handoffResult, s)
              | _, _ =>
                  (Throws messages
                     (newError ("Internal error: No matching 'llm_tool_call' handoff config found for "
                                +:+ toolName)), s)
              end
          | None =>
              let '(settled, s) := runTool toolName (asTool toolToExecute) toolArgs s in
              match settled with
              | inr message => (FallsThrough (messages ++ [message]), s)
              | inl err => (Throws messages err, s)
              end
          end
      end
  | final_answer_action answer =>
      let messages := messages ++ [finalAnswerMessage answer openAIResponse] in
      (Returns (Some (createSuccessResult hooks answer messages final_answer)), s)
  | error_action error =>
      (Throws messages (newError error), s)
  end.

Definition iterationInfo (iteration : nat) : string :=
  newline +:+ "## Current Progress" +:+ newline
  +:+ "- You are currently on step " +:+ pretty (iteration + 1) +:+ " of "
  +:+ pretty (maxIterations runnerConfig) +:+ " maximum steps." +:+ newline
  +:+ "- Focus on making meaningful progress with each step.".

(** How one iteration of the loop ends. *)
Inductive StepOutcome : Type :=
| Return (result : option ConfigurableAgentResult)
| NextIteration (messages : list ChatMessage).

(** The first half of the loop body: the prompt is prepared and the LLM is
    called, once. *)
Definition askLlm (iteration : nat) (messages : list ChatMessage)
    (s : RunState World) : (Fault + OpenAIResponse) * RunState World :=
  let '(currentSystemPrompt, s) :=
    enhance (systemPrompt runnerConfig +:+ iterationInfo iteration) s in
  let promptText := format messages in
  callLlm (apiKey runnerConfig) (modelName runnerConfig) promptText
          {| optTools := toolSchemas;
             optSystemPrompt := currentSystemPrompt;
             optTemperature := default 0%Q (temperature runnerConfig) |} s.

(** The body of the [for] loop. *)
Definition iterationStep (iteration : nat) (messages : list ChatMessage)
    (s : RunState World) : StepOutcome * RunState World :=
  let '(response, s) := askLlm iteration messages s in
  match response with
  | inl error =>
      let errorMsg := "LLM call failed: " +:+ faultText error in
      let messages := messages ++ [systemErrorMessage errorMsg] in
      (Return (Some (createErrorResult hooks errorMsg messages error_reason)), s)
  | inr openAIResponse =>
      let parsedAction := parseOpenAIResponse openAIResponse in
      let '(outcome, s) := processAction messages openAIResponse parsedAction s in
      match outcome with
      | Throws messages error =>
          let errorMsg := "Agent loop error: " +:+ faultText error in
          let messages := messages ++ [systemErrorMessage errorMsg] in
          (Return (Some (createErrorResult hooks errorMsg messages error_reason)), s)
      | Returns result => (Return result, s)
      | FallsThrough messages => (NextIteration messages, s)
      end
  end.

(** What [run] does once the loop has used up its iterations. *)
Definition afterLoop (messages : list ChatMessage) (s : RunState World)
  : option ConfigurableAgentResult * RunState World :=
  match executingAgent, agentHandoffs executingAgent ≫= List.find isMaxIterationsTriggered with
  | Some agent, Some maxIterHandoffConfig =>
      handoffFrom messages args maxIterHandoffConfig agent None s
  | _, _ =>
      (Some (createErrorResult hooks
               ("Agent reached maximum iterations ("
                +:+ pretty (maxIterations runnerConfig) +:+ ")")
               messages max_iterations), s)
  end.

(** [for (iteration = 0; iteration < maxIterations; iteration++)], by
    recursion on [remaining = maxIterations - iteration]: the loop test holds
    exactly when [remaining] is not zero. *)
Fixpoint loop (remaining iteration : nat) (messages : list ChatMessage)
    (s : RunState World) : option ConfigurableAgentResult * RunState World :=
  match remaining with
  | 0 => afterLoop messages s
  | S remaining =>
      let '(outcome, s) := iterationStep iteration messages s in
      match outcome with
      | Return result => (result, s)
      | NextIteration messages => loop remaining (S iteration) messages s
      end
  end.

End Run.

Definition agentNameOf (executingAgent : option (ConfigurableAgentTool World)) : string :=
  match executingAgent with
  | Some agent => strOr (name (agentTool agent)) "Unknown"
  | None => "Unknown"
  end.

(** The body of [AgentRunner.run], over the function [self] that a handoff
    calls for the target agent. *)
Definition runBody (self : RunFn) : RunFn :=
  fun initialMessages args runnerConfig hooks executingAgent s =>
    let s := {| world := world s;
                trace := trace s ++ [EvRunStart (agentNameOf executingAgent)] |} in
    let messages :=
      match prepareInitialMessages hooks with
      | Some prepare => prepare initialMessages
      | None => initialMessages
      end in
    let '(toolMap, toolSchemas) := buildTools (tools runnerConfig) executingAgent in
    loop self args runnerConfig hooks executingAgent toolMap toolSchemas
         (maxIterations runnerConfig) 0 messages s.

(** [AgentRunner.run]: [fuel] bounds the depth of the chain of handoffs,
    which the source leaves unbounded. *)
Fixpoint run (fuel : nat) : RunFn :=
  match fuel with
  | 0 => fun _ _ _ _ _ s => (None, s)
  | S fuel => runBody (run fuel)
  end.

End AgentRunner.

(** ** The configurable graph builder *)

Module ConfigurableGraph.

Record GraphNodeConfig : Type := { name : string; type : string }.

Record GraphEdgeConfig : Type := {
  source : string;
  conditionType : string;
  targetMap : gmap string string
}.

(** [GraphConfig]; its [name] field is [graphName] here. *)
Record GraphConfig : Type := {
  graphName : string;
  entryPoint : string;
  nodes : list GraphNodeConfig;
  edges : list GraphEdgeConfig
}.

Inductive LogLevel : Type := LogInfo | LogWarn | LogError.

(** The console output of the builder. *)
Definition Log : Type := list (LogLevel * string).

(** What the builder imports from [Graph], [Types], [State] and [ChatOpenAI],
    none of which is among the sources: the state and model types, the
    router [routeNextNode] and the two node type tags. *)
Class GraphCollaborators : Type := {
  AgentState : Type;
  ChatOpenAI : Type;
  routeNextNode : AgentState -> string;
  NodeType_AGENT : string;
  NodeType_TOOL_EXECUTOR : string
}.

Section Builder.
Context {graphCollaborators : GraphCollaborators}.

(** A node of the graph, by the expression of the source that creates it:
    the node factories of [Graph] and the two inline nodes of the builder,
    whose [invoke] returns the state with [error] set. *)
Inductive Runnable : Type :=
| AgentNode (model : ChatOpenAI)
| FinalNode
| ErrorNode (error : string)
| ToolExecutorNode (state : AgentState).

(** [createToolExecutorNode(state)] *)
Definition createToolExecutorNode (state : AgentState) : Runnable :=
  ToolExecutorNode state.

(** A conditional edge: [condition] stands for the closure [conditionFn],
    which captures the edge configuration it was made for. *)
Record ConditionalEdge : Type := {
  edgeSource : string;
  condition : GraphEdgeConfig;
  edgeTargets : gmap string string
}.

(** Modelled from the spec: [StateGraph] is not among the sources.
    [addNode] stores a node by name, [addConditionalEdges] registers a
    conditional edge, [setEntryPoint] designates the first node to run. *)
Record StateGraph : Type := {
  stateGraphName : string;
  graphNodes : gmap string Runnable;
  conditionalEdges : list ConditionalEdge;
  graphEntryPoint : option string
}.

Definition newStateGraph (graphName : string) : StateGraph :=
  {| stateGraphName := graphName;
     graphNodes := ∅;
     conditionalEdges := [];
     graphEntryPoint := None |}.

Definition addNode (nodeName : string) (node : Runnable) (graph : StateGraph)
  : StateGraph :=
  {| stateGraphName := stateGraphName graph;
     graphNodes := <[nodeName := node]> (graphNodes graph);
     conditionalEdges := conditionalEdges graph;
     graphEntryPoint := graphEntryPoint graph |}.

Definition addConditionalEdges (sourceName : string) (conditionFn : GraphEdgeConfig)
    (targets : gmap string string) (graph : StateGraph) : StateGraph :=
  {| stateGraphName := stateGraphName graph;
     graphNodes := graphNodes graph;
     conditionalEdges :=
       conditionalEdges graph
       ++ [{| edgeSource := sourceName; condition := conditionFn;
              edgeTargets := targets |}];
     graphEntryPoint := graphEntryPoint graph |}.

Definition setEntryPoint (nodeName : string) (graph : StateGraph) : StateGraph :=
  {| stateGraphName := stateGraphName graph;
     graphNodes := graphNodes graph;
     conditionalEdges := conditionalEdges graph;
     graphEntryPoint := Some nodeName |}.

Record CompiledGraph : Type := {
  compiledEntry : string;
  compiledGraph : StateGraph
}.

(** Modelled from the spec: [StateGraph.compile] is not among the sources.
    Compiling without a valid entry point, or with zero nodes, is a fatal
    configuration error. *)
Definition compile (graph : StateGraph) : Fault + CompiledGraph :=
  if bool_decide (graphNodes graph = ∅)
  then inl (newError "Cannot compile a graph without nodes.")
  else
    match graphEntryPoint graph with
    | Some entry =>
        if bool_decide (is_Some (graphNodes graph !! entry))
        then inr {| compiledEntry := entry; compiledGraph := graph |}
        else inl (newError "Entry point is not a node of the graph.")
    | None => inl (newError "Entry point must be set before compiling.")
    end.

(** [nodeFactories[type]], for the own properties of the table.  The table
    is an object literal, so in the source the lookup also finds the names
    that the table inherits from [Object.prototype] ([constructor],
    [__proto__], [valueOf], ...), and the builder then calls what it finds.
    The builder is modelled for node types that are no such names; what is
    proved of it is stated under that condition ([ownNodeTypes] below). *)
Definition nodeFactories (nodeType : string)
  : option (ChatOpenAI -> GraphNodeConfig -> Runnable) :=
  if String.eqb nodeType "agent" then Some (fun model _ => AgentNode model)
  else if String.eqb nodeType "final" then Some (fun _ _ => FinalNode)
  else if String.eqb nodeType "toolExecutor" then
    Some (fun _ nodeCfg =>
            ErrorNode ("ToolExecutor " +:+ name nodeCfg +:+ " not properly initialized."))
  else None.

(** The body of the loop over [config.nodes]. *)
Definition addConfiguredNode (openAiModel : ChatOpenAI)
    (acc : Log * StateGraph) (nodeConfig : GraphNodeConfig) : Log * StateGraph :=
  match nodeFactories (type nodeConfig) with
  | Some factory =>
      (fst acc ++ [(LogInfo, "[ConfigurableGraph] Added node: " +:+ name nodeConfig
                             +:+ " (type: " +:+ type nodeConfig +:+ ")")],
       addNode (name nodeConfig) (factory openAiModel nodeConfig) (snd acc))
  | None =>
      (fst acc ++ [(LogWarn, "[ConfigurableGraph] Unknown node type: " +:+ type nodeConfig
                             +:+ " for node " +:+ name nodeConfig
                             +:+ ". Adding a dummy error node.")],
       addNode (name nodeConfig)
               (ErrorNode ("Unknown node type " +:+ type nodeConfig +:+ " for "
                           +:+ name nodeConfig))
               (snd acc))
  end.

(** The condition [routeOrPrepareToolExecutor]: the routing key it returns
    and the graph instance as it leaves it. *)
Definition routeOrPrepareToolExecutor (state : AgentState)
    (graphInstance : StateGraph) (edgeConfig : GraphEdgeConfig)
  : string * StateGraph :=
  let routingKey := routeNextNode state in
  if String.eqb routingKey NodeType_TOOL_EXECUTOR then
    match targetMap edgeConfig !! NodeType_TOOL_EXECUTOR with
    | Some toolExecutorNodeName =>
        if negb (String.eqb toolExecutorNodeName "")
           && negb (String.eqb toolExecutorNodeName "__end__")
        then (routingKey,
              addNode toolExecutorNodeName (createToolExecutorNode state) graphInstance)
        else ("__end__", graphInstance)
    | None => ("__end__", graphInstance)
    end
  else (routingKey, graphInstance).

(** [conditionFactories[conditionType]], for the own properties of the
    table; as for [nodeFactories], condition types that are names inherited
    from [Object.prototype] are left out ([ownConditionTypes] below). *)
Definition conditionFactories (conditionType : string)
  : option (AgentState -> StateGraph -> GraphEdgeConfig -> string * StateGraph) :=
  if String.eqb conditionType "routeBasedOnLastMessage" then
    Some (fun state graphInstance _ => (routeNextNode state, graphInstance))
  else if String.eqb conditionType "alwaysAgent" then
    Some (fun _ graphInstance _ => (NodeType_AGENT, graphInstance))
  else if String.eqb conditionType "routeOrPrepareToolExecutor" then
    Some routeOrPrepareToolExecutor
  else None.

(** The closure [conditionFn] of an edge, run on the graph instance it
    captured.  Edges of an unknown condition type are never added, so the
    default is not reached on an edge of a built graph. *)
Definition conditionFn (edgeConfig : GraphEdgeConfig) (state : AgentState)
    (graph : StateGraph) : string * StateGraph :=
  match conditionFactories (conditionType edgeConfig) with
  | Some conditionFactory => conditionFactory state graph edgeConfig
  | None => ("__end__", graph)
  end.

(** The body of the loop over [config.edges]. *)
Definition addConfiguredEdge (acc : Log * StateGraph) (edgeConfig : GraphEdgeConfig)
  : Log * StateGraph :=
  match conditionFactories (conditionType edgeConfig) with
  | Some _ =>
      (fst acc ++ [(LogInfo, "[ConfigurableGraph] Added edge from " +:+ source edgeConfig
                             +:+ " via " +:+ conditionType edgeConfig)],
       addConditionalEdges (source edgeConfig) edgeConfig (targetMap edgeConfig) (snd acc))
  | None =>
      (fst acc ++ [(LogWarn, "[ConfigurableGraph] Unknown condition type: "
                             +:+ conditionType edgeConfig +:+ " for edge from "
                             +:+ source edgeConfig)],
       snd acc)
  end.

Definition fallbackWarning (fallbackEntryPoint : string) : LogLevel * string :=
  (LogWarn, "[ConfigurableGraph] Setting entry point to fallback: " +:+ fallbackEntryPoint).

Definition noNodesError : Fault :=
  newError "[ConfigurableGraph] No nodes defined in graph config, cannot set entry point.".

(** The graph as it stands after the two loops, with the log so far. *)
Definition populate (config : GraphConfig) (openAiModel : ChatOpenAI) : Log * StateGraph :=
  foldl addConfiguredEdge
    (foldl (addConfiguredNode openAiModel)
       ([(LogInfo, "[ConfigurableGraph] Creating graph from config: " +:+ graphName config)],
        newStateGraph (graphName config))
       (nodes config))
    (edges config).

(** [createAgentGraphFromConfig]: the console output, and the compiled graph
    or the fault thrown. *)
Definition createAgentGraphFromConfig (config : GraphConfig) (openAiModel : ChatOpenAI)
  : Log * (Fault + CompiledGraph) :=
  let '(log, graph) := populate config openAiModel in
  match List.find (fun n => String.eqb (name n) (entryPoint config)) (nodes config) with
  | Some _ =>
      (log ++ [(LogInfo, "[ConfigurableGraph] Set entry point to: " +:+ entryPoint config)],
       compile (setEntryPoint (entryPoint config) graph))
  | None =>
      let log := log ++ [(LogError, "[ConfigurableGraph] Entry point " +:+ quote
                                    +:+ entryPoint config +:+ quote
                                    +:+ " not found in defined nodes.")] in
      match nodes config with
      | first :: _ =>
          (log ++ [fallbackWarning (name first)],
           compile (setEntryPoint (name first) graph))
      | [] => (log, inl noNodesError)
      end
  end.

(** Modelled from the spec: the graph engine is not among the sources.
    After a node has run, a conditional edge calls its router with the
    current state to obtain a key; the terminal key halts execution, any
    other key transitions to its target in the edge's target map, and a key
    absent from the target map makes the run fail. *)
Inductive Transition : Type :=
| Halt
| Goto (node : string)
| RoutingFailure (key : string).

Definition followEdge (edge : ConditionalEdge) (state : AgentState)
    (graph : StateGraph) : Transition * StateGraph :=
  let '(key, graph) := conditionFn (condition edge) state graph in
  if String.eqb key "__end__" then (Halt, graph)
  else
    match edgeTargets edge !! key with
    | Some target =>
        if String.eqb target "__end__" then (Halt, graph) else (Goto target, graph)
    | None => (RoutingFailure key, graph)
    end.

(** The condition [routeOrPrepareToolExecutor] in the words of the
    specification, to be compared with the source's: on the tool executor
    key, a target map without an entry for the key, or with the terminal key
    as entry, gives the terminal key; any other entry is the name under which
    a tool executor node is stored. *)
Definition specRouteOrPrepareToolExecutor (state : AgentState)
    (graphInstance : StateGraph) (edgeConfig : GraphEdgeConfig)
  : string * StateGraph :=
  if String.eqb (routeNextNode state) NodeType_TOOL_EXECUTOR then
    match targetMap edgeConfig !! NodeType_TOOL_EXECUTOR with
    | Some toolExecutorNodeName =>
        if String.eqb toolExecutorNodeName "__end__" then ("__end__", graphInstance)
        else (NodeType_TOOL_EXECUTOR,
              addNode toolExecutorNodeName (createToolExecutorNode state) graphInstance)
    | None => ("__end__", graphInstance)
    end
  else (routeNextNode state, graphInstance).

End Builder.
End ConfigurableGraph.

(** ** The claims of the specification, in the words of the specification

    Definitions that follow the specification rather than the source, to be
    compared with the source's. *)

(** A message that the handoff filter carries forward according to the
    specification: a non-error tool result whose tool name is in the
    allow-list. *)
Definition specCarried (allow : list string) (message : ChatMessage) : bool :=
  match message with
  | ToolResultMsg toolResult =>
      negb (isError toolResult) && bool_decide (toolName toolResult ∈ allow)
  | _ => false
  end.

(** The transferred history according to the specification. *)
Definition specHandoffMessages (allow : list string)
    (currentMessages : list ChatMessage) : list ChatMessage :=
  option_list (List.find isUser currentMessages)
  ++ List.filter (specCarried allow) currentMessages.

(** A tool result object that is an error result according to the
    specification: it carries an [error] field or [success: false]. *)
Definition specErrorResult (toolResultData : JsValue) : Prop :=
  is_Some (ownProperty toolResultData "error")
  ∨ ownProperty toolResultData "success" = Some (JsBool false).

(** The result carries a message history of which [initialMessages] is a
    prefix, as the specification says of every result of a run. *)
Definition specCarriesInitialMessages (initialMessages : list ChatMessage)
    (result : ConfigurableAgentResult) : Prop :=
  ∃ h, intermediateSteps result = Some h ∧ initialMessages `prefix_of` h.

(** ** Properties of the source *)

(** A tool result object that the runner flags as an error: its own [error]
    property is truthy, or its own [success] property is [false]. *)
Definition flaggedResult (toolResultData : JsValue) : Prop :=
  (∃ e, ownProperty toolResultData "error" = Some e ∧ truthy e = true)
  ∨ ownProperty toolResultData "success" = Some (JsBool false).

(** A message that the handoff filter carries forward: a non-error tool
    result whose tool name is not empty and is in the allow-list. *)
Definition carriedForward (allow : list string) (message : ChatMessage) : Prop :=
  ∃ toolResult,
    message = ToolResultMsg toolResult
    ∧ isError toolResult = false
    ∧ toolName toolResult ≠ ""
    ∧ toolName toolResult ∈ allow.

(** A result hook that puts the steps it is given into the result, or
    leaves the steps out. *)
Definition keepsSteps (hook : ResultHook) : Prop :=
  ∀ text steps reason h,
    intermediateSteps (hook text steps reason) = Some h → h = steps.

(** ** More bookkeeping for the runner *)

Definition isToolExecute (e : Event) : bool :=
  match e with EvToolExecute _ _ => true | _ => false end.

Definition toolExecutions (tr : list Event) : nat := length (filter isToolExecute tr).

(** A run on which, for [remaining] iterations from [iteration] on, the
    response of the LLM parses to a call of a regular tool of the tool map,
    and the execution of the tool ends with a tool-result message: the tool
    does not reject with [undefined] or [null].  [messages] and [s] are the
    history and the state that the iteration starts from. *)
Fixpoint callsRegularTools {World} {collaborators : Collaborators World}
    (runnerConfig : AgentRunnerConfig World)
    (toolMap : gmap string (RegisteredTool World)) (toolSchemas : list ToolSchema)
    (remaining iteration : nat) (messages : list ChatMessage) (s : RunState World)
  : Prop :=
  match remaining with
  | 0 => True
  | S remaining =>
      ∃ openAIResponse s1 toolName toolArgs tool message s2,
        askLlm runnerConfig toolSchemas iteration messages s = (inr openAIResponse, s1)
        ∧ parseOpenAIResponse openAIResponse = tool_call toolName toolArgs
        ∧ toolMap !! toolName = Some tool
        ∧ asHandoffTarget toolName tool = None
        ∧ runTool toolName (asTool tool) toolArgs s1 = (inr message, s2)
        ∧ callsRegularTools runnerConfig toolMap toolSchemas remaining (S iteration)
            (messages ++ [toolCallMessage toolName toolArgs openAIResponse; message]) s2
  end.

(** A call of [run] all of whose iterations call a regular tool in this
    way: the loop starts from the prepared initial messages, with the tool
    map and the tool schemas that [run] builds. *)
Definition onlyCallsRegularTools {World} {collaborators : Collaborators World}
    (initialMessages : list ChatMessage) (runnerConfig : AgentRunnerConfig World)
    (hooks : AgentRunnerHooks) (executingAgent : option (ConfigurableAgentTool World))
    (s : RunState World) : Prop :=
  callsRegularTools runnerConfig
    (buildTools (tools runnerConfig) executingAgent).1
    (buildTools (tools runnerConfig) executingAgent).2
    (maxIterations runnerConfig) 0
    (match prepareInitialMessages hooks with
     | Some prepare => prepare initialMessages
     | None => initialMessages
     end)
    {| world := world s;
       trace := trace s ++ [EvRunStart (agentNameOf executingAgent)] |}.

(** An executing agent, if there is one, that has no handoff configured. *)
Definition noHandoffs {World} (executingAgent : option (ConfigurableAgentTool World))
  : Prop :=
  default [] (agentHandoffs executingAgent) = [].

(** A handoff that is offered to the LLM as a pseudo-tool: one triggered by
    a tool call whose target resolves to an agent in the registry. *)
Definition offered {World} {collaborators : Collaborators World}
    (handoffConfig : HandoffConfig) : Prop :=
  isLlmTriggered handoffConfig = true
  ∧ ∃ t c, ToolRegistry !! targetAgentName handoffConfig = Some (AgentTool t c).

(** [result] is what one of the two result hooks makes of [steps], for one
    of the reasons for which [run] itself ends. *)
Definition endsRun (hooks : AgentRunnerHooks) (steps : list ChatMessage)
    (result : option ConfigurableAgentResult) : Prop :=
  ∃ text,
    result = Some (createSuccessResult hooks text steps final_answer)
    ∨ result = Some (createErrorResult hooks text steps error_reason)
    ∨ result = Some (createErrorResult hooks text steps max_iterations).

(** ** More notions for the graph builder *)

Section GraphNotions.
Import ConfigurableGraph.
Context {graphCollaborators : GraphCollaborators}.

(** The node instance that the loop over [config.nodes] creates for a node
    configuration: the product of the factory of its type, or the dummy
    error node. *)
Definition configuredNode (openAiModel : ChatOpenAI) (nodeConfig : GraphNodeConfig)
  : Runnable :=
  match nodeFactories (type nodeConfig) with
  | Some factory => factory openAiModel nodeConfig
  | None =>
      ErrorNode ("Unknown node type " +:+ type nodeConfig +:+ " for " +:+ name nodeConfig)
  end.

(** The property names that an object literal inherits from
    [Object.prototype].  [nodeFactories] and [conditionFactories] are object
    literals read with [table[key]]; their lookups are modelled for own
    properties, so what is proved of the builder is stated for
    configurations whose types are none of these names. *)
Definition inheritedKeys : list string :=
  ["constructor"; "hasOwnProperty"; "isPrototypeOf"; "propertyIsEnumerable";
   "toLocaleString"; "toString"; "valueOf"; "__proto__"; "__defineGetter__";
   "__defineSetter__"; "__lookupGetter__"; "__lookupSetter__"].

Definition ownNodeTypes (config : GraphConfig) : Prop :=
  Forall (fun n => type n ∉ inheritedKeys) (nodes config).

Definition ownConditionTypes (config : GraphConfig) : Prop :=
  Forall (fun e => conditionType e ∉ inheritedKeys) (edges config).

(** The condition types for which [conditionFactories] has an entry. *)
Definition knownConditionTypes : list string :=
  ["routeBasedOnLastMessage"; "alwaysAgent"; "routeOrPrepareToolExecutor"].

(** The conditional edge registered for an edge configuration. *)
Definition configuredEdge (edgeConfig : GraphEdgeConfig) : ConditionalEdge :=
  {| edgeSource := source edgeConfig;
     condition := edgeConfig;
     edgeTargets := targetMap edgeConfig |}.

End GraphNotions.

(** ** The LiteLLM client

    The pure parts of [LiteLLMClient]: how it picks its endpoints and how it
    parses a response into an action. *)

Module LiteLLMClient.

Record LiteLLMCallOptions : Type := {
  tools : option (list JsValue);
  tool_choice : option JsValue;
  systemPrompt : option string;
  temperature : option Q;
  endpoint : option string;
  baseUrl : option string
}.

Record FunctionCall : Type := { name : string; arguments : JsValue }.

Record LiteLLMResponse : Type := {
  text : option string;
  functionCall : option FunctionCall;
  rawResponse : JsValue
}.

(** [ParsedLLMAction] as [parseLiteLLMResponse] fills it: the tool name is
    declared a string but may come from parsed JSON. *)
Inductive ParsedLLMAction : Type :=
| tool_call (name : JsValue) (args : JsValue)
| final_answer (answer : string)
| error (error : string).

Definition DEFAULT_BASE_URL : string := "http://localhost:4000".
Definition CHAT_COMPLETIONS_PATH : string := "/v1/chat/completions".
Definition MODELS_PATH : string := "/v1/models".

(** [s.includes(sub)] *)
Fixpoint includes (sub s : string) : bool :=
  String.prefix sub s
  || match s with
     | EmptyString => false
     | String _ rest => includes sub rest
     end.

(** [s.replace(/\/$/, '')]: one slash at the end of [s] is removed. *)
Fixpoint stripTrailingSlash (s : string) : string :=
  match s with
  | EmptyString => EmptyString
  | String c rest =>
      match rest with
      | EmptyString => if String.eqb s "/" then EmptyString else s
      | String _ _ => String c (stripTrailingSlash rest)
      end
  end.

(** An optional string that is truthy: present and not empty. *)
Definition truthyString (s : option string) : option string :=
  match s with
  | Some (String c rest) => Some (String c rest)
  | _ => None
  end.

(** [getEndpoint(options)] *)
Definition getEndpoint (options : option LiteLLMCallOptions) : string :=
  match options ≫= fun o => truthyString (endpoint o) with
  | Some endpoint' =>
      if includes "/v1/chat/completions" endpoint' then endpoint'
      else stripTrailingSlash endpoint' +:+ CHAT_COMPLETIONS_PATH
  | None =>
      match options ≫= fun o => truthyString (baseUrl o) with
      | Some baseUrl' => stripTrailingSlash baseUrl' +:+ CHAT_COMPLETIONS_PATH
      | None => DEFAULT_BASE_URL +:+ CHAT_COMPLETIONS_PATH
      end
  end.

(** The URL that [fetchModels(apiKey, baseUrl)] requests. *)
Definition modelsUrl (baseUrl' : option string) : string :=
  stripTrailingSlash (default DEFAULT_BASE_URL (truthyString baseUrl')) +:+ MODELS_PATH.

Section Parser.
(** The two built-ins of JavaScript that the parser uses: [s.trim()], and
    [JSON.parse(s)] with [None] for a syntax error. *)
Variable trim : string -> string.
Variable JSON_parse : string -> option JsValue.

(** ['"action":"tool"'] *)
Definition toolMarker : string :=
  quote +:+ "action" +:+ quote +:+ ":" +:+ quote +:+ "tool" +:+ quote.

(** [contentJson.action === 'tool'] *)
Definition actionIsTool (contentJson : JsValue) : bool :=
  match Js.get contentJson "action" with
  | JsString a => String.eqb a "tool"
  | _ => false
  end.

(** [parseLiteLLMResponse(response)] *)
Definition parseLiteLLMResponse (response : LiteLLMResponse) : ParsedLLMAction :=
  match functionCall response with
  | Some call =>
      tool_call (JsString (name call)) (Js.or (arguments call) (JsObject []))
  | None =>
      match truthyString (text response) with
      | Some rawContent =>
          if String.prefix "{" (trim rawContent) && includes toolMarker rawContent then
            match JSON_parse rawContent with
            | Some contentJson =>
                if actionIsTool contentJson && truthy (Js.get contentJson "toolName")
                then tool_call (Js.get contentJson "toolName")
                               (Js.or (Js.get contentJson "toolArgs") (JsObject []))
                else final_answer rawContent
            | None => final_answer rawContent
            end
          else final_answer rawContent
      | None => error "LLM returned empty response."
      end
  end.

End Parser.
End LiteLLMClient.

(** ** The agent service

    [AgentService]: the conversation that the panel holds, and how a message
    of the user is sent through the compiled graph.  One call is modelled at
    a time; the calls of the service do not overlap. *)

Module AgentService.

(** A thrown value [e], seen the way the service reads it. *)
Inductive Thrown : Type :=
| ThrownError (message : string)
| ThrownValue (asString : string).

(** [error instanceof Error ? error.message : String(error)] *)
Definition thrownText (e : Thrown) : string :=
  match e with
  | ThrownError message => message
  | ThrownValue asString => asString
  end.

(** A chat message as the service holds it.  A model message has an
    optional [error] field, which the runner never writes; it is kept beside
    the message. *)
Record ServiceMessage : Type := {
  chat : ChatMessage;
  errorField : option string
}.

Module UIStrings.
Definition welcomeMessage : string :=
  "Hello! I'm your AI assistant. How can I help you today?".
Definition agentInitFailed : string := "Failed to initialize agent.".
End UIStrings.

(** [{entity: MODEL, action: 'final', answer, isFinalAnswer: true}], with the
    [error] field when there is one. *)
Definition answerMessage (answer' : string) (error' : option string) : ServiceMessage :=
  {| chat := ModelMsg {| action := ActionFinal;
                         modelToolName := None;
                         modelToolArgs := None;
                         answer := Some answer';
                         isFinalAnswer := true;
                         reasoning := None |};
     errorField := error' |}.

(** The state that [sendMessage] hands to the graph. *)
Record AgentState : Type := {
  stateMessages : list ServiceMessage;
  context : JsValue;
  selectedAgentType : option string;
  currentPageUrl : JsValue;
  currentPageTitle : JsValue
}.

(** What iterating over the generator of a graph run comes to.  [yielded]
    holds the message lists of the yielded states as they are when they are
    yielded.  The graph shares the message array with the service and may
    change it in place, so [finalMessages] is what the array that the service
    holds is when the generator ends; [thrown] is the fault with which it
    ends, if it ends with one. *)
Record GraphRun : Type := {
  yielded : list (list ServiceMessage);
  finalMessages : list ServiceMessage;
  thrown : option Thrown
}.

(** [invoke_evaluate]: the [value] of [result] when there is a [result], and
    whether there are [exceptionDetails]. *)
Record EvaluateResult : Type := {
  resultValue : option JsValue;
  exceptionDetails : bool
}.

(** What the service imports from modules that are not among the sources
    ([State], [Graph], [Types], the SDK and the i18n module), and the
    built-in [s.trim()].  The tools that a graph run executes read the API
    key of the service through [AgentService.getInstance().getApiKey()], so
    [invoke] is given the key of the service as well. *)
Class ServiceCollaborators (World : Type) : Type := {
  CompiledGraph : Type;
  ImageInputData : Type;
  i18nString : string -> string;
  initialMessages : list ServiceMessage;
  createUserMessage : string -> option ImageInputData -> ServiceMessage;
  createAgentGraph : string -> option string -> Thrown + CompiledGraph;
  invoke : CompiledGraph -> AgentState -> option string -> World -> GraphRun * World;
  hasPrimaryPageTarget : World -> bool;
  invoke_evaluate : string -> World -> (Thrown + EvaluateResult) * World;
  trim : string -> string
}.

Section Service.
Context {World : Type} {serviceCollaborators : ServiceCollaborators World}.

(** The private fields of the service; [dispatched] records the message
    lists sent to the listeners of [MESSAGES_CHANGED], in order. *)
Record Service : Type := {
  messages : list ServiceMessage;
  graph : option CompiledGraph;
  apiKey : option string;
  isInitialized : bool;
  dispatched : list (list ServiceMessage)
}.

Definition welcome : ServiceMessage :=
  answerMessage (i18nString UIStrings.welcomeMessage) None.

(** [new AgentService()] *)
Definition newService : Service :=
  {| messages := initialMessages ++ [welcome];
     graph := None;
     apiKey := None;
     isInitialized := false;
     dispatched := [] |}.

Definition withMessages (messages' : list ServiceMessage) (svc : Service) : Service :=
  {| messages := messages'; graph := graph svc; apiKey := apiKey svc;
     isInitialized := isInitialized svc; dispatched := dispatched svc |}.

(** [this.dispatchEventToListeners(Events.MESSAGES_CHANGED, [...this.#state.messages])] *)
Definition dispatch (svc : Service) : Service :=
  {| messages := messages svc; graph := graph svc; apiKey := apiKey svc;
     isInitialized := isInitialized svc;
     dispatched := dispatched svc ++ [messages svc] |}.

(** [initialize(apiKey, modelName)]: the fault it throws, if any. *)
Definition initialize (apiKey' : string) (modelName' : option string) (svc : Service)
  : option Thrown * Service :=
  match createAgentGraph apiKey' modelName' with
  | inr graph' =>
      (None, {| messages := messages svc; graph := Some graph';
                apiKey := Some apiKey'; isInitialized := true;
                dispatched := dispatched svc |})
  | inl _ =>
      (Some (ThrownError (i18nString UIStrings.agentInitFailed)),
       {| messages := messages svc; graph := graph svc;
          apiKey := Some apiKey'; isInitialized := isInitialized svc;
          dispatched := dispatched svc |})
  end.

(** [setApiKey(apiKey)] *)
Definition setApiKey (apiKey' : string) (svc : Service) : Service :=
  {| messages := messages svc; graph := graph svc; apiKey := Some apiKey';
     isInitialized := false; dispatched := dispatched svc |}.

(** [clearConversation()] *)
Definition clearConversation (svc : Service) : Service :=
  dispatch (withMessages (initialMessages ++ [welcome]) svc).

(** [#getCurrentPageUrl()] and [#getCurrentPageTitle()], which differ in the
    expression they evaluate. *)
Definition getCurrentPage (expression : string) (w : World) : JsValue * World :=
  if hasPrimaryPageTarget w then
    match invoke_evaluate expression w with
    | (inr evaluated, w) =>
        (match resultValue evaluated with
         | Some value =>
             if negb (exceptionDetails evaluated) then Js.or value (JsString "")
             else JsString ""
         | None => JsString ""
         end, w)
    | (inl _, w) => (JsString "", w)
    end
  else (JsString "", w).

(** The [catch] of [sendMessage]. *)
Definition answerError (error' : Thrown) (svc : Service) : ServiceMessage * Service :=
  let errorMessage := answerMessage (thrownText error') (Some (thrownText error')) in
  (errorMessage, dispatch (withMessages (messages svc ++ [errorMessage]) svc)).

(** The loop over the generator: every yielded state replaces the messages
    of the service and is dispatched. *)
Definition drain (run : GraphRun) (svc : Service) : Service :=
  withMessages (finalMessages run)
    {| messages := messages svc; graph := graph svc; apiKey := apiKey svc;
       isInitialized := isInitialized svc;
       dispatched := dispatched svc ++ yielded run |}.

(** [sendMessage(text, imageInput, selectedAgentType)]: the fault thrown or
    the message returned. *)
Definition sendMessage (text' : string) (imageInput' : option ImageInputData)
    (selectedAgentType' : option string) (svc : Service) (w : World)
  : (Thrown + ServiceMessage) * Service * World :=
  if String.eqb (default "" (apiKey svc)) ""
  then (inl (ThrownError "API key not set. Please set the API key in settings."), svc, w)
  else if String.eqb (trim text') ""
  then (inl (ThrownError "Empty message. Please enter some text."), svc, w)
  else
    let userMessage := createUserMessage text' imageInput' in
    let svc := dispatch (withMessages (messages svc ++ [userMessage]) svc) in
    let '(pageUrl, w) := getCurrentPage "window.location.href" w in
    let '(pageTitle, w) := getCurrentPage "document.title" w in
    match graph svc with
    | None =>
        let '(errorMessage, svc) :=
          answerError (ThrownError "Agent graph not initialized. Please try again.") svc in
        (inr errorMessage, svc, w)
    | Some graph' =>
        let state := {| stateMessages := messages svc;
                        context := JsObject [];
                        selectedAgentType := selectedAgentType';
                        currentPageUrl := pageUrl;
                        currentPageTitle := pageTitle |} in
        let '(run, w) := invoke graph' state (apiKey svc) w in
        let svc := drain run svc in
        match thrown run with
        | Some error' =>
            let '(errorMessage, svc) := answerError error' svc in
            (inr errorMessage, svc, w)
        | None =>
            match last (messages svc) with
            | Some finalMessage => (inr finalMessage, svc, w)
            | None =>
                let '(errorMessage, svc) :=
                  answerError
                    (ThrownError "No state returned from agent. Please try again.") svc in
                (inr errorMessage, svc, w)
            end
        end
    end.

End Service.
End AgentService.

(** ** Concrete collaborators

    Small worlds on which the runner and the builder can be evaluated. *)

Module Examples.

Definition toolCallResponse (toolName : string) (toolArgs : JsValue) : OpenAIResponse :=
  {| responseText := None;
     functionCall := Some (toolName, toolArgs);
     reasoningSummary := None |}.

Definition textResponse (t : string) : OpenAIResponse :=
  {| responseText := Some t; functionCall := None; reasoningSummary := None |}.

(** A parser in the manner of [parseLiteLLMResponse]. *)
Definition parse (response : OpenAIResponse) : ParsedLLMAction :=
  match functionCall response, responseText response with
  | Some (toolName, toolArgs), _ => tool_call toolName toolArgs
  | None, Some t => final_answer_action t
  | None, None => error_action "LLM returned empty response."
  end.

Section Tools.
Context {World : Type}.

(** A tool that resolves with its arguments. *)
Definition echo : Tool World :=
  {| name := "echo"; description := "Returns its arguments";
     schema := JsObject [];
     execute := fun toolArgs w => (Resolved toolArgs, w) |}.

(** A tool whose [execute] always throws. *)
Definition boom : Tool World :=
  {| name := "boom"; description := "Always fails";
     schema := JsObject [];
     execute := fun _ w => (Rejected (newError "out of order"), w) |}.

(** A tool whose [execute] rejects with [undefined]. *)
Definition mute : Tool World :=
  {| name := "mute"; description := "Fails without a word";
     schema := JsObject [];
     execute := fun _ w => (RejectedNullish false, w) |}.

(** A tool that resolves with [{ success: true, error: null }]. *)
Definition lenient : Tool World :=
  {| name := "lenient"; description := "Reports no error";
     schema := JsObject [];
     execute := fun _ w =>
       (Resolved (JsObject [("success", JsBool true); ("error", JsNull)]), w) |}.

Definition researcherConfig : AgentToolConfig :=
  {| agentSystemPrompt := "You research.";
     agentModelName := None;
     agentTools := ["echo"];
     agentMaxIterations := Some 1;
     agentTemperature := None;
     handoffs := None;
     agentCreateSuccessResult := None;
     agentCreateErrorResult := None;
     includeIntermediateStepsOnReturn := None |}.

Definition researcher : Tool World :=
  {| name := "researcher"; description := "Researches";
     schema := JsObject [];
     execute := fun toolArgs w => (Resolved toolArgs, w) |}.

Definition registry : gmap string (RegisteredTool World) :=
  <["researcher" := AgentTool researcher researcherConfig]>
    (<["echo" := PlainTool echo]> ∅).

End Tools.

(** The messages of the [TypeError]s of V8. *)
Definition engineMessage (cause : TypeErrorCause) : string :=
  match cause with
  | ReadMessageOf false => "Cannot read properties of undefined (reading 'message')"
  | ReadMessageOf true => "Cannot read properties of null (reading 'message')"
  | CallOwnHasOwnProperty => "toolResultData.hasOwnProperty is not a function"
  end.

(** A world that is the script of the outcomes of the LLM calls to come. *)
Definition Script : Type := list (Fault + OpenAIResponse).

#[export] Instance scripted : Collaborators Script :=
  {| enhancePromptWithPageContext := fun prompt w => (prompt, w);
     format := fun messages => "history";
     callOpenAI := fun _ _ _ _ w =>
       match w with
       | [] => (inl (newError "connection lost"), [])
       | outcome :: w => (outcome, w)
       end;
     parseOpenAIResponse := parse;
     JSON_stringify := fun _ => inr (JsString "{}");
     typeErrorMessage := engineMessage;
     ToolRegistry := registry |}.

(** A world in which the LLM always asks for the [echo] tool; the world
    counts the calls. *)
#[export] Instance insistent : Collaborators nat :=
  {| enhancePromptWithPageContext := fun prompt w => (prompt, w);
     format := fun messages => "history";
     callOpenAI := fun _ _ _ _ w => (inr (toolCallResponse "echo" JsNull), S w);
     parseOpenAIResponse := parse;
     JSON_stringify := fun _ => inr (JsString "{}");
     typeErrorMessage := engineMessage;
     ToolRegistry := registry |}.

Definition plainHooks : AgentRunnerHooks :=
  {| prepareInitialMessages := None;
     createSuccessResult := fun out steps reason =>
       {| success := true; output := Some out; resultError := None;
          intermediateSteps := Some steps; terminationReason := Some reason |};
     createErrorResult := fun err steps reason =>
       {| success := false; output := None; resultError := Some err;
          intermediateSteps := Some steps; terminationReason := Some reason |} |}.

Definition runnerConfigOf {World} (tools : list (RegisteredTool World))
    (maxIterations : nat) : AgentRunnerConfig World :=
  {| apiKey := "key"; modelName := "model"; systemPrompt := "You help.";
     tools := tools; maxIterations := maxIterations; temperature := None |}.

Definition question : ChatMessage :=
  UserMsg {| text := "What is on this page?"; imageInput := None |}.

Definition start {World} (w : World) : RunState World :=
  {| world := w; trace := [] |}.

(** The state after one LLM call that left [script] to come. *)
Definition asked (script : Script) : RunState Script :=
  {| world := script; trace := [EvLlmCall "model" "history"] |}.

(** The state after one LLM call and the execution of a tool. *)
Definition executed (script : Script) (toolName : string) (toolArgs : JsValue)
  : RunState Script :=
  {| world := script;
     trace := [EvLlmCall "model" "history"; EvToolExecute toolName toolArgs] |}.

Definition toolResultOf (toolName : string) (isError : bool) : ChatMessage :=
  ToolResultMsg {| toolName := toolName; resultText := JsString "done";
                   isError := isError;
                   error := if isError then Some (JsString "done") else None;
                   resultData := None |}.

Definition handoffTo (targetAgentName : string) (allow : option (list string))
  : HandoffConfig :=
  {| targetAgentName := targetAgentName; trigger := None;
     includeToolResults := allow |}.

(** An agent that hands off to [researcher] on request of the LLM. *)
Definition coordinator {World} : ConfigurableAgentTool World :=
  {| agentTool := {| name := "coordinator"; description := "Coordinates";
                     schema := JsObject [];
                     execute := fun toolArgs w => (Resolved toolArgs, w) |};
     config := {| agentSystemPrompt := "You coordinate.";
                  agentModelName := None;
                  agentTools := ["echo"];
                  agentMaxIterations := None;
                  agentTemperature := None;
                  handoffs := Some [handoffTo "researcher" None];
                  agentCreateSuccessResult := None;
                  agentCreateErrorResult := None;
                  includeIntermediateStepsOnReturn := None |} |}.

Definition twoNodes : ConfigurableGraph.GraphConfig :=
  {| ConfigurableGraph.graphName := "chat";
     ConfigurableGraph.entryPoint := "start";
     ConfigurableGraph.nodes :=
       [{| ConfigurableGraph.name := "agent"; ConfigurableGraph.type := "agent" |};
        {| ConfigurableGraph.name := "final"; ConfigurableGraph.type := "final" |}];
     ConfigurableGraph.edges := [] |}.

Definition edgeTo (toolExecutorNodeName : string) : ConfigurableGraph.GraphEdgeConfig :=
  {| ConfigurableGraph.source := "agent";
     ConfigurableGraph.conditionType := "routeOrPrepareToolExecutor";
     ConfigurableGraph.targetMap := {["tool_executor" := toolExecutorNodeName]} |}.

(** Graph collaborators whose router always asks for the tool executor. *)
#[export] Instance toolRouting : ConfigurableGraph.GraphCollaborators :=
  {| ConfigurableGraph.AgentState := unit;
     ConfigurableGraph.ChatOpenAI := unit;
     ConfigurableGraph.routeNextNode := fun _ => "tool_executor";
     ConfigurableGraph.NodeType_AGENT := "agent";
     ConfigurableGraph.NodeType_TOOL_EXECUTOR := "tool_executor" |}.

End Examples.

(** ** More concrete collaborators *)

Module MoreExamples.
Import Examples.

(** An LLM response with neither text nor tool call. *)
Definition emptyResponse : OpenAIResponse :=
  {| responseText := None; functionCall := None; reasoningSummary := None |}.

Definition agentWith {World} (agentName : string) (handoffConfigs : list HandoffConfig)
  : ConfigurableAgentTool World :=
  {| agentTool := {| name := agentName; description := "Delegates";
                     schema := JsObject [];
                     execute := fun toolArgs w => (Resolved toolArgs, w) |};
     config := {| agentSystemPrompt := "You delegate.";
                  agentModelName := None;
                  agentTools := ["echo"];
                  agentMaxIterations := None;
                  agentTemperature := None;
                  handoffs := Some handoffConfigs;
                  agentCreateSuccessResult := None;
                  agentCreateErrorResult := None;
                  includeIntermediateStepsOnReturn := None |} |}.

(** Result hooks that report only the last step. *)
Definition terseHooks : AgentRunnerHooks :=
  {| prepareInitialMessages := None;
     createSuccessResult := fun out steps reason =>
       {| success := true; output := Some out; resultError := None;
          intermediateSteps := Some (option_list (last steps));
          terminationReason := Some reason |};
     createErrorResult := fun err steps reason =>
       {| success := false; output := None; resultError := Some err;
          intermediateSteps := Some (option_list (last steps));
          terminationReason := Some reason |} |}.

(** A handoff that is taken when the iterations are used up. *)
Definition whenExhausted (targetAgentName : string) : HandoffConfig :=
  {| targetAgentName := targetAgentName;
     trigger := Some trigger_max_iterations;
     includeToolResults := None |}.

(** A graph configuration that declares the node [agent] twice. *)
Definition declaredTwice : ConfigurableGraph.GraphConfig :=
  {| ConfigurableGraph.graphName := "chat";
     ConfigurableGraph.entryPoint := "agent";
     ConfigurableGraph.nodes :=
       [{| ConfigurableGraph.name := "agent"; ConfigurableGraph.type := "agent" |};
        {| ConfigurableGraph.name := "agent"; ConfigurableGraph.type := "planner" |}];
     ConfigurableGraph.edges := [] |}.

(** A graph configuration with an edge of a condition type that the
    builder does not know, between two edges that it knows. *)
Definition threeEdges : ConfigurableGraph.GraphConfig :=
  {| ConfigurableGraph.graphName := "chat";
     ConfigurableGraph.entryPoint := "agent";
     ConfigurableGraph.nodes :=
       [{| ConfigurableGraph.name := "agent"; ConfigurableGraph.type := "agent" |};
        {| ConfigurableGraph.name := "tools"; ConfigurableGraph.type := "toolExecutor" |}];
     ConfigurableGraph.edges :=
       [edgeTo "tools";
        {| ConfigurableGraph.source := "agent";
           ConfigurableGraph.conditionType := "askTheUser";
           ConfigurableGraph.targetMap := ∅ |};
        {| ConfigurableGraph.source := "tools";
           ConfigurableGraph.conditionType := "alwaysAgent";
           ConfigurableGraph.targetMap := {["agent" := "agent"]} |}] |}.

(** A [trim] for the white space of ASCII. *)
Definition isSpace (c : Ascii.ascii) : bool :=
  bool_decide (Ascii.nat_of_ascii c ∈ [9; 10; 11; 12; 13; 32]).

Fixpoint trimStart (s : string) : string :=
  match s with
  | EmptyString => EmptyString
  | String c rest => if isSpace c then trimStart rest else s
  end.

Definition trimAscii (s : string) : string :=
  String.rev (trimStart (String.rev (trimStart s))).

(** A [JSON.parse] that accepts nothing. *)
Definition rejectJson (s : string) : option JsValue := None.

Definition userSays (t : string) : AgentService.ServiceMessage :=
  {| AgentService.chat := UserMsg {| text := t; imageInput := None |};
     AgentService.errorField := None |}.

(** A service whose compiled graphs are the runs they make, on a page
    without a target; the key [revoked] makes no graph. *)
#[export] Instance canned : AgentService.ServiceCollaborators unit :=
  {| AgentService.CompiledGraph := AgentService.GraphRun;
     AgentService.ImageInputData := string;
     AgentService.i18nString := fun s => s;
     AgentService.initialMessages := [];
     AgentService.createUserMessage := fun t _ => userSays t;
     AgentService.createAgentGraph := fun key _ =>
       if String.eqb key "revoked"
       then inl (AgentService.ThrownError "unauthorized")
       else inr {| AgentService.yielded := [];
                   AgentService.finalMessages := [];
                   AgentService.thrown := None |};
     AgentService.invoke := fun graph _ _ w => (graph, w);
     AgentService.hasPrimaryPageTarget := fun _ => false;
     AgentService.invoke_evaluate := fun _ w =>
       (inl (AgentService.ThrownValue "no target"), w);
     AgentService.trim := trimAscii |}.

(** A graph run that answers with one message. *)
Definition answers (t : string) (history : list AgentService.ServiceMessage)
  : AgentService.GraphRun :=
  {| AgentService.yielded := [history ++ [AgentService.answerMessage t None]];
     AgentService.finalMessages := history ++ [AgentService.answerMessage t None];
     AgentService.thrown := None |}.

Definition serviceWith (graph : option AgentService.GraphRun) (key : option string)
  : AgentService.Service :=
  {| AgentService.messages := [];
     AgentService.graph := graph;
     AgentService.apiKey := key;
     AgentService.isInitialized := false;
     AgentService.dispatched := [] |}.

End MoreExamples.

(** ** Properties of the runner *)

Section RunnerProperties.
Context {World : Type} {collaborators : Collaborators World}.

Lemma truthy_get (v : JsValue) (k : string) :
  truthy (Js.get v k) = true ↔ ∃ e, ownProperty v k = Some e ∧ truthy e = true.
Proof.
  unfold Js.get. destruct (ownProperty v k) as [e|]; simpl.
  - split; [intros He; by exists e | intros (e' & [= <-] & He); done].
  - split; [done | intros (e' & [=] & _)].
Qed.

Lemma successIsFalse_own (v : JsValue) :
  successIsFalse v = true ↔ ownProperty v "success" = Some (JsBool false).
Proof.
  unfold successIsFalse, Js.get.
  destruct (ownProperty v "success") as [[| |[]| | | |]|]; simpl; split; done.
Qed.

(** The error flag that the runner computes for the value of a tool, when
    neither [JSON.stringify] nor the call of [hasOwnProperty] throws. *)
Lemma interpretToolResult_flag (toolResultData serialised : JsValue) :
  isNonNullObject toolResultData = true →
  ownProperty toolResultData "hasOwnProperty" = None →
  JSON_stringify toolResultData = inr serialised →
  ∃ toolResultText toolIsError,
    interpretToolResult toolResultData = inr (toolResultText, toolIsError)
    ∧ (toolIsError = true ↔ flaggedResult toolResultData).
Proof.
  intros Hobj Hown Hjson. unfold interpretToolResult, callHasOwnProperty, flaggedResult.
  assert (isString toolResultData = false) as -> by (by destruct toolResultData).
  rewrite Hjson, Hobj, Hown.
  destruct (hasOwnProperty toolResultData "error"
            && truthy (Js.get toolResultData "error")) eqn:Herr.
  - eexists _, _. split; [done |].
    apply andb_true_iff in Herr as [_ Herr]. apply truthy_get in Herr. tauto.
  - assert (¬ ∃ e, ownProperty toolResultData "error" = Some e ∧ truthy e = true)
      as Hno.
    { intros He. pose proof He as (e & Hown' & _). apply truthy_get in He.
      apply andb_false_iff in Herr as [Herr | Herr]; [|congruence].
      unfold hasOwnProperty in Herr. apply bool_decide_eq_false in Herr.
      apply Herr. by exists e. }
    destruct (hasOwnProperty toolResultData "success"
              && successIsFalse toolResultData) eqn:Hsucc.
    + eexists _, _. split; [done |].
      apply andb_true_iff in Hsucc as [_ Hsucc]. apply successIsFalse_own in Hsucc.
      tauto.
    + eexists _, _. split; [done |].
      split; [done | intros [He | Hs]; [done |]].
      pose proof Hs as Hs'. apply successIsFalse_own in Hs'.
      apply andb_false_iff in Hsucc as [Hsucc | Hsucc]; [|congruence].
      unfold hasOwnProperty in Hsucc. apply bool_decide_eq_false in Hsucc.
      exfalso. apply Hsucc. by eexists.
Qed.

Lemma askLlm_trace runnerConfig toolSchemas iteration messages
    (s s' : RunState World) response :
  askLlm runnerConfig toolSchemas iteration messages s = (response, s') →
  trace s' = trace s ++ [EvLlmCall (modelName runnerConfig) (format messages)].
Proof.
  unfold askLlm, enhance, callLlm. intros Hask.
  destruct (enhancePromptWithPageContext _ _) as [p w].
  destruct (callOpenAI _ _ _ _ _) as [r w']. by inversion Hask.
Qed.

Lemma executeTool_trace (t : Tool World) toolArgs (s s' : RunState World) outcome :
  executeTool t toolArgs s = (outcome, s') →
  trace s' = trace s ++ [EvToolExecute (name t) toolArgs].
Proof.
  unfold executeTool. intros Hexec.
  destruct (execute _ _ _) as [r w]. by inversion Hexec.
Qed.

Lemma llmCalls_app (tr1 tr2 : list Event) :
  llmCalls (tr1 ++ tr2) = llmCalls tr1 + llmCalls tr2.
Proof. unfold llmCalls. by rewrite filter_app, length_app. Qed.

Section Iteration.
Variable run : RunFn (World := World).
Variable args : JsValue.
Variable runnerConfig : AgentRunnerConfig World.
Variable hooks : AgentRunnerHooks.
Variable executingAgent : option (ConfigurableAgentTool World).
Variable toolMap : gmap string (RegisteredTool World).
Variable toolSchemas : list ToolSchema.

Abbreviation process := (processAction run runnerConfig hooks executingAgent toolMap).
Abbreviation step :=
  (iterationStep run runnerConfig hooks executingAgent toolMap toolSchemas).
Abbreviation iterate :=
  (loop run args runnerConfig hooks executingAgent toolMap toolSchemas).
Abbreviation ask := (askLlm runnerConfig toolSchemas).

(** C5 (as amended): when a regular tool resolves with an object that
    [JSON.stringify] serialises and that has no own property named
    [hasOwnProperty], the tool-result message appended to the history is
    flagged as an error exactly when the object's own [error] property is
    truthy or its own [success] property is [false]. *)
Theorem tool_result_error_flag
    (messages : list ChatMessage) (openAIResponse : OpenAIResponse)
    (toolName' : string) (toolArgs : JsValue) (tool : RegisteredTool World)
    (toolResultData serialised : JsValue) (s s' : RunState World) :
  toolMap !! toolName' = Some tool →
  asHandoffTarget toolName' tool = None →
  executeTool (asTool tool) toolArgs s = (Resolved toolResultData, s') →
  isNonNullObject toolResultData = true →
  ownProperty toolResultData "hasOwnProperty" = None →
  JSON_stringify toolResultData = inr serialised →
  ∃ m : ToolResultMessage,
    process messages openAIResponse (tool_call toolName' toolArgs) s
    = (FallsThrough (messages ++ [toolCallMessage toolName' toolArgs openAIResponse;
                                  ToolResultMsg m]), s')
    ∧ toolName m = toolName'
    ∧ resultData m = Some toolResultData
    ∧ (isError m = true ↔ flaggedResult toolResultData).
Proof.
  intros Hmap Hnot Hexec Hobj Hown Hjson.
  destruct (interpretToolResult_flag toolResultData serialised Hobj Hown Hjson)
    as (toolResultText & toolIsError & Hinterpret & Hflag).
  unfold processAction, runTool, settleTool. rewrite Hmap, Hnot, Hexec, Hinterpret.
  eexists. split; [by rewrite <- app_assoc |]. simpl.
  split_and!; [done | | exact Hflag].
  by destruct toolResultData.
Qed.

Lemma faultText_newError (msg : string) :
  msg ≠ "" → faultText (newError msg) = msg.
Proof.
  intros Hne. unfold faultText, newError, strOr. simpl.
  destruct (String.eqb_spec msg ""); done.
Qed.

Lemma step_of_ask (iteration : nat) (messages : list ChatMessage)
    (s s1 : RunState World) (response : Fault + OpenAIResponse) :
  ask iteration messages s = (response, s1) →
  step iteration messages s =
    match response with
    | inl error =>
        (Return (Some (createErrorResult hooks ("LLM call failed: " +:+ faultText error)
                         (messages ++ [systemErrorMessage
                                         ("LLM call failed: " +:+ faultText error)])
                         error_reason)), s1)
    | inr openAIResponse =>
        let '(outcome, s2) :=
          process messages openAIResponse (parseOpenAIResponse openAIResponse) s1 in
        match outcome with
        | Throws messages error =>
            (Return (Some (createErrorResult hooks
                             ("Agent loop error: " +:+ faultText error)
                             (messages ++ [systemErrorMessage
                                             ("Agent loop error: " +:+ faultText error)])
                             error_reason)), s2)
        | Returns result => (Return result, s2)
        | FallsThrough messages => (NextIteration messages, s2)
        end
    end.
Proof. intros Hask. unfold iterationStep. rewrite Hask. by destruct response. Qed.

Lemma iterate_of_step (remaining iteration : nat) (messages : list ChatMessage)
    (s s' : RunState World) (outcome : StepOutcome) :
  step iteration messages s = (outcome, s') →
  iterate (S remaining) iteration messages s =
    match outcome with
    | Return result => (result, s')
    | NextIteration messages' => iterate remaining (S iteration) messages' s'
    end.
Proof. intros Hstep. simpl. by rewrite Hstep. Qed.

Lemma runTool_trace (toolName' : string) (tool : Tool World) (toolArgs : JsValue)
    (s s' : RunState World) (settled : Fault + ChatMessage) :
  runTool toolName' tool toolArgs s = (settled, s') →
  trace s' = trace s ++ [EvToolExecute (name tool) toolArgs].
Proof.
  unfold runTool. intros Hrun.
  destruct (executeTool tool toolArgs s) as [outcome s2] eqn:Hexec.
  apply executeTool_trace in Hexec. by injection Hrun as _ <-.
Qed.

(** A fault leaves the [try]/[catch] of the tool execution exactly when the
    tool rejects with [undefined] or [null]; every other execution ends with
    a tool-result message. *)
Lemma runTool_throws_iff (toolName' : string) (tool : Tool World) (toolArgs : JsValue)
    (s s' : RunState World) (err : Fault) :
  runTool toolName' tool toolArgs s = (inl err, s')
  ↔ ∃ isNull,
      executeTool tool toolArgs s = (RejectedNullish isNull, s')
      ∧ err = newTypeError (typeErrorMessage (ReadMessageOf isNull)).
Proof.
  unfold runTool, settleTool.
  destruct (executeTool tool toolArgs s) as [outcome s2]. split.
  - intros [= Hsettled <-].
    destruct outcome as [toolResultData | err' | isNull]; [| done |].
    + by destruct (interpretToolResult toolResultData) as [? | [? ?]].
    + injection Hsettled as <-. by exists isNull.
  - by intros (isNull & [= -> <-] & ->).
Qed.

(** A call of a regular tool of the tool map whose execution ends with a
    tool-result message takes the loop to its next iteration, with one more
    LLM call made. *)
Lemma step_regular_tool (iteration : nat) (messages : list ChatMessage)
    (s s1 s2 : RunState World) (openAIResponse : OpenAIResponse)
    (toolName' : string) (toolArgs : JsValue) (tool : RegisteredTool World)
    (message : ChatMessage) :
  ask iteration messages s = (inr openAIResponse, s1) →
  parseOpenAIResponse openAIResponse = tool_call toolName' toolArgs →
  toolMap !! toolName' = Some tool →
  asHandoffTarget toolName' tool = None →
  runTool toolName' (asTool tool) toolArgs s1 = (inr message, s2) →
  step iteration messages s
  = (NextIteration (messages ++ [toolCallMessage toolName' toolArgs openAIResponse;
                                 message]), s2)
  ∧ llmCalls (trace s2) = llmCalls (trace s) + 1.
Proof.
  intros Hask Hparse Hmap Hnot Hrun.
  rewrite (step_of_ask _ _ _ _ _ Hask), Hparse.
  unfold processAction. rewrite Hmap, Hnot, Hrun.
  split; [by rewrite <- app_assoc |].
  apply runTool_trace in Hrun. apply askLlm_trace in Hask.
  rewrite Hrun, Hask, !llmCalls_app. unfold llmCalls. simpl. lia.
Qed.

(** A fault that leaves the [try] block of the iteration ends the run: one
    [system_error] message is appended and the error hook makes the result. *)
Lemma step_of_throw (iteration : nat) (messages messages' : list ChatMessage)
    (s s1 s2 : RunState World) (openAIResponse : OpenAIResponse) (err : Fault) :
  ask iteration messages s = (inr openAIResponse, s1) →
  process messages openAIResponse (parseOpenAIResponse openAIResponse) s1
  = (Throws messages' err, s2) →
  step iteration messages s
  = (Return (Some (createErrorResult hooks ("Agent loop error: " +:+ faultText err)
                     (messages' ++ [systemErrorMessage
                                      ("Agent loop error: " +:+ faultText err)])
                     error_reason)), s2).
Proof.
  intros Hask Hprocess. rewrite (step_of_ask _ _ _ _ _ Hask). cbv beta iota.
  by rewrite Hprocess.
Qed.

(** C4, for a fault other than [undefined] and [null]: when the [execute]
    of a regular tool throws such a value, the iteration appends the
    tool-call message of the model and one tool-result message with
    [isError = true] that carries the error text, and the loop goes on with
    the next iteration. *)
Theorem tool_fault_is_caught
    (iteration : nat) (messages : list ChatMessage)
    (s s1 s2 : RunState World) (openAIResponse : OpenAIResponse)
    (toolName' : string) (toolArgs : JsValue) (tool : RegisteredTool World)
    (err : Fault) :
  ask iteration messages s = (inr openAIResponse, s1) →
  parseOpenAIResponse openAIResponse = tool_call toolName' toolArgs →
  toolMap !! toolName' = Some tool →
  asHandoffTarget toolName' tool = None →
  executeTool (asTool tool) toolArgs s1 = (Rejected err, s2) →
  let errorText := JsString ("Error during tool execution: " +:+ faultText err) in
  let messages' :=
    messages ++ [ModelMsg {| action := ActionTool;
                             modelToolName := Some toolName';
                             modelToolArgs := Some toolArgs;
                             answer := None;
                             isFinalAnswer := false;
                             reasoning := reasoningSummary openAIResponse |};
                 ToolResultMsg {| toolName := toolName';
                                  resultText := errorText;
                                  isError := true;
                                  error := Some errorText;
                                  resultData := Some (JsObject [("error", errorText)]) |}] in
  step iteration messages s = (NextIteration messages', s2)
  ∧ ∀ remaining,
      iterate (S remaining) iteration messages s
      = iterate remaining (S iteration) messages' s2.
Proof.
  intros Hask Hparse Hmap Hnot Hexec errorText messages'.
  assert (step iteration messages s = (NextIteration messages', s2)) as Hstep.
  { rewrite (step_of_ask _ _ _ _ _ Hask), Hparse.
    unfold processAction, runTool. rewrite Hmap, Hnot, Hexec.
    cbn [settleTool]. subst messages'. by rewrite <- app_assoc. }
  split; [exact Hstep |].
  intros remaining. by rewrite (iterate_of_step _ _ _ _ _ _ Hstep).
Qed.

(** C8: when the LLM call throws, the iteration appends one diagnostic
    tool-result message, named [system_error] and flagged as an error, that
    records the error text, and [run] returns the result of the error hook
    with that text and reason [error] at once: the LLM has been called once,
    and no further iteration runs. *)
Theorem llm_failure_is_fatal
    (iteration : nat) (messages : list ChatMessage)
    (s s1 : RunState World) (err : Fault) :
  ask iteration messages s = (inl err, s1) →
  let errorMsg := "LLM call failed: " +:+ faultText err in
  let diagnostic :=
    ToolResultMsg {| toolName := "system_error";
                     resultText := JsString errorMsg;
                     isError := true;
                     error := Some (JsString errorMsg);
                     resultData := None |} in
  let result := createErrorResult hooks errorMsg (messages ++ [diagnostic]) error_reason in
  step iteration messages s = (Return (Some result), s1)
  ∧ (∀ remaining, iterate (S remaining) iteration messages s = (Some result, s1))
  ∧ llmCalls (trace s1) = llmCalls (trace s) + 1.
Proof.
  intros Hask errorMsg diagnostic result.
  pose proof (step_of_ask _ _ _ _ _ Hask) as Hstep. simpl in Hstep.
  split; [exact Hstep |]. split.
  - intros remaining. by rewrite (iterate_of_step _ _ _ _ _ _ Hstep).
  - apply askLlm_trace in Hask. rewrite Hask, llmCalls_app. reflexivity.
Qed.

(** C1 (as amended): when the LLM asks for a tool that is not in the tool
    map, the iteration appends the tool-call message of the model and one
    tool-result message, named [system_error] and flagged as an error, that
    carries [Agent loop error: Agent requested unknown tool: <name>], and
    [run] returns the result of the error hook with that text and reason
    [error] at once; no further iteration runs. *)
Theorem unknown_tool_is_fatal
    (iteration : nat) (messages : list ChatMessage)
    (s s1 : RunState World) (openAIResponse : OpenAIResponse)
    (toolName' : string) (toolArgs : JsValue) :
  ask iteration messages s = (inr openAIResponse, s1) →
  parseOpenAIResponse openAIResponse = tool_call toolName' toolArgs →
  toolMap !! toolName' = None →
  let errorMsg := "Agent loop error: Agent requested unknown tool: " +:+ toolName' in
  let result :=
    createErrorResult hooks errorMsg
      (messages ++ [ModelMsg {| action := ActionTool;
                                modelToolName := Some toolName';
                                modelToolArgs := Some toolArgs;
                                answer := None;
                                isFinalAnswer := false;
                                reasoning := reasoningSummary openAIResponse |};
                    ToolResultMsg {| toolName := "system_error";
                                     resultText := JsString errorMsg;
                                     isError := true;
                                     error := Some (JsString errorMsg);
                                     resultData := None |}])
      error_reason in
  step iteration messages s = (Return (Some result), s1)
  ∧ ∀ remaining, iterate (S remaining) iteration messages s = (Some result, s1).
Proof.
  intros Hask Hparse Hmap errorMsg result.
  assert (step iteration messages s = (Return (Some result), s1)) as Hstep.
  { rewrite (step_of_ask _ _ _ _ _ Hask), Hparse.
    unfold processAction. rewrite Hmap.
    rewrite faultText_newError by done.
    subst result errorMsg. by rewrite <- app_assoc. }
  split; [exact Hstep |].
  intros remaining. by rewrite (iterate_of_step _ _ _ _ _ _ Hstep).
Qed.

End Iteration.
(** *** The handoff protocol *)

#[global] Instance carriedForward_dec (allow : list string) (message : ChatMessage) :
  Decision (carriedForward allow message).
Proof.
  destruct message as [u | m | t]; [right; intros (t & [=] & _) .. |].
  destruct (decide (isError t = false ∧ toolName t ≠ "" ∧ toolName t ∈ allow))
    as [Hyes | Hno].
  - left. exists t. tauto.
  - right. intros (t' & [= <-] & Ht'). tauto.
Defined.

Lemma isCollected_carriedForward (allow : list string) (message : ChatMessage) :
  isCollected allow message = true ↔ carriedForward allow message.
Proof.
  unfold carriedForward. destruct message as [u | m | t]; simpl.
  - split; [done | intros (t & [=] & _)].
  - split; [done | intros (t & [=] & _)].
  - rewrite !andb_true_iff, !negb_true_iff, bool_decide_eq_true.
    split.
    + intros [[Herr Hname] Hin]. exists t. repeat split; try done.
      intros Heq. rewrite Heq in Hname. discriminate.
    + intros (t' & [= <-] & Herr & Hname & Hin). repeat split; try done.
      by destruct (String.eqb_spec (toolName t) "").
Qed.

Lemma filter_isCollected (allow : list string) (messages : list ChatMessage) :
  List.filter (isCollected allow) messages = filter (carriedForward allow) messages.
Proof.
  induction messages as [| message messages IH]; [done |].
  simpl. rewrite filter_cons, IH.
  destruct (isCollected allow message) eqn:Hc.
  - apply isCollected_carriedForward in Hc. by rewrite decide_True.
  - rewrite decide_False; [done |].
    intros Hyes. apply isCollected_carriedForward in Hyes. congruence.
Qed.

(** C3 (as amended): with a non-empty allow-list the history handed to the
    target agent is the first user message of the source history, if any,
    followed by the non-error tool results whose tool name is not empty and
    is in the allow-list, in their original order; with no allow-list it is
    the whole source history.  [executeHandoff] runs the target agent on
    exactly that history. *)
Theorem handoff_history_filter
    (run : RunFn (World := World)) (currentMessages : list ChatMessage)
    (originalArgs : JsValue) (handoffConfig : HandoffConfig)
    (executingAgent : ConfigurableAgentTool World) (key defaultModelName : string)
    (defaultMaxIterations : nat) (defaultTemperature : Q)
    (defaultCreateSuccessResult defaultCreateErrorResult : ResultHook)
    (llmToolArgs : option JsValue) (s : RunState World)
    (t : Tool World) (c : AgentToolConfig) :
  ToolRegistry !! targetAgentName handoffConfig = Some (AgentTool t c) →
  (∀ allow, includeToolResults handoffConfig = Some allow → allow ≠ [] →
     handoffMessages handoffConfig currentMessages
     = option_list (List.find isUser currentMessages)
       ++ filter (carriedForward allow) currentMessages)
  ∧ (includeToolResults handoffConfig = None →
     handoffMessages handoffConfig currentMessages = currentMessages)
  ∧ ∃ targetRunnerConfig targetRunnerHooks,
      executeHandoff run currentMessages originalArgs handoffConfig executingAgent
        key defaultModelName defaultMaxIterations defaultTemperature
        defaultCreateSuccessResult defaultCreateErrorResult llmToolArgs s
      = let '(handoffResult, s') :=
          run (handoffMessages handoffConfig currentMessages)
              (default originalArgs llmToolArgs)
              targetRunnerConfig targetRunnerHooks
              (Some {| agentTool := t; config := c |})
              (enhance (agentSystemPrompt c) s).2 in
        (finishHandoff c currentMessages <$> handoffResult, s').
Proof.
  intros Htarget. split; [| split].
  - intros allow Hallow Hne. unfold handoffMessages, collectedToolResultMessages.
    unfold hasIncludeFilter. rewrite Hallow. simpl.
    destruct allow as [| a allow]; [done |]. simpl.
    rewrite filter_isCollected. by destruct (List.find isUser currentMessages).
  - intros Hnone. unfold handoffMessages, hasIncludeFilter. by rewrite Hnone.
  - unfold executeHandoff, getRegisteredTool. rewrite Htarget. simpl.
    destruct (enhance (agentSystemPrompt c) s) as [prompt s1]. simpl.
    eexists _, _. reflexivity.
Qed.

(** C7: when the target of a handoff is unknown to the registry or is a
    plain tool, [executeHandoff] returns the result of the error hook with
    reason [error] at once; whatever [run] is, it is not called, and the
    state is left as it was. *)
Theorem handoff_target_unresolved
    (run : RunFn (World := World)) (currentMessages : list ChatMessage)
    (originalArgs : JsValue) (handoffConfig : HandoffConfig)
    (executingAgent : ConfigurableAgentTool World) (key defaultModelName : string)
    (defaultMaxIterations : nat) (defaultTemperature : Q)
    (defaultCreateSuccessResult defaultCreateErrorResult : ResultHook)
    (llmToolArgs : option JsValue) (s : RunState World) :
  (ToolRegistry !! targetAgentName handoffConfig = None
   ∨ ∃ t, ToolRegistry !! targetAgentName handoffConfig = Some (PlainTool t)) →
  executeHandoff run currentMessages originalArgs handoffConfig executingAgent
    key defaultModelName defaultMaxIterations defaultTemperature
    defaultCreateSuccessResult defaultCreateErrorResult llmToolArgs s
  = (Some (defaultCreateErrorResult
             ("Handoff target '" +:+ targetAgentName handoffConfig
              +:+ "' not found or is not a ConfigurableAgentTool.")
             currentMessages error_reason), s).
Proof.
  intros [Hnone | [t Hplain]]; unfold executeHandoff, getRegisteredTool.
  - by rewrite Hnone.
  - by rewrite Hplain.
Qed.

(** *** The iteration budget *)

(** The loop on a run whose remaining iterations all call a regular tool:
    it runs them all, with one LLM call and two appended messages each, and
    ends in [afterLoop]. *)
Lemma loop_of_tool_calls
    (run : RunFn (World := World)) (args : JsValue)
    (runnerConfig : AgentRunnerConfig World) (hooks : AgentRunnerHooks)
    (executingAgent : option (ConfigurableAgentTool World))
    (toolMap : gmap string (RegisteredTool World)) (toolSchemas : list ToolSchema) :
  ∀ remaining iteration messages s,
    callsRegularTools runnerConfig toolMap toolSchemas remaining iteration messages s →
    ∃ appended s',
      loop run args runnerConfig hooks executingAgent toolMap toolSchemas
           remaining iteration messages s
      = afterLoop run args runnerConfig hooks executingAgent (messages ++ appended) s'
      ∧ length appended = 2 * remaining
      ∧ llmCalls (trace s') = llmCalls (trace s) + remaining.
Proof.
  intros remaining.
  induction remaining as [| remaining IH]; intros iteration messages s Hcalls.
  - exists [], s. rewrite app_nil_r. split_and!; [done | done | lia].
  - destruct Hcalls
      as (openAIResponse & s1 & toolName' & toolArgs & tool & message & s2
          & Hask & Hparse & Hmap & Hnot & Hrun & Hrest).
    destruct (step_regular_tool run runnerConfig hooks executingAgent toolMap
                toolSchemas _ _ _ _ _ _ _ _ _ _ Hask Hparse Hmap Hnot Hrun)
      as (Hstep & Hcalls).
    erewrite iterate_of_step; [| exact Hstep].
    destruct (IH _ _ _ Hrest) as (appended & s' & Hloop & Hlen & Hcalls').
    exists ([toolCallMessage toolName' toolArgs openAIResponse; message] ++ appended), s'.
    rewrite app_assoc. split_and!; [exact Hloop | rewrite length_app; simpl; lia | lia].
Qed.

(** C2, for tools that do not reject with [undefined] or [null]: with
    [maxIterations = N] and no [max_iterations] handoff, if every response of
    the LLM along the run parses to a call of a regular tool of the tool map,
    [run] makes exactly [N] LLM calls, appends two messages in each
    iteration, and returns the result of the error hook with reason
    [max_iterations]. *)
Theorem max_iterations_reached
    (fuel : nat) (initialMessages : list ChatMessage) (args : JsValue)
    (runnerConfig : AgentRunnerConfig World) (hooks : AgentRunnerHooks)
    (executingAgent : option (ConfigurableAgentTool World)) (s : RunState World) :
  agentHandoffs executingAgent ≫= List.find isMaxIterationsTriggered = None →
  onlyCallsRegularTools initialMessages runnerConfig hooks executingAgent s →
  ∃ messages' s',
    run (S fuel) initialMessages args runnerConfig hooks executingAgent s
    = (Some (createErrorResult hooks
               ("Agent reached maximum iterations ("
                +:+ pretty (maxIterations runnerConfig) +:+ ")")
               messages' max_iterations), s')
    ∧ length messages'
      = length (match prepareInitialMessages hooks with
                | Some prepare => prepare initialMessages
                | None => initialMessages
                end) + 2 * maxIterations runnerConfig
    ∧ llmCalls (trace s') = llmCalls (trace s) + maxIterations runnerConfig.
Proof.
  intros Hnone Hcalls. simpl. unfold runBody. unfold onlyCallsRegularTools in Hcalls.
  destruct (buildTools (tools runnerConfig) executingAgent) as [toolMap toolSchemas].
  simpl in Hcalls.
  destruct (loop_of_tool_calls (run fuel) args runnerConfig hooks executingAgent
              toolMap toolSchemas _ _ _ _ Hcalls)
    as (appended & s' & Hloop & Hlen & Hllm).
  eexists _, s'. rewrite Hloop. split_and!.
  - unfold afterLoop. rewrite Hnone. by destruct executingAgent.
  - rewrite length_app. lia.
  - rewrite Hllm. simpl. rewrite llmCalls_app. unfold llmCalls at 2. simpl. lia.
Qed.

(** *** The history only grows *)

Lemma handoffReturn_steps steps handoffResult :
  intermediateSteps (handoffReturn steps handoffResult) = steps.
Proof. done. Qed.

(** Whatever the target agent does, a result of [executeHandoff] that
    carries a history carries one that extends the history of the source. *)
Lemma executeHandoff_prefix
    (run : RunFn (World := World)) (currentMessages : list ChatMessage)
    (originalArgs : JsValue) (handoffConfig : HandoffConfig)
    (executingAgent : ConfigurableAgentTool World) (key defaultModelName : string)
    (defaultMaxIterations : nat) (defaultTemperature : Q)
    (defaultCreateSuccessResult defaultCreateErrorResult : ResultHook)
    (llmToolArgs : option JsValue) (s s' : RunState World)
    (result : ConfigurableAgentResult) (h : list ChatMessage) :
  keepsSteps defaultCreateErrorResult →
  executeHandoff run currentMessages originalArgs handoffConfig executingAgent
    key defaultModelName defaultMaxIterations defaultTemperature
    defaultCreateSuccessResult defaultCreateErrorResult llmToolArgs s
  = (Some result, s') →
  intermediateSteps result = Some h →
  currentMessages `prefix_of` h.
Proof.
  intros Hkeep Hexec Hsteps. unfold executeHandoff in Hexec.
  destruct (getRegisteredTool (targetAgentName handoffConfig) ≫= asAgent)
    as [targetAgentTool |].
  - destruct (enhance _ s) as [prompt s1].
    destruct (run _ _ _ _ _ s1) as [[handoffResult |] s2]; [| done].
    simpl in Hexec. injection Hexec as <- <-.
    unfold finishHandoff in Hsteps.
    destruct (includeIntermediateStepsOnReturn (config targetAgentTool)) as [[] |];
      rewrite handoffReturn_steps in Hsteps; [| done ..].
    injection Hsteps as <-. by apply prefix_app_r.
  - injection Hexec as <- <-. apply Hkeep in Hsteps as ->. done.
Qed.

(** The history a result carries, if it carries one, extends [messages]. *)
Definition extends (messages : list ChatMessage)
    (result : option ConfigurableAgentResult) : Prop :=
  ∀ r h, result = Some r → intermediateSteps r = Some h → messages `prefix_of` h.

Lemma extends_prefix messages messages' result :
  messages `prefix_of` messages' → extends messages' result → extends messages result.
Proof. intros Hpre Hext r h Hr Hh. etrans; [exact Hpre | by eapply Hext]. Qed.

Section AppendOnly.
Variable run : RunFn (World := World).
Variable args : JsValue.
Variable runnerConfig : AgentRunnerConfig World.
Variable hooks : AgentRunnerHooks.
Variable executingAgent : option (ConfigurableAgentTool World).
Variable toolMap : gmap string (RegisteredTool World).
Variable toolSchemas : list ToolSchema.
Hypothesis keepsSuccess : keepsSteps (createSuccessResult hooks).
Hypothesis keepsError : keepsSteps (createErrorResult hooks).

Lemma hook_extends (hook : ResultHook) text messages messages' reason :
  keepsSteps hook → messages `prefix_of` messages' →
  extends messages (Some (hook text messages' reason)).
Proof. intros Hkeep Hpre r h [= <-] Hh. apply Hkeep in Hh as ->. done. Qed.

Lemma handoffFrom_extends messages originalArgs handoffConfig agent llmToolArgs
    (s s' : RunState World) result :
  handoffFrom run runnerConfig hooks messages originalArgs handoffConfig agent
              llmToolArgs s = (result, s') →
  extends messages result.
Proof.
  intros Hhandoff r h -> Hh. unfold handoffFrom in Hhandoff.
  by eapply executeHandoff_prefix.
Qed.

(** One iteration only appends to the history. *)
Lemma step_append_only iteration messages (s s' : RunState World) outcome :
  iterationStep run runnerConfig hooks executingAgent toolMap toolSchemas
                iteration messages s = (outcome, s') →
  match outcome with
  | Return result => extends messages result
  | NextIteration messages' => messages `prefix_of` messages'
  end.
Proof.
  intros Hstep.
  destruct (askLlm runnerConfig toolSchemas iteration messages s)
    as [response s1] eqn:Hask.
  erewrite step_of_ask in Hstep; [| exact Hask].
  destruct response as [err | openAIResponse].
  { injection Hstep as <- <-. apply hook_extends; [done | by apply prefix_app_r]. }
  unfold processAction in Hstep.
  destruct (parseOpenAIResponse openAIResponse) as [toolName' toolArgs | answer' | err].
  - destruct (toolMap !! toolName') as [toolToExecute |].
    + destruct (asHandoffTarget toolName' toolToExecute) as [targetAgentTool |].
      * destruct (findLlmHandoff executingAgent targetAgentTool) as [handoffConfig |],
          executingAgent as [agent |];
          try (injection Hstep as <- <-; apply hook_extends;
               [done | rewrite <- app_assoc; by apply prefix_app_r]).
        destruct (handoffFrom _ _ _ _ _ _ _ _ s1) as [handoffResult s2] eqn:Hhandoff.
        injection Hstep as <- <-.
        eapply extends_prefix; [| by eapply handoffFrom_extends].
        by apply prefix_app_r.
      * destruct (runTool _ _ _ s1) as [[err | message] s2];
          injection Hstep as <- <-.
        -- apply hook_extends; [done |]. rewrite <- app_assoc. by apply prefix_app_r.
        -- rewrite <- app_assoc. by apply prefix_app_r.
    + injection Hstep as <- <-. apply hook_extends; [done |].
      rewrite <- app_assoc. by apply prefix_app_r.
  - injection Hstep as <- <-. apply hook_extends; [done | by apply prefix_app_r].
  - injection Hstep as <- <-. apply hook_extends; [done | by apply prefix_app_r].
Qed.

Lemma afterLoop_extends messages (s s' : RunState World) result :
  afterLoop run args runnerConfig hooks executingAgent messages s = (result, s') →
  extends messages result.
Proof.
  unfold afterLoop. intros Hafter.
  destruct (agentHandoffs executingAgent ≫= List.find isMaxIterationsTriggered)
    as [maxIterHandoffConfig |], executingAgent as [agent |];
    try (injection Hafter as <- <-; by apply hook_extends).
  by eapply handoffFrom_extends.
Qed.

Lemma loop_append_only remaining iteration messages (s s' : RunState World) result :
  loop run args runnerConfig hooks executingAgent toolMap toolSchemas
       remaining iteration messages s = (result, s') →
  extends messages result.
Proof.
  revert iteration messages s.
  induction remaining as [| remaining IH]; intros iteration messages s Hloop.
  - by eapply afterLoop_extends.
  - destruct (iterationStep run runnerConfig hooks executingAgent toolMap toolSchemas
                iteration messages s) as [outcome s1] eqn:Hstep.
    erewrite iterate_of_step in Hloop; [| exact Hstep].
    apply step_append_only in Hstep.
    destruct outcome as [result' | messages'].
    + by injection Hloop as <- <-.
    + eapply extends_prefix; [exact Hstep | by eapply IH].
Qed.

End AppendOnly.

(** Without an executing agent there is no handoff, and [run] returns a
    result whatever [fuel] it starts from. *)
Lemma loop_returns_without_agent
    (run : RunFn (World := World)) (args : JsValue)
    (runnerConfig : AgentRunnerConfig World) (hooks : AgentRunnerHooks)
    (toolMap : gmap string (RegisteredTool World)) (toolSchemas : list ToolSchema)
    (remaining : nat) :
  ∀ iteration messages s,
    ∃ result s',
      loop run args runnerConfig hooks None toolMap toolSchemas
           remaining iteration messages s = (Some result, s').
Proof.
  induction remaining as [| remaining IH]; intros iteration messages s.
  - simpl. unfold afterLoop. simpl. eauto.
  - simpl. unfold iterationStep.
    destruct (askLlm runnerConfig toolSchemas iteration messages s)
      as [[err | openAIResponse] s1]; [eauto |].
    unfold processAction.
    destruct (parseOpenAIResponse openAIResponse) as [toolName' toolArgs | answer' | err];
      [| eauto ..].
    destruct (toolMap !! toolName') as [toolToExecute |]; [| eauto].
    destruct (asHandoffTarget toolName' toolToExecute) as [targetAgentTool |].
    + unfold findLlmHandoff. simpl. eauto.
    + destruct (runTool _ _ _ s1) as [[err | message] s2]; [eauto | apply IH].
Qed.

Lemma run_returns_without_agent
    (fuel : nat) (initialMessages : list ChatMessage) (args : JsValue)
    (runnerConfig : AgentRunnerConfig World) (hooks : AgentRunnerHooks)
    (s : RunState World) :
  ∃ result s',
    run (S fuel) initialMessages args runnerConfig hooks None s = (Some result, s').
Proof.
  simpl. unfold runBody.
  destruct (buildTools (tools runnerConfig) None) as [toolMap toolSchemas].
  apply loop_returns_without_agent.
Qed.

(** C6: without a [prepareInitialMessages] hook, and with result hooks that
    pass on the steps they are given or leave them out, the history carried
    by the result of [run] has [initialMessages] as a prefix, and every
    iteration that goes on to the next one has only appended to the
    history. *)
Theorem initial_messages_are_prefix
    (fuel : nat) (initialMessages : list ChatMessage) (args : JsValue)
    (runnerConfig : AgentRunnerConfig World) (hooks : AgentRunnerHooks)
    (executingAgent : option (ConfigurableAgentTool World))
    (s s' : RunState World) (result : ConfigurableAgentResult) :
  prepareInitialMessages hooks = None →
  keepsSteps (createSuccessResult hooks) →
  keepsSteps (createErrorResult hooks) →
  run fuel initialMessages args runnerConfig hooks executingAgent s = (Some result, s') →
  (∀ h, intermediateSteps result = Some h → initialMessages `prefix_of` h)
  ∧ (∀ self toolMap toolSchemas iteration messages messages' (st st' : RunState World),
       iterationStep self runnerConfig hooks executingAgent toolMap toolSchemas
                     iteration messages st = (NextIteration messages', st') →
       messages `prefix_of` messages').
Proof.
  intros Hprepare Hsuccess Herror Hrun. split.
  - intros h Hh. destruct fuel as [| fuel]; [done |].
    simpl in Hrun. unfold runBody in Hrun. rewrite Hprepare in Hrun.
    destruct (buildTools (tools runnerConfig) executingAgent) as [toolMap toolSchemas].
    by eapply loop_append_only.
  - intros self toolMap toolSchemas iteration messages messages' st st' Hstep.
    by apply (step_append_only self runnerConfig hooks executingAgent toolMap
                toolSchemas Hsuccess Herror _ _ _ _ _ Hstep).
Qed.

End RunnerProperties.

(** ** Properties of the graph builder *)

Section GraphProperties.
Import ConfigurableGraph.
Context {graphCollaborators : GraphCollaborators}.

Lemma addConfiguredNode_nodes openAiModel (acc : Log * StateGraph) nodeConfig :
  ∃ node,
    graphNodes (addConfiguredNode openAiModel acc nodeConfig).2
    = <[name nodeConfig := node]> (graphNodes acc.2).
Proof.
  unfold addConfiguredNode. destruct (nodeFactories (type nodeConfig)); simpl; eauto.
Qed.

Lemma addConfiguredNodes_keep openAiModel (nodeConfigs : list GraphNodeConfig) :
  ∀ (acc : Log * StateGraph) (k : string),
    is_Some (graphNodes acc.2 !! k) ∨ (∃ n, n ∈ nodeConfigs ∧ name n = k) →
    is_Some (graphNodes (foldl (addConfiguredNode openAiModel) acc nodeConfigs).2 !! k).
Proof.
  induction nodeConfigs as [| nodeConfig nodeConfigs IH]; intros acc k Hk; simpl.
  - destruct Hk as [Hk | (n & Hn & _)]; [done | by apply elem_of_nil in Hn].
  - apply IH.
    destruct (addConfiguredNode_nodes openAiModel acc nodeConfig) as [node Hnodes].
    destruct (decide (name nodeConfig = k)) as [<- | Hne].
    + left. rewrite Hnodes, lookup_insert_eq. by eexists.
    + destruct Hk as [Hk | (n & Hn & Hname)].
      * left. by rewrite Hnodes, lookup_insert_ne.
      * apply elem_of_cons in Hn as [-> | Hn]; [done | right; eauto].
Qed.

Lemma addConfiguredEdges_nodes (edgeConfigs : list GraphEdgeConfig) :
  ∀ acc : Log * StateGraph,
    graphNodes (foldl addConfiguredEdge acc edgeConfigs).2 = graphNodes acc.2.
Proof.
  induction edgeConfigs as [| edgeConfig edgeConfigs IH]; intros acc; simpl; [done |].
  rewrite IH. unfold addConfiguredEdge.
  by destruct (conditionFactories (conditionType edgeConfig)).
Qed.

(** Every declared node is a node of the graph that the builder compiles. *)
Lemma populate_nodes (config : GraphConfig) openAiModel (n : GraphNodeConfig) :
  n ∈ nodes config →
  is_Some (graphNodes (populate config openAiModel).2 !! name n).
Proof.
  intros Hn. unfold populate. rewrite addConfiguredEdges_nodes.
  apply addConfiguredNodes_keep. right. eauto.
Qed.

Lemma find_name_None (config : GraphConfig) :
  (∀ n, n ∈ nodes config → name n ≠ entryPoint config) →
  List.find (fun n => String.eqb (name n) (entryPoint config)) (nodes config) = None.
Proof.
  intros Hno. destruct (List.find _ _) as [n |] eqn:Hfind; [| done].
  apply find_some in Hfind as [Hin Heq].
  apply String.eqb_eq in Heq. apply list_elem_of_In in Hin. by apply Hno in Hin.
Qed.

(** C9, for node and condition types that are not names inherited from
    [Object.prototype]: when the declared entry point names no declared node,
    a graph with at least one node is compiled with its first declared node
    as entry point, and the console has the warning
    [Setting entry point to fallback: <name>]; a graph without nodes is not
    compiled: the builder throws
    [No nodes defined in graph config, cannot set entry point.] *)
Theorem entry_point_fallback (config : GraphConfig) (openAiModel : ChatOpenAI) :
  ownNodeTypes config →
  ownConditionTypes config →
  (∀ n, n ∈ nodes config → name n ≠ entryPoint config) →
  match nodes config with
  | first :: _ =>
      ∃ log,
        createAgentGraphFromConfig config openAiModel
        = (log, inr {| compiledEntry := name first;
                       compiledGraph :=
                         setEntryPoint (name first) (populate config openAiModel).2 |})
        ∧ (LogWarn,
           "[ConfigurableGraph] Setting entry point to fallback: " +:+ name first) ∈ log
  | [] =>
      ∃ log,
        createAgentGraphFromConfig config openAiModel
        = (log,
           inl (newError
                  "[ConfigurableGraph] No nodes defined in graph config, cannot set entry point."))
  end.
Proof.
  intros _ _ Hno. unfold createAgentGraphFromConfig.
  rewrite (find_name_None config Hno).
  pose proof (populate_nodes config openAiModel) as Hnodes.
  destruct (populate config openAiModel) as [log graph]. simpl in Hnodes.
  destruct (nodes config) as [| first rest]; [eauto |].
  eexists. split; [| apply elem_of_app; right; apply list_elem_of_singleton; done].
  f_equal. unfold compile. simpl.
  assert (is_Some (graphNodes graph !! name first)) as Hfirst
    by (apply Hnodes; left).
  rewrite bool_decide_eq_false_2, bool_decide_eq_true_2; [done | done |].
  intros Hempty. rewrite Hempty, lookup_empty in Hfirst. by destruct Hfirst.
Qed.

(** C10 (as amended): on a state that routes to the tool executor, the
    condition returns the terminal key and leaves the graph as it is when
    the target map has no entry for the tool executor key, or maps it to the
    empty string or to the terminal key, and the run of the graph halts;
    otherwise it stores a new tool executor node under the mapped name,
    replacing any node of that name, and returns the tool executor key. *)
Theorem tool_executor_routing
    (state : AgentState) (graph : StateGraph) (edgeConfig : GraphEdgeConfig) :
  routeNextNode state = NodeType_TOOL_EXECUTOR →
  ((targetMap edgeConfig !! NodeType_TOOL_EXECUTOR = None
    ∨ targetMap edgeConfig !! NodeType_TOOL_EXECUTOR = Some ""
    ∨ targetMap edgeConfig !! NodeType_TOOL_EXECUTOR = Some "__end__") →
   routeOrPrepareToolExecutor state graph edgeConfig = ("__end__", graph)
   ∧ ∀ edge, condition edge = edgeConfig →
             conditionType edgeConfig = "routeOrPrepareToolExecutor" →
             followEdge edge state graph = (Halt, graph))
  ∧ (∀ toolExecutorNodeName,
       targetMap edgeConfig !! NodeType_TOOL_EXECUTOR = Some toolExecutorNodeName →
       toolExecutorNodeName ≠ "" → toolExecutorNodeName ≠ "__end__" →
       routeOrPrepareToolExecutor state graph edgeConfig
       = (NodeType_TOOL_EXECUTOR,
          addNode toolExecutorNodeName (createToolExecutorNode state) graph)
       ∧ graphNodes (routeOrPrepareToolExecutor state graph edgeConfig).2
           !! toolExecutorNodeName
         = Some (createToolExecutorNode state)).
Proof.
  intros Hroute. split.
  - intros Hmap.
    assert (routeOrPrepareToolExecutor state graph edgeConfig = ("__end__", graph))
      as Hend.
    { unfold routeOrPrepareToolExecutor. rewrite Hroute, String.eqb_refl.
      destruct Hmap as [-> | [-> | ->]]; done. }
    split; [exact Hend |].
    intros edge Hcondition Htype. unfold followEdge, conditionFn, conditionFactories.
    rewrite Hcondition, Htype. simpl. by rewrite Hend.
  - intros toolExecutorNodeName Hmap Hne Hnend.
    assert (routeOrPrepareToolExecutor state graph edgeConfig
            = (NodeType_TOOL_EXECUTOR,
               addNode toolExecutorNodeName (createToolExecutorNode state) graph))
      as Hgo.
    { unfold routeOrPrepareToolExecutor. rewrite Hroute, String.eqb_refl, Hmap.
      destruct (String.eqb_spec toolExecutorNodeName ""),
        (String.eqb_spec toolExecutorNodeName "__end__"); done. }
    split; [exact Hgo |]. rewrite Hgo. simpl. apply lookup_insert_eq.
Qed.

End GraphProperties.

(** ** More properties of the runner *)

Section RunnerExtras.
Context {World : Type} {collaborators : Collaborators World}.

Lemma faultText_newError_cases (msg : string) :
  faultText (newError msg) = if String.eqb msg "" then "Error" else msg.
Proof.
  unfold faultText, newError, strOr. simpl. by destruct (String.eqb msg "").
Qed.

Lemma toolExecutions_app (tr1 tr2 : list Event) :
  toolExecutions (tr1 ++ tr2) = toolExecutions tr1 + toolExecutions tr2.
Proof. unfold toolExecutions. by rewrite filter_app, length_app. Qed.

Section Paths.
Variable self : RunFn (World := World).
Variable args : JsValue.
Variable runnerConfig : AgentRunnerConfig World.
Variable hooks : AgentRunnerHooks.
Variable executingAgent : option (ConfigurableAgentTool World).
Variable toolMap : gmap string (RegisteredTool World).
Variable toolSchemas : list ToolSchema.

Abbreviation step :=
  (iterationStep self runnerConfig hooks executingAgent toolMap toolSchemas).
Abbreviation iterate :=
  (loop self args runnerConfig hooks executingAgent toolMap toolSchemas).
Abbreviation ask := (askLlm runnerConfig toolSchemas).

(** X1: when the response of the LLM parses to a final answer, [run] appends
    one model message with [action = final] and [isFinalAnswer = true] that
    carries the answer and the reasoning summary of the response, and returns
    the result of the success hook with reason [final_answer], whatever
    iterations remain; the iteration has made one LLM call and executed no
    tool. *)
Theorem final_answer_ends_run
    (iteration : nat) (messages : list ChatMessage)
    (s s1 : RunState World) (openAIResponse : OpenAIResponse) (answer' : string) :
  ask iteration messages s = (inr openAIResponse, s1) →
  parseOpenAIResponse openAIResponse = final_answer_action answer' →
  (∀ remaining,
     iterate (S remaining) iteration messages s
     = (Some (createSuccessResult hooks answer'
                (messages ++ [ModelMsg {| action := ActionFinal;
                                          modelToolName := None;
                                          modelToolArgs := None;
                                          answer := Some answer';
                                          isFinalAnswer := true;
                                          reasoning := reasoningSummary openAIResponse |}])
                final_answer), s1))
  ∧ trace s1 = trace s ++ [EvLlmCall (modelName runnerConfig) (format messages)].
Proof.
  intros Hask Hparse. split; [| by eapply askLlm_trace].
  assert (step iteration messages s
          = (Return (Some (createSuccessResult hooks answer'
                             (messages ++ [finalAnswerMessage answer' openAIResponse])
                             final_answer)), s1)) as Hstep.
  { erewrite step_of_ask; [| exact Hask]. cbv beta iota. by rewrite Hparse. }
  intros remaining. by erewrite iterate_of_step; [| exact Hstep].
Qed.

(** X2: when the response of the LLM parses to an error, [run] appends no
    model message and one tool-result message, named [system_error] and
    flagged as an error, that carries [Agent loop error: <error>], and
    returns the result of the error hook with that text and reason [error];
    the text is the error of the parser, or [Error] when that error is the
    empty string. *)
Theorem protocol_error_is_fatal
    (iteration : nat) (messages : list ChatMessage)
    (s s1 : RunState World) (openAIResponse : OpenAIResponse) (err : string) :
  ask iteration messages s = (inr openAIResponse, s1) →
  parseOpenAIResponse openAIResponse = error_action err →
  let errorMsg := "Agent loop error: " +:+ (if String.eqb err "" then "Error" else err) in
  ∀ remaining,
    iterate (S remaining) iteration messages s
    = (Some (createErrorResult hooks errorMsg
               (messages ++ [ToolResultMsg {| toolName := "system_error";
                                              resultText := JsString errorMsg;
                                              isError := true;
                                              error := Some (JsString errorMsg);
                                              resultData := None |}])
               error_reason), s1).
Proof.
  intros Hask Hparse errorMsg remaining.
  assert (step iteration messages s
          = (Return (Some (createErrorResult hooks errorMsg
                             (messages ++ [systemErrorMessage errorMsg]) error_reason)),
             s1)) as Hstep.
  { erewrite step_of_ask; [| exact Hask]. cbv beta iota. rewrite Hparse. simpl.
    subst errorMsg. by rewrite faultText_newError_cases. }
  by erewrite iterate_of_step; [| exact Hstep].
Qed.

End Paths.

(** *** The tool map and the tool schemas *)

Lemma handoffToolName_inj (x y : string) :
  handoffToolName x = handoffToolName y → x = y.
Proof. unfold handoffToolName. simpl. by intros [=]. Qed.

Lemma baseToolMap_keys (tools : list (RegisteredTool World)) :
  ∀ (m : gmap string (RegisteredTool World)) (n : string),
    is_Some (foldl (fun m tool => <[name (asTool tool) := tool]> m) m tools !! n)
    ↔ is_Some (m !! n) ∨ ∃ tool, tool ∈ tools ∧ name (asTool tool) = n.
Proof.
  induction tools as [| tool tools IH]; intros m n; simpl.
  - split; [by left | intros [Hm | (tool & Hin & _)]; [done | by apply elem_of_nil in Hin]].
  - rewrite IH. split.
    + intros [Hm | (tool' & Hin & Hname)].
      * destruct (decide (name (asTool tool) = n)) as [Heq | Hne].
        -- right. exists tool. split; [left | done].
        -- left. by rewrite lookup_insert_ne in Hm.
      * right. exists tool'. split; [by right | done].
    + intros [Hm | (tool' & Hin & Hname)].
      * left. destruct (decide (name (asTool tool) = n)) as [<- | Hne].
        -- rewrite lookup_insert_eq. by eexists.
        -- by rewrite lookup_insert_ne.
      * apply elem_of_cons in Hin as [-> | Hin].
        -- left. rewrite <- Hname, lookup_insert_eq. by eexists.
        -- right. by exists tool'.
Qed.

Lemma addHandoffTool_cases (acc : gmap string (RegisteredTool World) * list ToolSchema)
    (handoffConfig : HandoffConfig) :
  (offered handoffConfig
   ∧ ∃ t c, ToolRegistry !! targetAgentName handoffConfig = Some (AgentTool t c)
            ∧ addHandoffTool acc handoffConfig
              = (<[handoffToolName (targetAgentName handoffConfig) := AgentTool t c]> acc.1,
                 acc.2 ++ [handoffSchema (targetAgentName handoffConfig) t]))
  ∨ (¬ offered handoffConfig ∧ addHandoffTool acc handoffConfig = acc).
Proof.
  unfold addHandoffTool, offered, getRegisteredTool.
  destruct (isLlmTriggered handoffConfig).
  - destruct (ToolRegistry !! targetAgentName handoffConfig) as [[t | t c] |] eqn:Hreg.
    + right. split; [intros (_ & t' & c' & [=]) | done].
    + left. split; [split; [done | by eexists _, _] |]. by eexists _, _.
    + right. split; [intros (_ & t' & c' & [=]) | done].
  - right. split; [intros ([=] & _) | done].
Qed.

Lemma addHandoffTools_keys (handoffConfigs : list HandoffConfig) :
  ∀ (acc : gmap string (RegisteredTool World) * list ToolSchema) (n : string),
    is_Some ((foldl addHandoffTool acc handoffConfigs).1 !! n)
    ↔ is_Some (acc.1 !! n)
      ∨ ∃ h, h ∈ handoffConfigs ∧ offered h ∧ n = handoffToolName (targetAgentName h).
Proof.
  induction handoffConfigs as [| h0 hs IH]; intros acc n; simpl.
  - split; [by left | intros [Hm | (h & Hin & _)]; [done | by apply elem_of_nil in Hin]].
  - rewrite IH.
    destruct (addHandoffTool_cases acc h0) as [(Hoff & t & c & _ & ->) | (Hnot & ->)];
      simpl.
    + split.
      * intros [Hm | (h & Hin & Hh & Hn)].
        -- destruct (decide (handoffToolName (targetAgentName h0) = n)) as [<- | Hne].
           ++ right. exists h0. split; [left | done].
           ++ left. by rewrite lookup_insert_ne in Hm.
        -- right. exists h. split; [by right | done].
      * intros [Hm | (h & Hin & Hh & Hn)].
        -- left. destruct (decide (handoffToolName (targetAgentName h0) = n)) as [<- | Hne].
           ++ rewrite lookup_insert_eq. by eexists.
           ++ by rewrite lookup_insert_ne.
        -- apply elem_of_cons in Hin as [-> | Hin].
           ++ left. rewrite Hn, lookup_insert_eq. by eexists.
           ++ right. by exists h.
    + split.
      * intros [Hm | (h & Hin & Hh & Hn)]; [by left |].
        right. exists h. split; [by right | done].
      * intros [Hm | (h & Hin & Hh & Hn)]; [by left |].
        apply elem_of_cons in Hin as [-> | Hin]; [done |].
        right. by exists h.
Qed.

Lemma addHandoffTools_schemas (handoffConfigs : list HandoffConfig) :
  ∀ (acc : gmap string (RegisteredTool World) * list ToolSchema) (n : string),
    (∃ toolSchema, toolSchema ∈ (foldl addHandoffTool acc handoffConfigs).2
                   ∧ schemaName toolSchema = n)
    ↔ (∃ toolSchema, toolSchema ∈ acc.2 ∧ schemaName toolSchema = n)
      ∨ ∃ h, h ∈ handoffConfigs ∧ offered h ∧ n = handoffToolName (targetAgentName h).
Proof.
  induction handoffConfigs as [| h0 hs IH]; intros acc n; simpl.
  - split; [by left | intros [Hm | (h & Hin & _)]; [done | by apply elem_of_nil in Hin]].
  - rewrite IH.
    destruct (addHandoffTool_cases acc h0) as [(Hoff & t & c & _ & ->) | (Hnot & ->)];
      simpl.
    + split.
      * intros [(toolSchema & Hin & Hname) | (h & Hin & Hh & Hn)].
        -- apply elem_of_app in Hin as [Hin | Hin].
           ++ left. by exists toolSchema.
           ++ apply list_elem_of_singleton in Hin as ->. simpl in Hname.
              right. exists h0. split; [left | done].
        -- right. exists h. split; [by right | done].
      * intros [(toolSchema & Hin & Hname) | (h & Hin & Hh & Hn)].
        -- left. exists toolSchema. split; [| done]. apply elem_of_app. by left.
        -- apply elem_of_cons in Hin as [-> | Hin].
           ++ left. eexists. split; [apply elem_of_app; right; by apply list_elem_of_singleton |].
              by rewrite Hn.
           ++ right. by exists h.
    + split.
      * intros [Hm | (h & Hin & Hh & Hn)]; [by left |].
        right. exists h. split; [by right | done].
      * intros [Hm | (h & Hin & Hh & Hn)]; [by left |].
        apply elem_of_cons in Hin as [-> | Hin]; [done |].
        right. by exists h.
Qed.

Lemma schemaOf_names (tools : list (RegisteredTool World)) (n : string) :
  (∃ toolSchema, toolSchema ∈ map schemaOf tools ∧ schemaName toolSchema = n)
  ↔ ∃ tool, tool ∈ tools ∧ name (asTool tool) = n.
Proof.
  split.
  - intros (toolSchema & Hin & Hname). apply list_elem_of_In, in_map_iff in Hin.
    destruct Hin as (tool & <- & Hin). exists tool. by rewrite list_elem_of_In.
  - intros (tool & Hin & Hname). exists (schemaOf tool). split; [| done].
    apply list_elem_of_In, in_map. by apply list_elem_of_In.
Qed.

Lemma buildTools_keys
    (tools : list (RegisteredTool World))
    (executingAgent : option (ConfigurableAgentTool World)) (n : string) :
  is_Some ((buildTools tools executingAgent).1 !! n)
  ↔ (∃ tool, tool ∈ tools ∧ name (asTool tool) = n)
    ∨ ∃ h, h ∈ default [] (agentHandoffs executingAgent)
           ∧ offered h ∧ n = handoffToolName (targetAgentName h).
Proof.
  unfold buildTools. rewrite addHandoffTools_keys. simpl. unfold baseToolMap.
  rewrite baseToolMap_keys, lookup_empty. split.
  - intros [[Hnone | Htool] | Hh]; [by destruct Hnone | by left | by right].
  - intros [Htool | Hh]; [left; by right | by right].
Qed.

(** X3: the names under which the tool map of [run] holds a tool are the
    names of the configured tools and [handoff_to_<target>] for every handoff
    of the executing agent that is triggered by a tool call and whose target
    is an agent of the registry; a handoff triggered by [max_iterations]
    adds no name. *)
Theorem tool_map_keys
    (tools : list (RegisteredTool World))
    (executingAgent : option (ConfigurableAgentTool World)) (n : string) :
  is_Some ((buildTools tools executingAgent).1 !! n)
  ↔ (∃ tool, tool ∈ tools ∧ name (asTool tool) = n)
    ∨ ∃ h, h ∈ default [] (agentHandoffs executingAgent)
           ∧ offered h ∧ n = handoffToolName (targetAgentName h).
Proof. apply buildTools_keys. Qed.

(** X4: the tool schemas sent to the LLM and the tool map agree: a name is
    the name of a schema exactly when the tool map holds a tool under it. *)
Theorem tool_schemas_match_tool_map
    (tools : list (RegisteredTool World))
    (executingAgent : option (ConfigurableAgentTool World)) (n : string) :
  (∃ toolSchema, toolSchema ∈ (buildTools tools executingAgent).2
                 ∧ schemaName toolSchema = n)
  ↔ is_Some ((buildTools tools executingAgent).1 !! n).
Proof.
  rewrite buildTools_keys. unfold buildTools. rewrite addHandoffTools_schemas. simpl.
  by rewrite schemaOf_names.
Qed.

(** *** Handoffs taken from the loop *)

Lemma addHandoffTools_lookup (h : HandoffConfig) (t : Tool World) (c : AgentToolConfig)
    (handoffConfigs : list HandoffConfig) :
  isLlmTriggered h = true →
  ToolRegistry !! targetAgentName h = Some (AgentTool t c) →
  ∀ acc : gmap string (RegisteredTool World) * list ToolSchema,
    acc.1 !! handoffToolName (targetAgentName h) = Some (AgentTool t c)
    ∨ h ∈ handoffConfigs →
    (foldl addHandoffTool acc handoffConfigs).1 !! handoffToolName (targetAgentName h)
    = Some (AgentTool t c).
Proof.
  intros Hllm Hreg.
  induction handoffConfigs as [| h0 hs IH]; intros acc Hacc; simpl.
  - destruct Hacc as [Hacc | Hin]; [done | by apply elem_of_nil in Hin].
  - apply IH.
    destruct (decide (targetAgentName h0 = targetAgentName h)) as [Heq | Hne].
    + destruct (addHandoffTool_cases acc h0)
        as [(Hoff & t0 & c0 & Hreg0 & ->) | (Hnot & ->)]; simpl.
      * left. rewrite Heq, lookup_insert_eq. rewrite Heq, Hreg in Hreg0. done.
      * destruct Hacc as [Hacc | Hin]; [by left |].
        apply elem_of_cons in Hin as [-> | Hin]; [| by right].
        exfalso. apply Hnot. split; [done | by eexists _, _].
    + destruct Hacc as [Hacc | Hin].
      * left.
        destruct (addHandoffTool_cases acc h0)
          as [(Hoff & t0 & c0 & Hreg0 & ->) | (Hnot & ->)]; simpl; [| done].
        rewrite lookup_insert_ne; [done |].
        intros Hkey. by apply handoffToolName_inj in Hkey.
      * apply elem_of_cons in Hin as [-> | Hin]; [done | by right].
Qed.

Lemma asHandoffTarget_handoffToolName (x : string) (tool : RegisteredTool World) :
  asHandoffTarget (handoffToolName x) tool = asAgent tool.
Proof. by destruct x. Qed.

Lemma find_is_Some {A} (f : A → bool) (l : list A) (x : A) :
  x ∈ l → f x = true → ∃ y, List.find f l = Some y ∧ y ∈ l ∧ f y = true.
Proof.
  intros Hin Hx. destruct (List.find f l) as [y |] eqn:Hfind.
  - exists y. apply find_some in Hfind as [Hy Hfy].
    by rewrite list_elem_of_In.
  - apply list_elem_of_In in Hin. pose proof (find_none f l Hfind x Hin). congruence.
Qed.

Section Handoffs.
Variable self : RunFn (World := World).
Variable args : JsValue.
Variable runnerConfig : AgentRunnerConfig World.
Variable hooks : AgentRunnerHooks.
Variable agent : ConfigurableAgentTool World.
Variable handoffConfigs : list HandoffConfig.
Hypothesis agentHandoffConfigs : handoffs (config agent) = Some handoffConfigs.

Abbreviation toolMap := (buildTools (tools runnerConfig) (Some agent)).1.
Abbreviation toolSchemas := (buildTools (tools runnerConfig) (Some agent)).2.

(** X5: when the LLM calls the pseudo-tool of a handoff whose target is
    registered under the name the target agent has, the run ends there with
    the result of [executeHandoff] for a handoff configuration of that
    target, on the history with the tool-call message appended and with the
    arguments of the LLM as arguments of the target. *)
Theorem handoff_tool_hands_off
    (h : HandoffConfig) (t : Tool World) (c : AgentToolConfig)
    (iteration : nat) (messages : list ChatMessage) (s s1 : RunState World)
    (openAIResponse : OpenAIResponse) (toolArgs : JsValue) :
  h ∈ handoffConfigs →
  isLlmTriggered h = true →
  ToolRegistry !! targetAgentName h = Some (AgentTool t c) →
  name t = targetAgentName h →
  askLlm runnerConfig toolSchemas iteration messages s = (inr openAIResponse, s1) →
  parseOpenAIResponse openAIResponse
  = tool_call (handoffToolName (targetAgentName h)) toolArgs →
  ∃ h', h' ∈ handoffConfigs
        ∧ targetAgentName h' = targetAgentName h
        ∧ isLlmTriggered h' = true
        ∧ ∀ remaining,
            loop self args runnerConfig hooks (Some agent) toolMap toolSchemas
                 (S remaining) iteration messages s
            = handoffFrom self runnerConfig hooks
                (messages ++ [toolCallMessage (handoffToolName (targetAgentName h))
                                              toolArgs openAIResponse])
                toolArgs h' agent (Some toolArgs) s1.
Proof.
  intros Hin Hllm Hreg Hname Hask Hparse.
  destruct (find_is_Some
              (fun h' => String.eqb (targetAgentName h') (name t) && isLlmTriggered h')
              handoffConfigs h Hin) as (h' & Hfind & Hin' & Hh').
  { rewrite Hname, String.eqb_refl. done. }
  apply andb_true_iff in Hh' as [Htarget Hllm']. apply String.eqb_eq in Htarget.
  exists h'. split; [done |]. split; [congruence |]. split; [done |].
  intros remaining.
  assert (toolMap !! handoffToolName (targetAgentName h) = Some (AgentTool t c)) as Hmap.
  { unfold buildTools. apply addHandoffTools_lookup; [done | done |].
    right. simpl. by rewrite agentHandoffConfigs. }
  destruct (handoffFrom self runnerConfig hooks
              (messages ++ [toolCallMessage (handoffToolName (targetAgentName h))
                                            toolArgs openAIResponse])
              toolArgs h' agent (Some toolArgs) s1) as [handoffResult s2] eqn:Hhandoff.
  assert (iterationStep self runnerConfig hooks (Some agent) toolMap toolSchemas
            iteration messages s = (Return handoffResult, s2)) as Hstep.
  { erewrite step_of_ask; [| exact Hask]. cbv beta iota. rewrite Hparse.
    unfold processAction. rewrite Hmap, asHandoffTarget_handoffToolName.
    unfold findLlmHandoff, agentHandoffs. simpl.
    rewrite agentHandoffConfigs. simpl. rewrite Hfind, Hhandoff. done. }
  by erewrite iterate_of_step; [| exact Hstep].
Qed.


(** X7: with a handoff triggered by [max_iterations] configured, a run all
    of whose iterations call a regular tool that does not reject with
    [undefined] or [null] spends its [maxIterations] LLM calls, appending two
    messages in each iteration, and then returns the result of
    [executeHandoff] for the first such handoff, with the arguments that
    [run] was called with. *)
Theorem max_iterations_hands_off
    (fuel : nat) (initialMessages : list ChatMessage) (s : RunState World)
    (h : HandoffConfig) :
  List.find isMaxIterationsTriggered handoffConfigs = Some h →
  onlyCallsRegularTools initialMessages runnerConfig hooks (Some agent) s →
  ∃ messages' s',
    run (S fuel) initialMessages args runnerConfig hooks (Some agent) s
    = handoffFrom (run fuel) runnerConfig hooks messages' args h agent None s'
    ∧ length messages'
      = length (match prepareInitialMessages hooks with
                | Some prepare => prepare initialMessages
                | None => initialMessages
                end) + 2 * maxIterations runnerConfig
    ∧ llmCalls (trace s') = llmCalls (trace s) + maxIterations runnerConfig.
Proof.
  intros Hfind Hcalls. change (run (S fuel)) with (runBody (run fuel)).
  unfold runBody. unfold onlyCallsRegularTools in Hcalls.
  destruct (buildTools (tools runnerConfig) (Some agent)) as [toolMap' toolSchemas'].
  cbn [fst snd] in Hcalls.
  destruct (loop_of_tool_calls (run fuel) args runnerConfig hooks (Some agent)
              toolMap' toolSchemas' _ _ _ _ Hcalls)
    as (appended & s' & Hloop & Hlen & Hllm).
  eexists _, s'. rewrite Hloop. split_and!.
  - unfold afterLoop, agentHandoffs. simpl. rewrite agentHandoffConfigs. simpl.
    by rewrite Hfind.
  - rewrite length_app. lia.
  - rewrite Hllm. cbn [trace]. rewrite llmCalls_app. unfold llmCalls at 2. simpl. lia.
Qed.

End Handoffs.

(** X8: what [executeHandoff] returns on a target that is resolved is the
    result of the run of the target agent with two fields settled: the
    termination reason is the one of the target, or [handed_off] when the
    target gave none, and the intermediate steps are left out unless the
    target agent sets [includeIntermediateStepsOnReturn], in which case they
    are the history of the source followed by the steps of the target. *)
Theorem handoff_result_shape
    (run : RunFn (World := World)) (currentMessages : list ChatMessage)
    (originalArgs : JsValue) (handoffConfig : HandoffConfig)
    (executingAgent : ConfigurableAgentTool World) (key defaultModelName : string)
    (defaultMaxIterations : nat) (defaultTemperature : Q)
    (defaultCreateSuccessResult defaultCreateErrorResult : ResultHook)
    (llmToolArgs : option JsValue) (s s' : RunState World)
    (t : Tool World) (c : AgentToolConfig) (result : ConfigurableAgentResult) :
  ToolRegistry !! targetAgentName handoffConfig = Some (AgentTool t c) →
  executeHandoff run currentMessages originalArgs handoffConfig executingAgent
    key defaultModelName defaultMaxIterations defaultTemperature
    defaultCreateSuccessResult defaultCreateErrorResult llmToolArgs s
  = (Some result, s') →
  ∃ targetResult targetRunnerConfig targetRunnerHooks s1,
    run (handoffMessages handoffConfig currentMessages)
        (default originalArgs llmToolArgs) targetRunnerConfig targetRunnerHooks
        (Some {| agentTool := t; config := c |}) s1
    = (Some targetResult, s')
    ∧ success result = success targetResult
    ∧ output result = output targetResult
    ∧ resultError result = resultError targetResult
    ∧ terminationReason result
      = Some (match terminationReason targetResult with
              | Some reason => reason
              | None => handed_off
              end)
    ∧ intermediateSteps result
      = match includeIntermediateStepsOnReturn c with
        | Some true =>
            Some (currentMessages
                  ++ match intermediateSteps targetResult with
                     | Some targetSteps => targetSteps
                     | None => []
                     end)
        | _ => None
        end.
Proof.
  intros Hreg Hexec. unfold executeHandoff, getRegisteredTool in Hexec.
  rewrite Hreg in Hexec. simpl in Hexec.
  destruct (enhance (agentSystemPrompt c) s) as [prompt s1].
  match type of Hexec with
  | context [run ?m ?a ?cfg ?hk ?e ?st] =>
      destruct (run m a cfg hk e st) as [[handoffResult |] s2] eqn:Hrun; [| done];
      exists handoffResult, cfg, hk, st
  end.
  simpl in Hexec. injection Hexec as <- <-. unfold finishHandoff.
  split; [exact Hrun |].
  destruct (includeIntermediateStepsOnReturn c) as [[] |]; simpl;
    split_and!; try reflexivity;
    first [by destruct (terminationReason handoffResult)
          | by destruct (intermediateSteps handoffResult)].
Qed.


(** *** The history handed off *)

Lemma handoffMessages_length_filtered (allow : list string) (messages : list ChatMessage) :
  length (match List.find isUser messages with
          | Some firstUserMessage => [firstUserMessage]
          | None => []
          end ++ List.filter (isCollected allow) messages)
  ≤ length messages.
Proof.
  rewrite length_app.
  induction messages as [| m messages IH]; simpl; [lia |].
  destruct (isUser m) eqn:Huser.
  - assert (isCollected allow m = false) as ->.
    { destruct m; try done. }
    simpl.
    assert (length (List.filter (isCollected allow) messages) ≤ length messages); [| lia].
    clear. induction messages as [| m' ms IH]; simpl; [lia |].
    destruct (isCollected allow m'); simpl; lia.
  - destruct (isCollected allow m); simpl in *; lia.
Qed.

(** X9: every message handed to the target agent is a message of the source
    history, there are no more of them than in the source history, and under
    an allow-list each one is a user message or a tool result that is not an
    error. *)
Theorem handoff_history_comes_from_source
    (handoffConfig : HandoffConfig) (currentMessages : list ChatMessage) :
  Forall (fun m =>
            m ∈ currentMessages
            ∧ (hasIncludeFilter handoffConfig = true →
               isUser m = true
               ∨ ∃ toolResult, m = ToolResultMsg toolResult ∧ isError toolResult = false))
         (handoffMessages handoffConfig currentMessages)
  ∧ length (handoffMessages handoffConfig currentMessages) ≤ length currentMessages.
Proof.
  unfold handoffMessages, collectedToolResultMessages.
  destruct (hasIncludeFilter handoffConfig) eqn:Hfilter.
  - split; [| apply handoffMessages_length_filtered].
    apply Forall_app. split.
    + destruct (List.find isUser currentMessages) as [u |] eqn:Hfind; [| constructor].
      apply find_some in Hfind as [Hin Hu]. constructor; [| constructor].
      split; [by apply list_elem_of_In | by left].
    + apply Forall_forall. intros m Hm.
      apply list_elem_of_In, filter_In in Hm as [Hin Hc].
      split; [by apply list_elem_of_In |]. intros _. right.
      destruct m as [u | mm | t]; try done. exists t. split; [done |].
      simpl in Hc. apply andb_true_iff in Hc as [Hc _].
      apply andb_true_iff in Hc as [Hc _]. by apply negb_true_iff in Hc.
  - split; [| done]. apply Forall_forall. intros m Hm. split; [done | done].
Qed.

(** *** Runs without handoffs *)

Section NoHandoffs.
Variable self : RunFn (World := World).
Variable args : JsValue.
Variable runnerConfig : AgentRunnerConfig World.
Variable hooks : AgentRunnerHooks.
Variable executingAgent : option (ConfigurableAgentTool World).
Variable toolMap : gmap string (RegisteredTool World).
Variable toolSchemas : list ToolSchema.
Hypothesis none : noHandoffs executingAgent.

Lemma findLlmHandoff_none (targetAgentTool : ConfigurableAgentTool World) :
  findLlmHandoff executingAgent targetAgentTool = None.
Proof.
  unfold findLlmHandoff. unfold noHandoffs in none.
  destruct (agentHandoffs executingAgent) as [hs |]; [| done].
  simpl in none. by subst hs.
Qed.

Lemma findMaxIterations_none :
  agentHandoffs executingAgent ≫= List.find isMaxIterationsTriggered = None.
Proof.
  unfold noHandoffs in none.
  destruct (agentHandoffs executingAgent) as [hs |]; [| done].
  simpl in none. by subst hs.
Qed.

Lemma runTool_message (toolName' : string) (tool : Tool World) (toolArgs : JsValue)
    (s s' : RunState World) (message : ChatMessage) :
  runTool toolName' tool toolArgs s = (inr message, s') →
  isUser message = false.
Proof.
  unfold runTool, settleTool. intros Hrun.
  destruct (executeTool tool toolArgs s) as [outcome s2].
  injection Hrun as Hsettled _.
  destruct outcome as [toolResultData | err | isNull]; [| by injection Hsettled as <- | done].
  by destruct (interpretToolResult toolResultData) as [err | [toolResultText toolIsError]];
    injection Hsettled as <-.
Qed.

(** One iteration of a run without handoffs: one LLM call, at most one tool
    execution, at most two messages appended, none of them a user message. *)
Lemma step_without_handoffs iteration messages (s s' : RunState World) outcome :
  iterationStep self runnerConfig hooks executingAgent toolMap toolSchemas
                iteration messages s = (outcome, s') →
  ∃ appended events,
    trace s' = trace s ++ events
    ∧ llmCalls events = 1
    ∧ toolExecutions events ≤ 1
    ∧ Forall (fun m => isUser m = false) appended
    ∧ length appended ≤ 2
    ∧ match outcome with
      | Return result => endsRun hooks (messages ++ appended) result
      | NextIteration messages' => messages' = messages ++ appended
      end.
Proof.
  intros Hstep.
  destruct (askLlm runnerConfig toolSchemas iteration messages s)
    as [response s1] eqn:Hask.
  erewrite step_of_ask in Hstep; [| exact Hask].
  apply askLlm_trace in Hask.
  destruct response as [err | openAIResponse].
  { injection Hstep as <- <-. eexists _, [_]. split; [exact Hask |].
    split_and!; revgoals;
      [eexists; right; left; done | simpl; lia | repeat constructor
      | unfold toolExecutions; simpl; lia | done]. }
  unfold processAction in Hstep.
  destruct (parseOpenAIResponse openAIResponse) as [toolName' toolArgs | answer' | err].
  - destruct (toolMap !! toolName') as [toolToExecute |].
    + destruct (asHandoffTarget toolName' toolToExecute) as [targetAgentTool |].
      * rewrite findLlmHandoff_none in Hstep. injection Hstep as <- <-.
        eexists _, [_]. split; [exact Hask |].
        split_and!; revgoals;
          [eexists; right; left; by rewrite <- app_assoc | simpl; lia
          | repeat constructor | unfold toolExecutions; simpl; lia | done].
      * destruct (runTool _ _ _ s1) as [[err | message] s2] eqn:Hrun;
          pose proof (runTool_trace _ _ _ _ _ _ Hrun) as Htrace;
          injection Hstep as <- <-.
        -- eexists _, [_; _]. split; [by rewrite Htrace, Hask, <- app_assoc |].
           split_and!; revgoals;
             [eexists; right; left; by rewrite <- app_assoc | simpl; lia
             | repeat constructor | unfold toolExecutions; simpl; lia | done].
        -- apply runTool_message in Hrun as Hmessage.
           eexists _, [_; _]. split; [by rewrite Htrace, Hask, <- app_assoc |].
           split_and!; revgoals;
             [by rewrite <- app_assoc | simpl; lia | repeat constructor; done
             | unfold toolExecutions; simpl; lia | done].
    + injection Hstep as <- <-. eexists _, [_]. split; [exact Hask |].
      split_and!; revgoals;
        [eexists; right; left; by rewrite <- app_assoc | simpl; lia
        | repeat constructor | unfold toolExecutions; simpl; lia | done].
  - injection Hstep as <- <-. eexists _, [_]. split; [exact Hask |].
    split_and!; revgoals;
      [eexists; left; done | simpl; lia | repeat constructor
      | unfold toolExecutions; simpl; lia | done].
  - injection Hstep as <- <-. eexists _, [_]. split; [exact Hask |].
    split_and!; revgoals;
      [eexists; right; left; done | simpl; lia | repeat constructor
      | unfold toolExecutions; simpl; lia | done].
Qed.

Lemma loop_without_handoffs (remaining : nat) :
  ∀ iteration messages (s s' : RunState World) result,
    loop self args runnerConfig hooks executingAgent toolMap toolSchemas
         remaining iteration messages s = (result, s') →
    ∃ appended events,
      trace s' = trace s ++ events
      ∧ llmCalls events ≤ remaining
      ∧ toolExecutions events ≤ llmCalls events
      ∧ Forall (fun m => isUser m = false) appended
      ∧ length appended ≤ 2 * remaining
      ∧ endsRun hooks (messages ++ appended) result.
Proof.
  induction remaining as [| remaining IH]; intros iteration messages s s' result Hloop.
  - simpl in Hloop. unfold afterLoop in Hloop.
    rewrite findMaxIterations_none in Hloop.
    assert (result = Some (createErrorResult hooks
                             ("Agent reached maximum iterations ("
                              +:+ pretty (maxIterations runnerConfig) +:+ ")")
                             messages max_iterations) ∧ s' = s) as [-> ->].
    { destruct executingAgent; by injection Hloop as <- <-. }
    exists [], []. rewrite !app_nil_r.
    split_and!; [done | done | done | done | simpl; lia |].
    eexists. right. right. done.
  - destruct (iterationStep self runnerConfig hooks executingAgent toolMap toolSchemas
                iteration messages s) as [outcome s1] eqn:Hstep.
    erewrite iterate_of_step in Hloop; [| exact Hstep].
    apply step_without_handoffs in Hstep
      as (appended & events & Htrace & Hcalls & Htools & Hnot & Hlen & Hout).
    destruct outcome as [result' | messages'].
    + injection Hloop as <- <-. exists appended, events.
      split_and!; [done | lia | lia | done | lia | done].
    + subst messages'.
      apply IH in Hloop
        as (appended' & events' & Htrace' & Hcalls' & Htools' & Hnot' & Hlen' & Hout').
      exists (appended ++ appended'), (events ++ events').
      rewrite Htrace', Htrace, <- !app_assoc, llmCalls_app, toolExecutions_app, length_app.
      split_and!; [done | lia | lia | by apply Forall_app | lia |].
      by rewrite <- app_assoc in Hout'.
Qed.

End NoHandoffs.

(** X10: a run of an agent without handoffs makes at most [maxIterations] LLM
    calls, and never executes more tools than it has made LLM calls. *)
Theorem run_without_handoffs_is_bounded
    (fuel : nat) (initialMessages : list ChatMessage) (args : JsValue)
    (runnerConfig : AgentRunnerConfig World) (hooks : AgentRunnerHooks)
    (executingAgent : option (ConfigurableAgentTool World)) (s : RunState World) :
  noHandoffs executingAgent →
  ∃ events,
    trace (run (S fuel) initialMessages args runnerConfig hooks executingAgent s).2
    = trace s ++ EvRunStart (agentNameOf executingAgent) :: events
    ∧ llmCalls events ≤ maxIterations runnerConfig
    ∧ toolExecutions events ≤ llmCalls events.
Proof.
  intros Hnone. simpl. unfold runBody.
  destruct (buildTools (tools runnerConfig) executingAgent) as [toolMap toolSchemas].
  match goal with
  | |- context [loop ?r ?a ?c ?hk ?e ?tm ?ts ?n ?i ?m ?st] =>
      destruct (loop r a c hk e tm ts n i m st) as [result s'] eqn:Hloop
  end.
  apply loop_without_handoffs in Hloop
    as (appended & events & Htrace & Hcalls & Htools & _); [| done].
  exists events. simpl in *. by rewrite Htrace, <- app_assoc.
Qed.

(** X11: a run of an agent without handoffs always returns, and what it
    returns is made by the success hook for [final_answer] or by the error
    hook for [error] or [max_iterations]; the steps given to the hook are the
    prepared initial messages followed by at most two messages for each
    iteration, none of them a user message. *)
Theorem run_without_handoffs_outcome
    (fuel : nat) (initialMessages : list ChatMessage) (args : JsValue)
    (runnerConfig : AgentRunnerConfig World) (hooks : AgentRunnerHooks)
    (executingAgent : option (ConfigurableAgentTool World)) (s : RunState World) :
  noHandoffs executingAgent →
  ∃ appended,
    Forall (fun m => isUser m = false) appended
    ∧ length appended ≤ 2 * maxIterations runnerConfig
    ∧ endsRun hooks
        (match prepareInitialMessages hooks with
         | Some prepare => prepare initialMessages
         | None => initialMessages
         end ++ appended)
        (run (S fuel) initialMessages args runnerConfig hooks executingAgent s).1.
Proof.
  intros Hnone. simpl. unfold runBody.
  destruct (buildTools (tools runnerConfig) executingAgent) as [toolMap toolSchemas].
  match goal with
  | |- context [loop ?r ?a ?c ?hk ?e ?tm ?ts ?n ?i ?m ?st] =>
      destruct (loop r a c hk e tm ts n i m st) as [result s'] eqn:Hloop
  end.
  apply loop_without_handoffs in Hloop
    as (appended & events & _ & _ & _ & Hnot & Hlen & Hout); [| done].
  by exists appended.
Qed.

End RunnerExtras.

(** ** More properties of the graph builder *)

Section GraphExtras.
Import ConfigurableGraph.
Context {graphCollaborators : GraphCollaborators}.

Lemma addConfiguredNode_graph openAiModel (acc : Log * StateGraph) nodeConfig :
  (addConfiguredNode openAiModel acc nodeConfig).2
  = addNode (name nodeConfig) (configuredNode openAiModel nodeConfig) acc.2.
Proof.
  unfold addConfiguredNode, configuredNode.
  by destruct (nodeFactories (type nodeConfig)).
Qed.

Lemma addConfiguredNodes_keys openAiModel (nodeConfigs : list GraphNodeConfig) :
  ∀ (acc : Log * StateGraph) (k : string),
    is_Some (graphNodes (foldl (addConfiguredNode openAiModel) acc nodeConfigs).2 !! k)
    ↔ is_Some (graphNodes acc.2 !! k) ∨ ∃ n, n ∈ nodeConfigs ∧ name n = k.
Proof.
  induction nodeConfigs as [| n0 ns IH]; intros acc k; simpl.
  - split; [by left | intros [Hk | (n & Hn & _)]; [done | by apply elem_of_nil in Hn]].
  - rewrite IH, addConfiguredNode_graph. simpl. split.
    + intros [Hk | (n & Hn & Hname)].
      * destruct (decide (name n0 = k)) as [Heq | Hne].
        -- right. exists n0. split; [left | done].
        -- left. by rewrite lookup_insert_ne in Hk.
      * right. exists n. split; [by right | done].
    + intros [Hk | (n & Hn & Hname)].
      * left. destruct (decide (name n0 = k)) as [<- | Hne].
        -- rewrite lookup_insert_eq. by eexists.
        -- by rewrite lookup_insert_ne.
      * apply elem_of_cons in Hn as [-> | Hn].
        -- left. rewrite Hname, lookup_insert_eq. by eexists.
        -- right. by exists n.
Qed.

(** X12: when no node type is a name inherited from [Object.prototype], the
    nodes of the graph that the builder hands to [compile] are exactly the
    declared node names. *)
Theorem graph_nodes_are_declared_nodes
    (config : GraphConfig) (openAiModel : ChatOpenAI) (k : string) :
  ownNodeTypes config →
  is_Some (graphNodes (populate config openAiModel).2 !! k)
  ↔ ∃ n, n ∈ nodes config ∧ name n = k.
Proof.
  intros _. unfold populate. rewrite addConfiguredEdges_nodes, addConfiguredNodes_keys. simpl.
  rewrite lookup_empty. split; [intros [Hnone | Hn]; [by destruct Hnone | done] | by right].
Qed.

Lemma addConfiguredNodes_untouched openAiModel (nodeConfigs : list GraphNodeConfig) :
  ∀ (acc : Log * StateGraph) (k : string),
    (∀ n, n ∈ nodeConfigs → name n ≠ k) →
    graphNodes (foldl (addConfiguredNode openAiModel) acc nodeConfigs).2 !! k
    = graphNodes acc.2 !! k.
Proof.
  induction nodeConfigs as [| n0 ns IH]; intros acc k Hk; simpl; [done |].
  rewrite IH, addConfiguredNode_graph.
  - simpl. apply lookup_insert_ne. apply Hk. left.
  - intros n Hn. apply Hk. by right.
Qed.

(** X13: when no node type is a name inherited from [Object.prototype], of
    several declarations of a node name the last one decides the node; a node
    of a type other than [agent], [final] and [toolExecutor] is the dummy
    node that reports the unknown type. *)
Theorem last_declaration_of_a_node_wins
    (config : GraphConfig) (openAiModel : ChatOpenAI)
    (before after : list GraphNodeConfig) (nodeConfig : GraphNodeConfig) :
  ownNodeTypes config →
  nodes config = before ++ nodeConfig :: after →
  (∀ n, n ∈ after → name n ≠ name nodeConfig) →
  graphNodes (populate config openAiModel).2 !! name nodeConfig
  = Some (configuredNode openAiModel nodeConfig)
  ∧ (type nodeConfig ∉ ["agent"; "final"; "toolExecutor"] →
     configuredNode openAiModel nodeConfig
     = ErrorNode ("Unknown node type " +:+ type nodeConfig +:+ " for "
                  +:+ name nodeConfig)).
Proof.
  intros _ Hnodes Hafter. split.
  - unfold populate. rewrite addConfiguredEdges_nodes, Hnodes, foldl_app. simpl.
    rewrite addConfiguredNodes_untouched by done.
    rewrite addConfiguredNode_graph. simpl. apply lookup_insert_eq.
  - intros Htype. unfold configuredNode, nodeFactories.
    destruct (String.eqb_spec (type nodeConfig) "agent") as [Heq | _].
    { exfalso. apply Htype. rewrite Heq. set_solver. }
    destruct (String.eqb_spec (type nodeConfig) "final") as [Heq | _].
    { exfalso. apply Htype. rewrite Heq. set_solver. }
    destruct (String.eqb_spec (type nodeConfig) "toolExecutor") as [Heq | _].
    { exfalso. apply Htype. rewrite Heq. set_solver. }
    done.
Qed.

Lemma conditionFactories_known (conditionType' : string) :
  is_Some (conditionFactories conditionType') ↔ conditionType' ∈ knownConditionTypes.
Proof.
  unfold conditionFactories, knownConditionTypes.
  destruct (String.eqb_spec conditionType' "routeBasedOnLastMessage") as [-> | H1].
  { split; [set_solver | by eexists]. }
  destruct (String.eqb_spec conditionType' "alwaysAgent") as [-> | H2].
  { split; [set_solver | by eexists]. }
  destruct (String.eqb_spec conditionType' "routeOrPrepareToolExecutor") as [-> | H3].
  { split; [set_solver | by eexists]. }
  split; [by intros [? [=]] |]. intros Hin.
  repeat (apply elem_of_cons in Hin as [-> | Hin]; [congruence |]).
  by apply elem_of_nil in Hin.
Qed.

Lemma addConfiguredEdges_edges (edgeConfigs : list GraphEdgeConfig) :
  ∀ acc : Log * StateGraph,
    conditionalEdges (foldl addConfiguredEdge acc edgeConfigs).2
    = conditionalEdges acc.2
      ++ (configuredEdge
            <$> filter (fun e => conditionType e ∈ knownConditionTypes) edgeConfigs).
Proof.
  induction edgeConfigs as [| e0 es IH]; intros acc; simpl.
  - by rewrite app_nil_r.
  - rewrite IH, filter_cons. unfold addConfiguredEdge.
    destruct (conditionFactories (conditionType e0)) as [f |] eqn:Hf.
    + rewrite decide_True by (apply conditionFactories_known; by eexists).
      simpl. by rewrite <- app_assoc.
    + rewrite decide_False; [done |].
      intros Hin. apply conditionFactories_known in Hin as [f Hf']. congruence.
Qed.

Lemma addConfiguredNodes_edges openAiModel (nodeConfigs : list GraphNodeConfig) :
  ∀ acc : Log * StateGraph,
    conditionalEdges (foldl (addConfiguredNode openAiModel) acc nodeConfigs).2
    = conditionalEdges acc.2.
Proof.
  induction nodeConfigs as [| n0 ns IH]; intros acc; simpl; [done |].
  by rewrite IH, addConfiguredNode_graph.
Qed.

(** X14: when no node type and no condition type is a name inherited from
    [Object.prototype], the conditional edges of the built graph are the
    declared edges of the three known condition types, in the order of the
    declaration; edges of any other condition type are left out. *)
Theorem edges_of_unknown_condition_type_are_skipped
    (config : GraphConfig) (openAiModel : ChatOpenAI) :
  ownNodeTypes config →
  ownConditionTypes config →
  conditionalEdges (populate config openAiModel).2
  = configuredEdge
      <$> filter (fun e => conditionType e ∈ knownConditionTypes) (edges config).
Proof.
  intros _ _. unfold populate. by rewrite addConfiguredEdges_edges, addConfiguredNodes_edges.
Qed.

(** X15: when no node type is a name inherited from [Object.prototype], the
    builder throws exactly when no node is declared; otherwise it compiles
    the graph with a declared node as entry point: the declared entry point
    when it names a node, the first node when it does not. *)
Theorem builder_fails_only_without_nodes
    (config : GraphConfig) (openAiModel : ChatOpenAI) :
  ownNodeTypes config →
  match nodes config with
  | [] => (createAgentGraphFromConfig config openAiModel).2 = inl noNodesError
  | first :: _ =>
      ∃ entry,
        (createAgentGraphFromConfig config openAiModel).2
        = inr {| compiledEntry := entry;
                 compiledGraph := setEntryPoint entry (populate config openAiModel).2 |}
        ∧ (∃ n, n ∈ nodes config ∧ name n = entry)
        ∧ ((∃ n, n ∈ nodes config ∧ name n = entryPoint config) →
           entry = entryPoint config)
        ∧ ((∀ n, n ∈ nodes config → name n ≠ entryPoint config) →
           entry = name first)
  end.
Proof.
  intros _. unfold createAgentGraphFromConfig.
  pose proof (populate_nodes config openAiModel) as Hnodes.
  destruct (populate config openAiModel) as [log graph]. simpl in Hnodes.
  assert (∀ n, n ∈ nodes config →
               compile (setEntryPoint (name n) graph)
               = inr {| compiledEntry := name n;
                        compiledGraph := setEntryPoint (name n) graph |}) as Hcompile.
  { intros n Hn. unfold compile. simpl.
    rewrite bool_decide_eq_false_2, bool_decide_eq_true_2; [done | by apply Hnodes |].
    intros Hempty. destruct (Hnodes n Hn) as [x Hx]. by rewrite Hempty, lookup_empty in Hx. }
  destruct (List.find (fun n => String.eqb (name n) (entryPoint config)) (nodes config))
    as [found |] eqn:Hfind.
  - apply find_some in Hfind as [Hin Heq]. apply String.eqb_eq in Heq.
    apply list_elem_of_In in Hin.
    destruct (nodes config) as [| first rest] eqn:Hcfg; [by apply elem_of_nil in Hin |].
    exists (entryPoint config). simpl. rewrite <- Heq. rewrite Hcompile by done.
    split_and!; [done | by exists found | done |].
    intros Hno. by destruct (Hno found Hin).
  - destruct (nodes config) as [| first rest] eqn:Hcfg; [done |].
    exists (name first). simpl. rewrite Hcompile by left.
    split_and!; [done | exists first; split; [left | done] | | done].
    intros (n & Hn & Hname).
    apply list_elem_of_In in Hn.
    pose proof (find_none _ _ Hfind n Hn) as Hneq. simpl in Hneq.
    rewrite Hname, String.eqb_refl in Hneq. done.
Qed.

(** X16: running the condition of an edge of one of the three known
    condition types never changes the name, the edges or the entry point of
    the graph and never removes a node; the graph changes at all only when
    [routeOrPrepareToolExecutor] returns the tool executor key, by the one
    node stored under the mapped name. *)
Theorem routing_keeps_graph_structure
    (edgeConfig : GraphEdgeConfig) (state : AgentState) (graph : StateGraph) :
  conditionType edgeConfig ∈ knownConditionTypes →
  let graph' := (conditionFn edgeConfig state graph).2 in
  stateGraphName graph' = stateGraphName graph
  ∧ conditionalEdges graph' = conditionalEdges graph
  ∧ graphEntryPoint graph' = graphEntryPoint graph
  ∧ (∀ k, is_Some (graphNodes graph !! k) → is_Some (graphNodes graph' !! k))
  ∧ (graph' = graph
     ∨ (conditionType edgeConfig = "routeOrPrepareToolExecutor"
        ∧ (conditionFn edgeConfig state graph).1 = NodeType_TOOL_EXECUTOR
        ∧ ∃ toolExecutorNodeName,
            targetMap edgeConfig !! NodeType_TOOL_EXECUTOR = Some toolExecutorNodeName
            ∧ graph' = addNode toolExecutorNodeName (createToolExecutorNode state) graph)).
Proof.
  intros _. unfold conditionFn, conditionFactories.
  destruct (String.eqb (conditionType edgeConfig) "routeBasedOnLastMessage");
    [simpl; split_and!; auto |].
  destruct (String.eqb (conditionType edgeConfig) "alwaysAgent");
    [simpl; split_and!; auto |].
  destruct (String.eqb_spec (conditionType edgeConfig) "routeOrPrepareToolExecutor")
    as [Htype | _]; [| simpl; split_and!; auto].
  unfold routeOrPrepareToolExecutor.
  destruct (String.eqb_spec (routeNextNode state) NodeType_TOOL_EXECUTOR) as [Hkey | _];
    [| simpl; split_and!; auto].
  destruct (targetMap edgeConfig !! NodeType_TOOL_EXECUTOR) as [n |] eqn:Hmap;
    [| simpl; split_and!; auto].
  destruct (negb (String.eqb n "") && negb (String.eqb n "__end__"));
    [| simpl; split_and!; auto].
  simpl. split_and!; try done.
  - intros k Hk. destruct (decide (n = k)) as [<- | Hne].
    + rewrite lookup_insert_eq. by eexists.
    + by rewrite lookup_insert_ne.
  - right. split_and!; [done | done |]. by exists n.
Qed.

End GraphExtras.

(** ** Properties of the LiteLLM client *)

Section LiteLLMProperties.
Import LiteLLMClient.

Lemma prefix_refl (s : string) : String.prefix s s = true.
Proof.
  induction s as [| c s IH]; simpl; [done |].
  by destruct (Ascii.ascii_dec c c).
Qed.

Lemma includes_unfold (sub s : string) :
  includes sub s
  = String.prefix sub s
    || match s with
       | EmptyString => false
       | String _ rest => includes sub rest
       end.
Proof. by destruct s. Qed.

Lemma includes_app_r (sub s : string) : includes sub (s +:+ sub) = true.
Proof.
  induction s as [| c s IH].
  - change ("" +:+ sub) with sub. by rewrite includes_unfold, prefix_refl.
  - change (String c s +:+ sub) with (String c (s +:+ sub)).
    rewrite includes_unfold, IH. apply orb_true_r.
Qed.

Lemma stripTrailingSlash_app_slash (b : string) : stripTrailingSlash (b +:+ "/") = b.
Proof.
  induction b as [| c b IH]; simpl; [done |].
  rewrite IH. by destruct b.
Qed.

Lemma includes_nonempty (sub s : string) :
  sub ≠ "" → includes sub s = true → s ≠ "".
Proof. intros Hsub Hinc ->. by destruct sub. Qed.

Lemma getEndpoint_includes_path (options : option LiteLLMCallOptions) :
  includes CHAT_COMPLETIONS_PATH (getEndpoint options) = true.
Proof.
  unfold getEndpoint.
  destruct (options ≫= fun o => truthyString (endpoint o)) as [endpoint' |].
  - destruct (includes "/v1/chat/completions" endpoint') eqn:Hinc; [done |].
    apply includes_app_r.
  - destruct (options ≫= fun o => truthyString (baseUrl o)); apply includes_app_r.
Qed.

Lemma truthyString_nonempty (s : string) : s ≠ "" → truthyString (Some s) = Some s.
Proof. by destruct s. Qed.

(** X17: whatever the options, the endpoint that [getEndpoint] returns
    contains [/v1/chat/completions]. *)
Theorem endpoint_has_chat_completions_path (options : option LiteLLMCallOptions) :
  includes "/v1/chat/completions" (getEndpoint options) = true.
Proof. apply getEndpoint_includes_path. Qed.

(** X18: an endpoint that [getEndpoint] has returned, given back as the
    [endpoint] option, is returned unchanged, whatever the other options. *)
Theorem endpoint_is_stable
    (options : option LiteLLMCallOptions) (other : LiteLLMCallOptions) :
  getEndpoint (Some {| tools := tools other; tool_choice := tool_choice other;
                       systemPrompt := systemPrompt other;
                       temperature := temperature other;
                       endpoint := Some (getEndpoint options);
                       baseUrl := baseUrl other |})
  = getEndpoint options.
Proof.
  pose proof (getEndpoint_includes_path options) as Hinc.
  unfold CHAT_COMPLETIONS_PATH in Hinc.
  generalize dependent (getEndpoint options). intros e Hinc.
  unfold getEndpoint. destruct e as [| c e]; [done |]. simpl in *. by rewrite Hinc.
Qed.

(** X19: one slash at the end of the base URL is dropped, for the chat
    completions endpoint and for the models URL alike. *)
Theorem base_url_trailing_slash_is_dropped
    (tools' : option (list JsValue)) (tool_choice' : option JsValue)
    (systemPrompt' : option string) (temperature' : option Q) (base : string) :
  getEndpoint (Some {| tools := tools'; tool_choice := tool_choice';
                       systemPrompt := systemPrompt'; temperature := temperature';
                       endpoint := None;
                       baseUrl := Some (base +:+ "/") |})
  = base +:+ "/v1/chat/completions"
  ∧ modelsUrl (Some (base +:+ "/")) = base +:+ "/v1/models".
Proof.
  assert (truthyString (Some (base +:+ "/")) = Some (base +:+ "/")) as Hbase
    by (by destruct base).
  unfold getEndpoint, modelsUrl.
  cbn [mbind option_bind endpoint baseUrl]. rewrite Hbase.
  cbn [truthyString default id]. by rewrite !stripTrailingSlash_app_slash.
Qed.

(** X20: for the same [baseUrl], the chat completions endpoint and the URL of
    [fetchModels] have the same base, which is [http://localhost:4000] when
    no base URL is given. *)
Theorem chat_and_models_share_the_base
    (temperature' : option Q) (baseUrl' : option string) :
  ∃ base,
    getEndpoint (Some {| tools := None; tool_choice := None; systemPrompt := None;
                         temperature := temperature';
                         endpoint := None; baseUrl := baseUrl' |})
    = base +:+ "/v1/chat/completions"
    ∧ modelsUrl baseUrl' = base +:+ "/v1/models"
    ∧ (truthyString baseUrl' = None → base = "http://localhost:4000").
Proof.
  exists (stripTrailingSlash (default DEFAULT_BASE_URL (truthyString baseUrl'))).
  unfold getEndpoint, modelsUrl. cbn [mbind option_bind endpoint baseUrl truthyString].
  destruct (truthyString baseUrl') as [b |]; simpl; split_and!; done.
Qed.

Section ParserProperties.
Variable trim : string -> string.
Variable JSON_parse : string -> option JsValue.

Abbreviation parse := (parseLiteLLMResponse trim JSON_parse).

(** X21: [parseLiteLLMResponse] returns an error exactly for a response
    with no function call and no (or empty) text, and the error is
    [LLM returned empty response.] *)
Theorem parse_error_only_for_empty_response (response : LiteLLMResponse) (e : string) :
  parse response = error e
  ↔ functionCall response = None
    ∧ (text response = None ∨ text response = Some "")
    ∧ e = "LLM returned empty response.".
Proof.
  unfold parseLiteLLMResponse.
  destruct (functionCall response) as [call |].
  { split; [intros [=] | intros ([=] & _)]. }
  destruct (text response) as [[| c rest] |]; simpl.
  - split; [intros [= <-]; auto | by intros (_ & _ & ->)].
  - split.
    + intros Hparse. exfalso. repeat case_match; done.
    + intros (_ & [[=] | [=]] & _).
  - split; [intros [= <-]; auto | by intros (_ & _ & ->)].
Qed.

(** X22: a final answer of [parseLiteLLMResponse] is the text of the
    response, unchanged (not trimmed) and not empty, of a response without
    function call. *)
Theorem parsed_answer_is_the_text (response : LiteLLMResponse) (answer' : string) :
  parse response = final_answer answer' →
  functionCall response = None ∧ text response = Some answer' ∧ answer' ≠ "".
Proof.
  unfold parseLiteLLMResponse.
  destruct (functionCall response) as [call |]; [done |].
  destruct (text response) as [[| c rest] |]; simpl; [done | | done].
  intros Hparse.
  assert (final_answer (String c rest) = final_answer answer') as [= <-]; [| done].
  repeat case_match; done.
Qed.

(** X23: a text response is a final answer whenever it lacks the marker
    ["action":"tool"], or does not start with a brace after trimming, or is
    not valid JSON. *)
Theorem text_without_marker_is_an_answer (response : LiteLLMResponse) (rawContent : string) :
  functionCall response = None →
  text response = Some rawContent →
  rawContent ≠ "" →
  includes toolMarker rawContent = false ∨ String.prefix "{" (trim rawContent) = false
  ∨ JSON_parse rawContent = None →
  parse response = final_answer rawContent.
Proof.
  intros Hcall Htext Hne Hnot. unfold parseLiteLLMResponse.
  rewrite Hcall, Htext, truthyString_nonempty by done.
  destruct Hnot as [-> | [-> | Hjson]]; [by rewrite andb_false_r | done |].
  rewrite Hjson. by destruct (_ && _).
Qed.

(** X24: a tool call of [parseLiteLLMResponse] always has truthy arguments
    (an empty object stands in for missing ones), and when it is read from
    the text its tool name is truthy. *)
Theorem parsed_tool_call_has_arguments
    (response : LiteLLMResponse) (toolName' toolArgs : JsValue) :
  parse response = tool_call toolName' toolArgs →
  truthy toolArgs = true
  ∧ (functionCall response = None → truthy toolName' = true).
Proof.
  unfold parseLiteLLMResponse.
  destruct (functionCall response) as [call |].
  { intros [= <- <-]. split; [| done]. unfold Js.or.
    by destruct (truthy (arguments call)) eqn:Hargs. }
  destruct (truthyString (text response)) as [rawContent |]; [| done].
  destruct (String.prefix "{" (trim rawContent) && includes toolMarker rawContent);
    [| done].
  destruct (JSON_parse rawContent) as [contentJson |]; [| done].
  destruct (actionIsTool contentJson && truthy (Js.get contentJson "toolName")) eqn:Hok;
    [| done].
  intros [= <- <-]. apply andb_true_iff in Hok as [_ Hname]. split; [| done].
  unfold Js.or. by destruct (truthy (Js.get contentJson "toolArgs")) eqn:Hargs.
Qed.

End ParserProperties.
End LiteLLMProperties.

(** ** Properties of the agent service *)

Section ServiceProperties.
Import AgentService.
Context {World : Type} {serviceCollaborators : ServiceCollaborators World}.

Lemma answerError_last (error' : Thrown) (svc svc' : Service) (m : ServiceMessage) :
  answerError error' svc = (m, svc') →
  last (messages svc') = Some m
  ∧ dispatched svc' = dispatched svc ++ [messages svc']
  ∧ messages svc' = messages svc ++ [m]
  ∧ graph svc' = graph svc ∧ apiKey svc' = apiKey svc
  ∧ isInitialized svc' = isInitialized svc.
Proof.
  unfold answerError. intros [= <- <-]. simpl. by rewrite last_snoc.
Qed.

Lemma sendMessage_throws_iff
    (text' : string) (imageInput' : option ImageInputData)
    (selectedAgentType' : option string) (svc : Service) (w : World) :
  (∃ e, (sendMessage text' imageInput' selectedAgentType' svc w).1.1 = inl e)
  ↔ (apiKey svc = None ∨ apiKey svc = Some "" ∨ trim text' = "").
Proof.
  unfold sendMessage.
  destruct (String.eqb_spec (default "" (apiKey svc)) "") as [Hkey | Hkey].
  { split; [| by eexists]. intros _. destruct (apiKey svc) as [k |]; [| by left].
    simpl in Hkey. subst k. right. by left. }
  destruct (String.eqb_spec (trim text') "") as [Htext | Htext].
  { split; [| by eexists]. intros _. right. by right. }
  split.
  - intros [e He]. exfalso.
    destruct (getCurrentPage "window.location.href" w) as [pageUrl w1].
    destruct (getCurrentPage "document.title" w1) as [pageTitle w2].
    simpl in He. destruct (graph svc) as [graph' |]; [| done].
    destruct (invoke graph' _ _ w2) as [run w3]. simpl in He.
    destruct (thrown run); [done |]. by destruct (last (finalMessages run)).
  - intros [Hnone | [Hempty | Hblank]]; [| | done].
    + by rewrite Hnone in Hkey.
    + by rewrite Hempty in Hkey.
Qed.

Lemma sendMessage_guard_unchanged
    (text' : string) (imageInput' : option ImageInputData)
    (selectedAgentType' : option string) (svc svc' : Service) (w w' : World)
    (e : Thrown) :
  sendMessage text' imageInput' selectedAgentType' svc w = (inl e, svc', w') →
  svc' = svc ∧ w' = w
  ∧ e = ThrownError (if String.eqb (default "" (apiKey svc)) ""
                     then "API key not set. Please set the API key in settings."
                     else "Empty message. Please enter some text.").
Proof.
  unfold sendMessage.
  destruct (String.eqb (default "" (apiKey svc)) ""); [by intros [= <- <- <-] |].
  destruct (String.eqb (trim text') ""); [by intros [= <- <- <-] |].
  intros Hsend. exfalso.
  destruct (getCurrentPage "window.location.href" w) as [pageUrl w1].
  destruct (getCurrentPage "document.title" w1) as [pageTitle w2].
  simpl in Hsend. destruct (graph svc) as [graph' |]; [| done].
  destruct (invoke graph' _ _ w2) as [run w3]. simpl in Hsend.
  destruct (thrown run); [done |]. by destruct (last (finalMessages run)).
Qed.

(** X25: with collaborators that do not throw outside the [try] block,
    [sendMessage] throws exactly when no API key is set or the text is blank,
    and then it leaves the service and the world as they were; the API key is
    checked first. *)
Theorem sendMessage_throws_only_at_the_guards
    (text' : string) (imageInput' : option ImageInputData)
    (selectedAgentType' : option string) (svc : Service) (w : World) :
  ((∃ e, (sendMessage text' imageInput' selectedAgentType' svc w).1.1 = inl e)
   ↔ (apiKey svc = None ∨ apiKey svc = Some "" ∨ trim text' = ""))
  ∧ ∀ e svc' w',
      sendMessage text' imageInput' selectedAgentType' svc w = (inl e, svc', w') →
      svc' = svc ∧ w' = w
      ∧ e = ThrownError (if String.eqb (default "" (apiKey svc)) ""
                         then "API key not set. Please set the API key in settings."
                         else "Empty message. Please enter some text.").
Proof.
  split; [apply sendMessage_throws_iff |].
  intros e svc' w'. apply sendMessage_guard_unchanged.
Qed.

(** X26: the message that [sendMessage] returns is the last message of the
    history it leaves; the first list it dispatches is the old history with
    the user message; graph, API key and flag are left as they were. *)
Theorem sendMessage_returns_the_last_message
    (text' : string) (imageInput' : option ImageInputData)
    (selectedAgentType' : option string) (svc svc' : Service) (w w' : World)
    (m : ServiceMessage) :
  sendMessage text' imageInput' selectedAgentType' svc w = (inr m, svc', w') →
  last (messages svc') = Some m
  ∧ (∃ more,
       dispatched svc'
       = dispatched svc
         ++ (messages svc ++ [createUserMessage text' imageInput']) :: more)
  ∧ graph svc' = graph svc ∧ apiKey svc' = apiKey svc
  ∧ isInitialized svc' = isInitialized svc.
Proof.
  unfold sendMessage.
  destruct (String.eqb (default "" (apiKey svc)) ""); [done |].
  destruct (String.eqb (trim text') ""); [done |].
  destruct (getCurrentPage "window.location.href" w) as [pageUrl w1].
  destruct (getCurrentPage "document.title" w1) as [pageTitle w2].
  simpl. destruct (graph svc) as [graph' |] eqn:Hgraph.
  - destruct (invoke graph' _ _ w2) as [run w3]. simpl.
    destruct (thrown run) as [error' |].
    + intros [= <- <- <-]. simpl. rewrite last_snoc, Hgraph.
      split_and!; try done. eexists. by rewrite <- !app_assoc.
    + destruct (last (finalMessages run)) as [finalMessage |] eqn:Hlast.
      * intros [= <- <- <-]. simpl. rewrite Hgraph.
        split_and!; try done. eexists. by rewrite <- !app_assoc.
      * intros [= <- <- <-]. simpl. rewrite last_snoc, Hgraph.
        split_and!; try done. eexists. by rewrite <- !app_assoc.
  - intros [= <- <- <-]. simpl. rewrite last_snoc, Hgraph.
    split_and!; try done. eexists. by rewrite <- !app_assoc.
Qed.

(** X27: a message sent to a service that has an API key but no graph is
    answered with the error [Agent graph not initialized. Please try again.],
    appended after the user message; both histories are dispatched. *)
Theorem sendMessage_without_graph
    (text' : string) (imageInput' : option ImageInputData)
    (selectedAgentType' : option string) (svc : Service) (w : World) (key : string) :
  graph svc = None →
  apiKey svc = Some key → key ≠ "" →
  trim text' ≠ "" →
  let userMessage := createUserMessage text' imageInput' in
  let errorText := "Agent graph not initialized. Please try again." in
  let errorMessage := answerMessage errorText (Some errorText) in
  let '(outcome, svc', _) := sendMessage text' imageInput' selectedAgentType' svc w in
  outcome = inr errorMessage
  ∧ messages svc' = messages svc ++ [userMessage; errorMessage]
  ∧ dispatched svc'
    = dispatched svc ++ [messages svc ++ [userMessage];
                         messages svc ++ [userMessage; errorMessage]].
Proof.
  intros Hgraph Hkey Hne Htext. unfold sendMessage. rewrite Hkey. simpl.
  destruct (String.eqb_spec key "") as [| _]; [done |].
  destruct (String.eqb_spec (trim text') "") as [| _]; [done |].
  destruct (getCurrentPage "window.location.href" w) as [pageUrl w1].
  destruct (getCurrentPage "document.title" w1) as [pageTitle w2].
  simpl. rewrite Hgraph. simpl. by rewrite <- !app_assoc.
Qed.

(** X28: an [initialize] that fails on a new service throws the localized
    [Failed to initialize agent.] but keeps the API key, so a message sent
    afterwards passes the API key guard and is answered with
    [Agent graph not initialized. Please try again.] *)
Theorem failed_initialize_keeps_the_key
    (key : string) (modelName' : option string) (e : Thrown)
    (text' : string) (imageInput' : option ImageInputData)
    (selectedAgentType' : option string) (w : World) :
  createAgentGraph key modelName' = inl e →
  key ≠ "" →
  trim text' ≠ "" →
  let '(failure, svc) := initialize key modelName' newService in
  failure = Some (ThrownError (i18nString "Failed to initialize agent."))
  ∧ apiKey svc = Some key ∧ isInitialized svc = false
  ∧ (sendMessage text' imageInput' selectedAgentType' svc w).1.1
    = inr (answerMessage "Agent graph not initialized. Please try again."
                         (Some "Agent graph not initialized. Please try again.")).
Proof.
  intros Hgraph Hne Htext. unfold initialize. rewrite Hgraph.
  split_and!; try done.
  unfold sendMessage. simpl.
  destruct (String.eqb_spec key "") as [| _]; [done |].
  destruct (String.eqb_spec (trim text') "") as [| _]; [done |].
  destruct (getCurrentPage "window.location.href" w) as [pageUrl w1].
  destruct (getCurrentPage "document.title" w1) as [pageTitle w2].
  done.
Qed.

End ServiceProperties.

(** ** The properties on concrete runs *)

Section Instances.
Import Examples.

(** The amended C1 on a run whose LLM asks for a tool that is not there. *)
Lemma unknown_tool_is_fatal_witness :
  let errorMsg := "Agent loop error: Agent requested unknown tool: missing" in
  let result := createErrorResult plainHooks errorMsg
       [question; toolCallMessage "missing" JsNull (toolCallResponse "missing" JsNull);
        systemErrorMessage errorMsg] error_reason in
  iterationStep (run (World := Script) 0) (runnerConfigOf [PlainTool echo] 2)
     plainHooks None (baseToolMap [PlainTool echo]) [] 0 [question]
     (start [inr (toolCallResponse "missing" JsNull)])
  = (Return (Some result), asked [])
  ∧ ∀ remaining,
      loop (run (World := Script) 0) JsNull (runnerConfigOf [PlainTool echo] 2)
        plainHooks None (baseToolMap [PlainTool echo]) [] (S remaining) 0 [question]
        (start [inr (toolCallResponse "missing" JsNull)])
      = (Some result, asked []).
Proof.
  apply (unknown_tool_is_fatal (run (World := Script) 0) JsNull
           (runnerConfigOf [PlainTool echo] 2) plainHooks None
           (baseToolMap [PlainTool echo]) [] 0 [question]
           (start [inr (toolCallResponse "missing" JsNull)]) (asked [])
           (toolCallResponse "missing" JsNull) "missing" JsNull);
    reflexivity.
Defined.

(** C2 on a budget of three iterations and a script of three calls of
    [echo]. *)
Lemma max_iterations_reached_witness :
  ∃ messages' s',
    run 1 [question] JsNull (runnerConfigOf [PlainTool echo] 3) plainHooks None
        (start [inr (toolCallResponse "echo" JsNull);
                inr (toolCallResponse "echo" JsNull);
                inr (toolCallResponse "echo" JsNull)])
    = (Some (createErrorResult plainHooks "Agent reached maximum iterations (3)"
               messages' max_iterations), s')
    ∧ length messages' = 1 + 2 * 3
    ∧ llmCalls (trace s') = 0 + 3.
Proof.
  refine (max_iterations_reached 0 [question] JsNull
            (runnerConfigOf [PlainTool echo] 3) plainHooks None
            (start [inr (toolCallResponse "echo" JsNull);
                    inr (toolCallResponse "echo" JsNull);
                    inr (toolCallResponse "echo" JsNull)]) _ _); [reflexivity |].
  unfold onlyCallsRegularTools. simpl.
  repeat (eexists _, _, _, _, _, _, _; split_and!; [reflexivity .. |]).
  exact I.
Defined.

Lemma plainHooks_keepSteps :
  keepsSteps (createSuccessResult plainHooks) ∧ keepsSteps (createErrorResult plainHooks).
Proof. split; intros text steps reason h [= <-]; reflexivity. Qed.

(** C3 on the example of the specification, with an error result of an
    allowed tool added. *)
Lemma handoff_history_filter_witness :
  handoffMessages (handoffTo "researcher" (Some ["toolA"]))
    [question; toolResultOf "toolA" false; toolResultOf "toolB" false;
     toolResultOf "toolA" true]
  = [question; toolResultOf "toolA" false].
Proof.
  destruct (handoff_history_filter (collaborators := scripted) (run 0)
              [question; toolResultOf "toolA" false; toolResultOf "toolB" false;
               toolResultOf "toolA" true]
              JsNull (handoffTo "researcher" (Some ["toolA"])) coordinator
              "key" "model" 2 0%Q (createSuccessResult plainHooks)
              (createErrorResult plainHooks) None (start [])
              researcher researcherConfig) as (Hfilter & _ & _); [reflexivity |].
  rewrite (Hfilter ["toolA"]); [reflexivity | reflexivity | done].
Defined.

(** C4 on a tool that always throws. *)
Lemma tool_fault_is_caught_witness :
  let errorText := JsString "Error during tool execution: out of order" in
  let messages' :=
    [question; toolCallMessage "boom" JsNull (toolCallResponse "boom" JsNull);
     ToolResultMsg {| toolName := "boom"; resultText := errorText; isError := true;
                      error := Some errorText;
                      resultData := Some (JsObject [("error", errorText)]) |}] in
  iterationStep (run (World := Script) 0) (runnerConfigOf [PlainTool boom] 2) plainHooks None
    (baseToolMap [PlainTool boom]) [] 0 [question]
    (start [inr (toolCallResponse "boom" JsNull)])
  = (NextIteration messages', executed [] "boom" JsNull)
  ∧ ∀ remaining,
      loop (run (World := Script) 0) JsNull (runnerConfigOf [PlainTool boom] 2) plainHooks None
        (baseToolMap [PlainTool boom]) [] (S remaining) 0 [question]
        (start [inr (toolCallResponse "boom" JsNull)])
      = loop (run (World := Script) 0) JsNull (runnerConfigOf [PlainTool boom] 2) plainHooks None
          (baseToolMap [PlainTool boom]) [] remaining 1 messages'
          (executed [] "boom" JsNull).
Proof.
  apply (tool_fault_is_caught (run (World := Script) 0) JsNull (runnerConfigOf [PlainTool boom] 2)
           plainHooks None (baseToolMap [PlainTool boom]) [] 0 [question]
           (start [inr (toolCallResponse "boom" JsNull)]) (asked [])
           (executed [] "boom" JsNull) (toolCallResponse "boom" JsNull)
           "boom" JsNull (PlainTool boom) (newError "out of order"));
    reflexivity.
Defined.

(** The amended C5 on a tool that resolves with [{ success: true, error: null }]. *)
Lemma tool_result_error_flag_witness :
  ∃ m : ToolResultMessage,
    processAction (run (World := Script) 0) (runnerConfigOf [PlainTool lenient] 2) plainHooks None
      (baseToolMap [PlainTool lenient]) [question]
      (toolCallResponse "lenient" JsNull) (tool_call "lenient" JsNull) (asked [])
    = (FallsThrough [question;
                     toolCallMessage "lenient" JsNull (toolCallResponse "lenient" JsNull);
                     ToolResultMsg m], executed [] "lenient" JsNull)
    ∧ toolName m = "lenient"
    ∧ resultData m = Some (JsObject [("success", JsBool true); ("error", JsNull)])
    ∧ (isError m = true
       ↔ flaggedResult (JsObject [("success", JsBool true); ("error", JsNull)])).
Proof.
  apply (tool_result_error_flag (run (World := Script) 0) (runnerConfigOf [PlainTool lenient] 2)
           plainHooks None (baseToolMap [PlainTool lenient]) [question]
           (toolCallResponse "lenient" JsNull) "lenient" JsNull (PlainTool lenient)
           (JsObject [("success", JsBool true); ("error", JsNull)]) (JsString "{}")
           (asked []) (executed [] "lenient" JsNull));
    reflexivity.
Defined.

(** C6 on a run that ends with a final answer. *)
Lemma initial_messages_are_prefix_witness :
  ∃ result s',
    run 1 [question] JsNull (runnerConfigOf [PlainTool echo] 2) plainHooks None
        (start [inr (textResponse "Nothing.")]) = (Some result, s')
    ∧ (∀ h, intermediateSteps result = Some h → [question] `prefix_of` h).
Proof.
  eexists _, _. split; [reflexivity |].
  exact (proj1 (initial_messages_are_prefix 1 [question] JsNull
                  (runnerConfigOf [PlainTool echo] 2) plainHooks None
                  (start [inr (textResponse "Nothing.")]) _ _ eq_refl
                  (proj1 plainHooks_keepSteps) (proj2 plainHooks_keepSteps) eq_refl)).
Defined.

(** C7 on a target that is a plain tool. *)
Lemma handoff_target_unresolved_witness :
  executeHandoff (run (World := Script) 0) [question] JsNull (handoffTo "echo" None) coordinator
    "key" "model" 2 0%Q (createSuccessResult plainHooks) (createErrorResult plainHooks)
    None (start [])
  = (Some (createErrorResult plainHooks
             "Handoff target 'echo' not found or is not a ConfigurableAgentTool."
             [question] error_reason), start []).
Proof.
  apply (handoff_target_unresolved (run (World := Script) 0) [question] JsNull
           (handoffTo "echo" None)
           coordinator "key" "model" 2 0%Q (createSuccessResult plainHooks)
           (createErrorResult plainHooks) None (start [])).
  right. exists echo. reflexivity.
Defined.

(** C8 on a world whose LLM call fails. *)
Lemma llm_failure_is_fatal_witness :
  let errorMsg := "LLM call failed: connection lost" in
  let result := createErrorResult plainHooks errorMsg
                  [question; systemErrorMessage errorMsg] error_reason in
  iterationStep (run (World := Script) 0) (runnerConfigOf [PlainTool echo] 2) plainHooks None
    (baseToolMap [PlainTool echo]) [] 0 [question] (start [])
  = (Return (Some result), asked [])
  ∧ (∀ remaining,
       loop (run (World := Script) 0) JsNull (runnerConfigOf [PlainTool echo] 2) plainHooks None
         (baseToolMap [PlainTool echo]) [] (S remaining) 0 [question] (start [])
       = (Some result, asked []))
  ∧ llmCalls (trace (asked [])) = llmCalls (trace (start ([] : Script))) + 1.
Proof.
  apply (llm_failure_is_fatal (run (World := Script) 0) JsNull (runnerConfigOf [PlainTool echo] 2)
           plainHooks None (baseToolMap [PlainTool echo]) [] 0 [question]
           (start []) (asked []) (newError "connection lost")).
  reflexivity.
Defined.

(** C1 as stated fails: with a budget of two iterations and a first
    response that asks for a tool that is not in the tool map, the first
    iteration does not go on to a second one; the run ends with reason
    [error] after one LLM call. *)
Lemma unknown_tool_ends_run :
  let script : Script :=
    [inr (toolCallResponse "missing" JsNull); inr (textResponse "Nothing.")] in
  let runnerConfig := runnerConfigOf [PlainTool echo] 2 in
  (buildTools (tools runnerConfig) None).1 !! "missing" = None
  ∧ ¬ (∃ messages' s',
         iterationStep (run 0) runnerConfig plainHooks None
           (buildTools (tools runnerConfig) None).1
           (buildTools (tools runnerConfig) None).2 0 [question] (start script)
         = (NextIteration messages', s'))
  ∧ (terminationReason <$> (run 1 [question] JsNull runnerConfig plainHooks None
                                (start script)).1) = Some (Some error_reason)
  ∧ llmCalls (trace (run 1 [question] JsNull runnerConfig plainHooks None
                         (start script)).2) = 1.
Proof.
  repeat split; try reflexivity.
  intros (messages' & s' & Hstep). vm_compute in Hstep. discriminate Hstep.
Qed.

(** C3 as stated fails: a non-error tool result whose tool name is the empty
    string is not carried forward, although the name is in the allow-list. *)
Lemma empty_tool_name_is_dropped :
  handoffMessages (handoffTo "researcher" (Some [""])) [question; toolResultOf "" false]
  ≠ specHandoffMessages [""] [question; toolResultOf "" false].
Proof. vm_compute. intros [=]. Qed.

(** C5 as stated fails: a result object that carries an [error] field whose
    value is [null] is not flagged as an error. *)
Lemma falsy_error_field_is_not_flagged :
  let toolResultData := JsObject [("success", JsBool true); ("error", JsNull)] in
  specErrorResult toolResultData
  ∧ processAction (run 0) (runnerConfigOf [PlainTool lenient] 2) plainHooks None
      (baseToolMap [PlainTool lenient]) [question]
      (toolCallResponse "lenient" JsNull) (tool_call "lenient" JsNull) (asked [])
    = (FallsThrough [question;
                     toolCallMessage "lenient" JsNull (toolCallResponse "lenient" JsNull);
                     ToolResultMsg {| toolName := "lenient";
                                      resultText := JsString "{}";
                                      isError := false;
                                      error := None;
                                      resultData := Some toolResultData |}],
       executed [] "lenient" JsNull).
Proof. split; [left; by eexists | reflexivity]. Qed.

(** C4 fails on a tool that rejects with [undefined]: the [catch] of the
    tool execution throws when it reads [err.message], no tool-result message
    is built for the tool, and the iteration does not go on to the next one:
    the run ends with reason [error]. *)
Lemma undefined_tool_fault_is_not_caught :
  let errorMsg :=
    "Agent loop error: Cannot read properties of undefined (reading 'message')" in
  execute (World := Script) mute JsNull [] = (RejectedNullish false, [])
  ∧ iterationStep (run (World := Script) 0) (runnerConfigOf [PlainTool mute] 2)
      plainHooks None (baseToolMap [PlainTool mute]) [] 0 [question]
      (start [inr (toolCallResponse "mute" JsNull)])
    = (Return
         (Some (createErrorResult plainHooks errorMsg
                  [question;
                   ModelMsg {| action := ActionTool;
                               modelToolName := Some "mute";
                               modelToolArgs := Some JsNull;
                               answer := None;
                               isFinalAnswer := false;
                               reasoning := None |};
                   ToolResultMsg {| toolName := "system_error";
                                    resultText := JsString errorMsg;
                                    isError := true;
                                    error := Some (JsString errorMsg);
                                    resultData := None |}]
                  error_reason)),
       executed [] "mute" JsNull).
Proof. split; reflexivity. Qed.

(** C2 fails on the same tool: with a budget of two iterations and an LLM
    that answers every call with a call of the registered tool [mute], the
    run makes one LLM call and ends with reason [error]. *)
Lemma undefined_tool_fault_cuts_run_short :
  let script : Script :=
    [inr (toolCallResponse "mute" JsNull); inr (toolCallResponse "mute" JsNull)] in
  let runnerConfig := runnerConfigOf [PlainTool mute] 2 in
  (buildTools (tools runnerConfig) None).1 !! "mute" = Some (PlainTool mute)
  ∧ (terminationReason <$> (run 1 [question] JsNull runnerConfig plainHooks None
                                (start script)).1) = Some (Some error_reason)
  ∧ llmCalls (trace (run 1 [question] JsNull runnerConfig plainHooks None
                         (start script)).2) = 1.
Proof. repeat split; reflexivity. Qed.

(** C6 as stated fails: the result of a run that hands off to an agent that
    does not set [includeIntermediateStepsOnReturn] carries no message
    history, and the history that a result carries is what the result hook
    has put there. *)
Lemma handoff_result_carries_no_history :
  (∃ result s',
     run 2 [question] JsNull (runnerConfigOf [PlainTool echo] 2) plainHooks
         (Some coordinator)
         (start [inr (toolCallResponse "handoff_to_researcher" JsNull);
                 inr (textResponse "Found.")])
     = (Some result, s')
     ∧ intermediateSteps result = None
     ∧ ¬ specCarriesInitialMessages [question] result)
  ∧ (∃ result s',
       run 1 [question] JsNull (runnerConfigOf [PlainTool echo] 2)
           MoreExamples.terseHooks None (start [inr (textResponse "Nothing.")])
       = (Some result, s')
       ∧ ¬ specCarriesInitialMessages [question] result).
Proof.
  split.
  - eexists _, _. split; [reflexivity |]. split; [reflexivity |].
    intros (h & Hh & _). discriminate Hh.
  - eexists _, _. split; [reflexivity |].
    intros (h & Hh & Hprefix). injection Hh as <-.
    destruct Hprefix as [k Hk]. discriminate Hk.
Qed.

End Instances.

Section GraphInstances.
Import Examples.
Import ConfigurableGraph.

(** C9 on a graph of two nodes whose entry point names neither. *)
Lemma entry_point_fallback_witness :
  ∃ log,
    createAgentGraphFromConfig (graphCollaborators := toolRouting) twoNodes tt
    = (log, inr {| compiledEntry := "agent";
                   compiledGraph :=
                     setEntryPoint "agent"
                       (populate (graphCollaborators := toolRouting) twoNodes tt).2 |})
    ∧ (LogWarn, "[ConfigurableGraph] Setting entry point to fallback: agent") ∈ log.
Proof.
  apply (entry_point_fallback (graphCollaborators := toolRouting) twoNodes tt).
  - by apply (bool_decide_unpack _).
  - by apply (bool_decide_unpack _).
  - intros n Hn. apply elem_of_cons in Hn as [-> | Hn]; [done |].
    apply list_elem_of_singleton in Hn as ->. done.
Defined.

(** The amended C10 on an edge that maps the tool executor key to a node name. *)
Lemma tool_executor_routing_witness :
  routeOrPrepareToolExecutor (graphCollaborators := toolRouting) tt
    (newStateGraph "chat") (edgeTo "tools")
  = ("tool_executor",
     addNode "tools" (createToolExecutorNode tt) (newStateGraph "chat")).
Proof.
  destruct (tool_executor_routing (graphCollaborators := toolRouting) tt
              (newStateGraph "chat") (edgeTo "tools")) as [_ Hstore];
    [reflexivity |].
  destruct (Hstore "tools") as [Hkey _]; [reflexivity | done | done |].
  exact Hkey.
Defined.

(** C10 as stated fails: a target map that maps the tool executor key to the
    empty string has an entry that is not the terminal key, yet the
    condition returns the terminal key and stores no node. *)
Lemma empty_target_name_routes_to_end :
  routeOrPrepareToolExecutor (graphCollaborators := toolRouting) tt
    (newStateGraph "chat") (edgeTo "")
  ≠ specRouteOrPrepareToolExecutor tt (newStateGraph "chat") (edgeTo "").
Proof. intros Heq. apply (f_equal fst) in Heq. vm_compute in Heq. discriminate Heq. Qed.

End GraphInstances.

(** ** The further properties on concrete inputs *)

Section MoreInstances.
Import Examples MoreExamples.

(** X1 on a script whose first response is a plain text. *)
Lemma final_answer_ends_run_witness :
  (∀ remaining,
     loop (run (World := Script) 0) JsNull (runnerConfigOf [PlainTool echo] 2)
       plainHooks None (baseToolMap [PlainTool echo]) [] (S remaining) 0 [question]
       (start [inr (textResponse "Nothing.")])
     = (Some (createSuccessResult plainHooks "Nothing."
                [question; finalAnswerMessage "Nothing." (textResponse "Nothing.")]
                final_answer), asked []))
  ∧ trace (asked []) = trace (start ([] : Script)) ++ [EvLlmCall "model" "history"].
Proof.
  refine (final_answer_ends_run (run (World := Script) 0) JsNull
           (runnerConfigOf [PlainTool echo] 2) plainHooks None
           (baseToolMap [PlainTool echo]) [] 0 [question]
           (start [inr (textResponse "Nothing.")]) (asked [])
           (textResponse "Nothing.") "Nothing." _ _); reflexivity.
Defined.

(** X2 on a script whose first response has neither text nor tool call. *)
Lemma protocol_error_is_fatal_witness :
  loop (run (World := Script) 0) JsNull (runnerConfigOf [PlainTool echo] 2)
    plainHooks None (baseToolMap [PlainTool echo]) [] 2 0 [question]
    (start [inr emptyResponse])
  = (Some (createErrorResult plainHooks "Agent loop error: LLM returned empty response."
             [question;
              systemErrorMessage "Agent loop error: LLM returned empty response."]
             error_reason), asked []).
Proof.
  refine (protocol_error_is_fatal (run (World := Script) 0) JsNull
           (runnerConfigOf [PlainTool echo] 2) plainHooks None
           (baseToolMap [PlainTool echo]) [] 0 [question]
           (start [inr emptyResponse]) (asked [])
           emptyResponse "LLM returned empty response." _ _ 1); reflexivity.
Defined.

(** X5 on the coordinator, whose handoff target is registered under the
    name it has. *)
Lemma handoff_tool_hands_off_witness :
  ∃ h', h' ∈ [handoffTo "researcher" None]
        ∧ targetAgentName h' = "researcher"
        ∧ isLlmTriggered h' = true
        ∧ ∀ remaining,
            loop (run (World := Script) 1) JsNull (runnerConfigOf [PlainTool echo] 2)
              plainHooks (Some coordinator)
              (buildTools [PlainTool echo] (Some coordinator)).1
              (buildTools [PlainTool echo] (Some coordinator)).2
              (S remaining) 0 [question]
              (start [inr (toolCallResponse "handoff_to_researcher" JsNull)])
            = handoffFrom (run 1) (runnerConfigOf [PlainTool echo] 2) plainHooks
                [question; toolCallMessage "handoff_to_researcher" JsNull
                             (toolCallResponse "handoff_to_researcher" JsNull)]
                JsNull h' coordinator (Some JsNull) (asked []).
Proof.
  refine (handoff_tool_hands_off (run (World := Script) 1) JsNull
            (runnerConfigOf [PlainTool echo] 2) plainHooks coordinator
            [handoffTo "researcher" None] eq_refl
            (handoffTo "researcher" None) researcher researcherConfig
            0 [question]
            (start [inr (toolCallResponse "handoff_to_researcher" JsNull)]) (asked [])
            (toolCallResponse "handoff_to_researcher" JsNull) JsNull
            _ _ _ _ _ _); try reflexivity.
  by apply list_elem_of_singleton.
Defined.

(** X7 on an LLM that always calls [echo], with two iterations allowed. *)
Lemma max_iterations_hands_off_witness :
  let tired := agentWith "tired" [whenExhausted "researcher"] in
  ∃ messages' s',
    run 2 [question] JsNull (runnerConfigOf [PlainTool echo] 2) plainHooks
        (Some tired) (start 0)
    = handoffFrom (run 1) (runnerConfigOf [PlainTool echo] 2) plainHooks
        messages' JsNull (whenExhausted "researcher") tired None s'
    ∧ length messages' = 1 + 2 * 2
    ∧ llmCalls (trace s') = llmCalls (trace (start 0)) + 2.
Proof.
  refine (max_iterations_hands_off JsNull (runnerConfigOf [PlainTool echo] 2) plainHooks
            (agentWith "tired" [whenExhausted "researcher"])
            [whenExhausted "researcher"] eq_refl 1 [question] (start 0)
            (whenExhausted "researcher") _ _); [reflexivity |].
  unfold onlyCallsRegularTools. simpl.
  repeat (eexists _, _, _, _, _, _, _; split_and!; [reflexivity .. |]).
  exact I.
Defined.

(** X8 on a handoff to the researcher, which does not return its steps. *)
Lemma handoff_result_shape_witness :
  ∃ result s',
    executeHandoff (run (World := Script) 1) [question] JsNull
      (handoffTo "researcher" None) coordinator "key" "model" 2 0%Q
      (createSuccessResult plainHooks) (createErrorResult plainHooks) None
      (start [inr (textResponse "Found.")])
    = (Some result, s')
    ∧ intermediateSteps result = None
    ∧ ∃ targetResult,
        success result = success targetResult
        ∧ terminationReason result
          = Some (match terminationReason targetResult with
                  | Some reason => reason
                  | None => handed_off
                  end).
Proof.
  destruct (executeHandoff (run (World := Script) 1) [question] JsNull
              (handoffTo "researcher" None) coordinator "key" "model" 2 0%Q
              (createSuccessResult plainHooks) (createErrorResult plainHooks) None
              (start [inr (textResponse "Found.")])) as [[result |] s'] eqn:Hexec;
    [| vm_compute in Hexec; discriminate Hexec].
  exists result, s'. split; [reflexivity |].
  eapply handoff_result_shape with (t := researcher) (c := researcherConfig) in Hexec
    as (targetResult & _ & _ & _ & _ & Hsuccess & _ & _ & Hreason & Hsteps);
    [| reflexivity].
  split; [exact Hsteps |]. by exists targetResult.
Defined.

(** X10 on an LLM that always calls [echo], with three iterations allowed. *)
Lemma run_without_handoffs_is_bounded_witness :
  ∃ events,
    trace (run 1 [question] JsNull (runnerConfigOf [PlainTool echo] 3) plainHooks None
               (start 0)).2
    = trace (start 0) ++ EvRunStart "Unknown" :: events
    ∧ llmCalls events ≤ 3
    ∧ toolExecutions events ≤ llmCalls events.
Proof.
  refine (run_without_handoffs_is_bounded 0 [question] JsNull
            (runnerConfigOf [PlainTool echo] 3) plainHooks None (start 0) _).
  reflexivity.
Defined.

(** X11 on the same run. *)
Lemma run_without_handoffs_outcome_witness :
  ∃ appended,
    Forall (fun m => isUser m = false) appended
    ∧ length appended ≤ 2 * 3
    ∧ endsRun plainHooks ([question] ++ appended)
        (run 1 [question] JsNull (runnerConfigOf [PlainTool echo] 3) plainHooks None
             (start 0)).1.
Proof.
  refine (run_without_handoffs_outcome 0 [question] JsNull
            (runnerConfigOf [PlainTool echo] 3) plainHooks None (start 0) _).
  reflexivity.
Defined.

End MoreInstances.

Section MoreGraphInstances.
Import Examples MoreExamples.
Import ConfigurableGraph.

Lemma declaredTwice_ownNodeTypes : ownNodeTypes declaredTwice.
Proof. by apply (bool_decide_unpack _). Defined.

Lemma threeEdges_ownNodeTypes : ownNodeTypes threeEdges.
Proof. by apply (bool_decide_unpack _). Defined.

Lemma threeEdges_ownConditionTypes : ownConditionTypes threeEdges.
Proof. by apply (bool_decide_unpack _). Defined.

(** X12 on the configuration that declares [agent] twice: [agent] is a node
    of the graph. *)
Lemma graph_nodes_are_declared_nodes_witness :
  is_Some (graphNodes (populate (graphCollaborators := toolRouting) declaredTwice tt).2
           !! "agent").
Proof.
  apply (graph_nodes_are_declared_nodes (graphCollaborators := toolRouting)
           declaredTwice tt "agent" declaredTwice_ownNodeTypes).
  exists {| name := "agent"; type := "agent" |}. split; [left | done].
Defined.

(** X14 on three declared edges, the second of an unknown condition type. *)
Lemma edges_of_unknown_condition_type_are_skipped_witness :
  edgeSource <$> conditionalEdges (populate (graphCollaborators := toolRouting)
                                     threeEdges tt).2
  = ["agent"; "tools"].
Proof.
  rewrite (edges_of_unknown_condition_type_are_skipped (graphCollaborators := toolRouting)
             threeEdges tt threeEdges_ownNodeTypes threeEdges_ownConditionTypes).
  reflexivity.
Defined.

(** X15 on the configuration with three edges: the declared entry point. *)
Lemma builder_fails_only_without_nodes_witness :
  ∃ entry,
    (createAgentGraphFromConfig (graphCollaborators := toolRouting) threeEdges tt).2
    = inr {| compiledEntry := entry;
             compiledGraph :=
               setEntryPoint entry
                 (populate (graphCollaborators := toolRouting) threeEdges tt).2 |}
    ∧ entry = "agent".
Proof.
  destruct (builder_fails_only_without_nodes (graphCollaborators := toolRouting)
              threeEdges tt threeEdges_ownNodeTypes)
    as (entry & Hbuilt & _ & Hdeclared & _).
  exists entry. split; [exact Hbuilt |]. apply Hdeclared.
  exists {| name := "agent"; type := "agent" |}. split; [left | done].
Defined.

(** X16 on an edge that routes to the tool executor: the edges of the graph
    are left as they were. *)
Lemma routing_keeps_graph_structure_witness :
  conditionalEdges (conditionFn (graphCollaborators := toolRouting) (edgeTo "tools") tt
                      (newStateGraph "chat")).2
  = conditionalEdges (newStateGraph "chat").
Proof.
  destruct (routing_keeps_graph_structure (graphCollaborators := toolRouting)
              (edgeTo "tools") tt (newStateGraph "chat")) as (_ & Hedges & _).
  { by apply (bool_decide_unpack _). }
  exact Hedges.
Defined.

(** X13 on the configuration that declares [agent] twice. *)
Lemma last_declaration_of_a_node_wins_witness :
  graphNodes (populate (graphCollaborators := toolRouting) declaredTwice tt).2 !! "agent"
  = Some (ErrorNode "Unknown node type planner for agent").
Proof.
  destruct (last_declaration_of_a_node_wins (graphCollaborators := toolRouting)
              declaredTwice tt [{| name := "agent"; type := "agent" |}] []
              {| name := "agent"; type := "planner" |} declaredTwice_ownNodeTypes
              eq_refl) as [Hstored Hdummy].
  { intros n Hn. by apply elem_of_nil in Hn. }
  rewrite Hdummy in Hstored; [exact Hstored |].
  intros Hin. simpl in Hin.
  repeat (apply elem_of_cons in Hin as [[=] | Hin]). by apply elem_of_nil in Hin.
Defined.

End MoreGraphInstances.

Section LiteLLMInstances.
Import MoreExamples.
Import LiteLLMClient.

(** X22 on a response that is a plain text. *)
Lemma parsed_answer_is_the_text_witness :
  functionCall {| text := Some "Hello"; functionCall := None; rawResponse := JsNull |}
  = None
  ∧ text {| text := Some "Hello"; functionCall := None; rawResponse := JsNull |}
    = Some "Hello"
  ∧ "Hello" ≠ "".
Proof.
  refine (parsed_answer_is_the_text trimAscii rejectJson
            {| text := Some "Hello"; functionCall := None; rawResponse := JsNull |}
            "Hello" _).
  reflexivity.
Defined.

(** X23 on a text that starts with a brace but lacks the marker. *)
Lemma text_without_marker_is_an_answer_witness :
  parseLiteLLMResponse trimAscii rejectJson
    {| text := Some "{ not a tool call }"; functionCall := None; rawResponse := JsNull |}
  = final_answer "{ not a tool call }".
Proof.
  refine (text_without_marker_is_an_answer trimAscii rejectJson
            {| text := Some "{ not a tool call }"; functionCall := None;
               rawResponse := JsNull |}
            "{ not a tool call }" eq_refl eq_refl _ _); [done |].
  left. reflexivity.
Defined.

(** X24 on a function call whose arguments are [null]. *)
Lemma parsed_tool_call_has_arguments_witness :
  truthy (JsObject []) = true
  ∧ (functionCall {| text := None;
                     functionCall := Some {| name := "click"; arguments := JsNull |};
                     rawResponse := JsNull |} = None →
     truthy (JsString "click") = true).
Proof.
  refine (parsed_tool_call_has_arguments trimAscii rejectJson
            {| text := None;
               functionCall := Some {| name := "click"; arguments := JsNull |};
               rawResponse := JsNull |}
            (JsString "click") (JsObject []) _).
  reflexivity.
Defined.

End LiteLLMInstances.

Section ServiceInstances.
Import MoreExamples.
Import AgentService.

(** X26 on a graph that yields one state with the answer appended. *)
Lemma sendMessage_returns_the_last_message_witness :
  let svc := serviceWith (Some (answers "Hi!" [userSays "Hello"])) (Some "key") in
  let svc' := (sendMessage "Hello" None None svc tt).1.2 in
  last (messages svc') = Some (answerMessage "Hi!" None)
  ∧ (∃ more,
       dispatched svc'
       = dispatched svc ++ (messages svc ++ [createUserMessage "Hello" None]) :: more)
  ∧ graph svc' = graph svc ∧ apiKey svc' = apiKey svc
  ∧ isInitialized svc' = isInitialized svc.
Proof.
  refine (sendMessage_returns_the_last_message "Hello" None None
            (serviceWith (Some (answers "Hi!" [userSays "Hello"])) (Some "key"))
            _ tt tt (answerMessage "Hi!" None) _).
  reflexivity.
Defined.

(** X27 on a service with a key and no graph. *)
Lemma sendMessage_without_graph_witness :
  let errorText := "Agent graph not initialized. Please try again." in
  let errorMessage := answerMessage errorText (Some errorText) in
  let '(outcome, svc', _) :=
    sendMessage "Hello" None None (serviceWith None (Some "key")) tt in
  outcome = inr errorMessage
  ∧ messages svc' = [userSays "Hello"; errorMessage]
  ∧ dispatched svc' = [[userSays "Hello"]; [userSays "Hello"; errorMessage]].
Proof.
  refine (sendMessage_without_graph "Hello" None None (serviceWith None (Some "key"))
            tt "key" eq_refl eq_refl _ _); done.
Defined.

(** X28 on a graph factory that rejects every key. *)
Lemma failed_initialize_keeps_the_key_witness :
  let '(failure, svc) := initialize "revoked" None newService in
  failure = Some (ThrownError "Failed to initialize agent.")
  ∧ apiKey svc = Some "revoked" ∧ isInitialized svc = false
  ∧ (sendMessage "Hello" None None svc tt).1.1
    = inr (answerMessage "Agent graph not initialized. Please try again."
                         (Some "Agent graph not initialized. Please try again.")).
Proof.
  refine (failed_initialize_keeps_the_key "revoked" None (ThrownError "unauthorized")
            "Hello" None None tt eq_refl _ _); done.
Defined.

End ServiceInstances.
